(** * Tourist safety system: emergency alert dispatch and account guard

    A shallow embedding of the SOS routes (trigger handler, sendSOSAlerts,
    sendTripleSMS, formatPhoneNumber), of the User model's security methods
    (isLocked, incLoginAttempts, resetLoginAttempts, generateOTP, verifyOTP)
    and of the login handler, with the properties the specification states
    about them.

    Sources: routes/sos.js (unnamed/part_001), models/SOSLog.js
    (unnamed/part_000), models/User.js (the second model of
    models/RestrictedArea.js), routes/auth.js.

    Conventions.
    - A JS string is a [string], the sequence of its bytes; a character
      outside ASCII is a few bytes, none of them a digit. A property that
      may be [undefined] or [null] is an [option].
    - A [Date] is its millisecond time value, a [Z]. The clock is an
      explicit argument: one reading for each synchronous method call,
      and separate readings on the two sides of an [await].
    - A plain JS object read by property name is a [gmap string string].
    - Effects (store writes, gateway calls, timers, responses) are recorded
      as a list of events, oldest first. Every awaited call settles. *)

From Stdlib Require Import ZArith List String Ascii Bool Lia QArith Qround Lqa Permutation.
From stdpp Require Import gmap strings list.
Import ListNotations.

Local Open Scope Z_scope.
Local Open Scope string_scope.

(** ** JavaScript helpers *)

Module Js.

(** [/\d/]: the ten ASCII digits. [\D] is its complement. *)
Definition isDigit (c : ascii) : bool :=
  let n := nat_of_ascii c in (48 <=? n)%nat && (n <=? 57)%nat.

(** [s.replace(re, '')] with a global single-character class: the
    characters matching the class are removed, the others kept in order. *)
Fixpoint removeAll (cls : ascii -> bool) (s : string) : string :=
  match s with
  | EmptyString => EmptyString
  | String c r => if cls c then removeAll cls r else String c (removeAll cls r)
  end.

(** [s.startsWith(p)]. *)
Definition startsWith (p s : string) : bool := String.prefix p s.

(** Truthiness of a value that is a string, [undefined] or [null]:
    only a non-empty string is truthy. *)
Definition truthy (v : option string) : bool :=
  match v with
  | Some s => negb (String.eqb s "")
  | None => false
  end.

(** A value of a parsed JSON body, or a [Date] made by the server.
    Numbers are the integral ones; objects and arrays are not needed. *)
Inductive Val :=
| Undefined
| Null
| Bool (b : bool)
| Number (n : Z)
| Str (s : string)
| Date (ms : Z).

(** ToBoolean. *)
Definition truthyVal (v : Val) : bool :=
  match v with
  | Undefined | Null => false
  | Bool b => b
  | Number n => negb (n =? 0)%Z
  | Str s => negb (String.eqb s "")
  | Date _ => true
  end.

(** [a || b]. *)
Definition orElse (a b : Val) : Val := if truthyVal a then a else b.

(** The decimal digit [d], for [0 <= d <= 9]. *)
Definition digitChar (d : Z) : ascii := ascii_of_nat (48 + Z.to_nat d).

(** Decimal digits of [n], most significant first, prepended to [acc]. *)
Fixpoint toDigits (fuel : nat) (n : Z) (acc : string) : string :=
  match fuel with
  | O => acc
  | S f =>
      let acc' := String (digitChar (n mod 10)) acc in
      if (n / 10 =? 0)%Z then acc' else toDigits f (n / 10) acc'
  end.

(** [n.toString()] for a non-negative integral number: its decimal
    digits without leading zeros. A number has at most [log2 n + 1]
    decimal digits. *)
Definition numberToString (n : Z) : string :=
  toDigits (S (Z.to_nat (Z.log2 n))) n "".

(** [Math.floor]. *)
Definition floor (x : Q) : Z := Qfloor x.

(** Every character of [s] satisfies [p]. *)
Fixpoint allChars (p : ascii -> bool) (s : string) : bool :=
  match s with
  | EmptyString => true
  | String c r => p c && allChars p r
  end.

End Js.

(** ** ContactResolver: formatPhoneNumber (sos routes, lines 181-194) *)

Definition countryCode : string := "91".

Definition formatPhoneNumber (phone : option string) : option string :=
  if negb (Js.truthy phone) then None
  else
    match phone with
    | None => None
    | Some p =>
        let cleaned := Js.removeAll (fun c => negb (Js.isDigit c)) p in
        let cleaned :=
          if (String.length cleaned =? 10)%nat then countryCode ++ cleaned else cleaned in
        let cleaned :=
          if negb (Js.startsWith "+" cleaned) then "+" ++ cleaned else cleaned in
        Some cleaned
    end.

(** The normalisation as the specification words it, for comparison. *)
Module SpecWords.

Definition stripNonDigits (s : string) : string :=
  Js.removeAll (fun c => negb (Js.isDigit c)) s.

Definition normalize (s : string) : string :=
  let d := stripNonDigits s in
  String "+" (if (String.length d =? 10)%nat then "91" ++ d else d).

End SpecWords.


(** ** The User model (models/User.js) *)

(** The fields of a user document that the modelled code reads or
    writes. [loginAttempts] has the schema default 0, which is also what
    a document reads after the field has been unset. *)
Record User := mkUser {
  _id : string;
  fullName : string;
  email : string;
  username : string;
  password : string;
  touristType : string;
  phoneNumber : option string;
  isPhoneVerified : bool;
  otpCode : option string;
  otpExpiry : option Z;
  loginAttempts : Z;
  lockUntil : option Z;
  lastLogin : option Z;
  emergencyContact : option (gmap string string)
}.

(** The schema's [match] on [phoneNumber]: [/^\+?[1-9]\d{1,14}$/]. *)
Definition phoneNumberMatch (s : string) : bool :=
  let digits :=
    match s with
    | String "+" r => r
    | _ => s
    end in
  match digits with
  | String c r =>
      Js.isDigit c && negb (Ascii.eqb c "0")
      && Js.allChars Js.isDigit r
      && (1 <=? String.length r)%nat && (String.length r <=? 14)%nat
  | EmptyString => false
  end.

(** The virtual [isLocked]: [!!(this.lockUntil && this.lockUntil > Date.now())]. *)
Definition isLocked (now : Z) (this : User) : bool :=
  match lockUntil this with
  | Some l => (now <? l)%Z
  | None => false
  end.

(** An update document for [updateOne], restricted to the two paths the
    model's methods update. *)
Record Update := mkUpdate {
  inc_loginAttempts : option Z;
  set_loginAttempts : option Z;
  set_lockUntil : option Z;
  unset_loginAttempts : bool;
  unset_lockUntil : bool
}.

(** [doc.updateOne(upd)]: the stored document after the update. *)
Definition updateOne (upd : Update) (doc : User) : User :=
  let attempts :=
    if unset_loginAttempts upd then 0
    else match set_loginAttempts upd with
         | Some n => n
         | None =>
             match inc_loginAttempts upd with
             | Some d => loginAttempts doc + d
             | None => loginAttempts doc
             end
         end in
  let lock :=
    if unset_lockUntil upd then None
    else match set_lockUntil upd with
         | Some l => Some l
         | None => lockUntil doc
         end in
  mkUser (_id doc) (fullName doc) (email doc) (username doc) (password doc)
         (touristType doc) (phoneNumber doc) (isPhoneVerified doc)
         (otpCode doc) (otpExpiry doc) attempts lock (lastLogin doc)
         (emergencyContact doc).

Definition lockDuration : Z := 2 * 60 * 60 * 1000.

(** [incLoginAttempts]: the update it sends, computed from the loaded
    document [this] at time [now]. *)
Definition incLoginAttempts_update (now : Z) (this : User) : Update :=
  let expired :=
    match lockUntil this with
    | Some l => (l <? now)%Z
    | None => false
    end in
  if expired then
    mkUpdate None (Some 1) None false true
  else
    let updates := mkUpdate (Some 1) None None false false in
    if (loginAttempts this + 1 >=? 5)%Z && negb (isLocked now this) then
      mkUpdate (inc_loginAttempts updates) (set_loginAttempts updates)
               (Some (now + lockDuration))
               (unset_loginAttempts updates) (unset_lockUntil updates)
    else updates.

Definition incLoginAttempts (now : Z) (this : User) : User :=
  updateOne (incLoginAttempts_update now this) this.

(** [resetLoginAttempts]. *)
Definition resetLoginAttempts (this : User) : User :=
  updateOne (mkUpdate None None None true true) this.

Definition otpLifetime : Z := 10 * 60 * 1000.

(** [generateOTP]. [random] is the value [Math.random()] returns, a
    number in [0, 1), taken as an exact rational. Returns the code and the
    document with the challenge fields assigned. *)
Definition generateOTP (random : Q) (now : Z) (this : User) : string * User :=
  let otp := Js.numberToString (Js.floor (100000 + random * 900000)) in
  (otp,
   mkUser (_id this) (fullName this) (email this) (username this) (password this)
          (touristType this) (phoneNumber this) (isPhoneVerified this)
          (Some otp) (Some (now + otpLifetime))
          (loginAttempts this) (lockUntil this) (lastLogin this)
          (emergencyContact this)).

(** [verifyOTP]: [this.otpCode === otp && this.otpExpiry > Date.now()],
    for a supplied code that is a string. Returns the verdict and the
    document, to which it assigns nothing. *)
Definition verifyOTP (now : Z) (this : User) (otp : string) : bool * User :=
  (match otpCode this with
   | Some c => String.eqb c otp
   | None => false
   end
   &&
   match otpExpiry this with
   | Some e => (now <? e)%Z
   | None => false
   end,
   this).

(** ** The login handler (routes/auth.js, from the user lookup on) *)

Inductive LoginResponse :=
| LoginOk                 (* 200, token issued *)
| InvalidCredentials      (* 401 *)
| Locked.                 (* 423 *)

Section Login.

(** [bcrypt.compare candidate hash]. *)
Variable bcryptCompare : string -> string -> bool.

Definition comparePassword (this : User) (candidate : string) : bool :=
  bcryptCompare candidate (password this).

(** One login request for the document [found] that [User.findOne]
    returned. [tCheck] is the clock when the lock is checked; [tUpdate]
    the clock when the stored document is updated, after the password
    comparison (on success: in the deferred callback that resets the
    counters and records [lastLogin]). The result is the response and the
    stored document once the request's updates are done. *)
Definition login (tCheck tUpdate : Z) (found : option User) (pw : string)
  : LoginResponse * option User :=
  match found with
  | None => (InvalidCredentials, None)
  | Some user =>
      if isLocked tCheck user then (Locked, Some user)
      else if negb (comparePassword user pw) then
        (InvalidCredentials, Some (incLoginAttempts tUpdate user))
      else
        let user' := resetLoginAttempts user in
        (LoginOk,
         Some (mkUser (_id user') (fullName user') (email user') (username user')
                      (password user') (touristType user') (phoneNumber user')
                      (isPhoneVerified user') (otpCode user') (otpExpiry user')
                      (loginAttempts user') (lockUntil user') (Some tUpdate)
                      (emergencyContact user')))
  end.

(** A login attempt: the two clock readings and the supplied secret. *)
Record Attempt := mkAttempt { tCheck : Z; tUpdate : Z; secret : string }.

(** Successive login requests against one stored document, each served
    to its end before the next one loads the document: the update of a
    failed request has reached the store, and so have the deferred reset
    and save of a successful one. *)
Fixpoint loginSeq (doc : option User) (attempts : list Attempt)
  : list LoginResponse * option User :=
  match attempts with
  | [] => ([], doc)
  | a :: rest =>
      let '(r, doc') := login (tCheck a) (tUpdate a) doc (secret a) in
      let '(rs, doc'') := loginSeq doc' rest in
      (r :: rs, doc'')
  end.

End Login.

(** ** The SOS log model (models/SOSLog.js) and the trigger request *)

(** [location] of the request body; the coordinates are held as the
    text a template literal renders them to. *)
Record Location := mkLocation { latitude : string; longitude : string }.

Record UserInfo := mkUserInfo {
  ui_fullName : string;
  ui_email : string;
  ui_phoneNumber : option string;
  ui_touristType : string;
  ui_username : string
}.

(** The document the trigger handler builds. The schema's casts are the
    library's; a field holds the value the handler assigns. *)
Record SOSLog := mkSOSLog {
  log_id : string;
  userId : string;
  userInfo : UserInfo;
  location : option Location;
  timestamp : Js.Val;
  status : string;
  alertType : string;
  emergencyContacts : list (gmap string string)
}.

(** [req.body] of a trigger request ([userInfo] is read and never used)
    with [req.user], the document the auth middleware loaded. *)
Record TriggerRequest := mkTriggerRequest {
  body_location : option Location;
  body_timestamp : Js.Val;
  req_user : User
}.

(** [process.env], the three variables the SOS routes read. *)
Record Env := mkEnv {
  TWILIO_ACCOUNT_SID : option string;
  TWILIO_AUTH_TOKEN : option string;
  TWILIO_PHONE_NUMBER : option string
}.

(** [twilio(sid, token)]: the client holds the credentials it was given. *)
Record TwilioClient := mkClient {
  accountSid : option string;
  authToken : option string
}.

Definition twilio (sid token : option string) : TwilioClient := mkClient sid token.

(** The argument of [client.messages.create]. *)
Record Message := mkMessage {
  body : string;
  from : option string;
  to : option string
}.

(** How a gateway call settles. *)
Inductive Settled :=
| Resolved (sid : string)
| Rejected (message : string).

(** The JSON body of the trigger response. *)
Record TriggerResponse := mkTriggerResponse {
  success : bool;
  message : string;
  alertId : option string;
  resp_timestamp : option Js.Val
}.

(** What the handler does to the outside world, in order. *)
Inductive Event :=
| EvSave (doc : SOSLog)                                 (* sosLog.save() stored doc *)
| EvGatewayCall (c : TwilioClient) (m : Message)        (* client.messages.create(m) *)
| EvSmsSent (messageType : string) (i : nat) (sid : string)     (* success log *)
| EvSmsFailed (messageType : string) (i : nat) (err : string)   (* failure log *)
| EvTimeout (ms : Z)                                    (* setTimeout wait elapsed *)
| EvResponse (code : Z) (r : TriggerResponse).          (* res.status(code).json(r) *)

Definition isGatewayCall (e : Event) : bool :=
  match e with EvGatewayCall _ _ => true | _ => false end.

Definition isGatewayCallTo (dest : option string) (e : Event) : bool :=
  match e with
  | EvGatewayCall _ m => bool_decide (to m = dest)
  | _ => false
  end.

Definition isTimeout (e : Event) : bool :=
  match e with EvTimeout _ => true | _ => false end.

Definition isResponse (e : Event) : bool :=
  match e with EvResponse _ _ => true | _ => false end.

Definition isSave (e : Event) : bool :=
  match e with EvSave _ => true | _ => false end.

(** A gateway call has settled: its success or its failure is logged. *)
Definition isSettled (e : Event) : bool :=
  match e with EvSmsSent _ _ _ | EvSmsFailed _ _ _ => true | _ => false end.

(** The kind of an event, to display a trace without its payloads. *)
Inductive Kind := Save | Call | Sent | Failed | Wait | Respond (code : Z).

Definition kindOf (e : Event) : Kind :=
  match e with
  | EvSave _ => Save
  | EvGatewayCall _ _ => Call
  | EvSmsSent _ _ _ => Sent
  | EvSmsFailed _ _ _ => Failed
  | EvTimeout _ => Wait
  | EvResponse code _ => Respond code
  end.

(** How many events of a trace satisfy [p]. *)
Definition countIf (p : Event -> bool) (tr : list Event) : nat :=
  length (List.filter p tr).

(** The promises of [smsPromises] run concurrently: each is a sequence
    of events, and the event loop interleaves them. A schedule names, step
    by step, the promise that advances; a step naming a finished promise
    is skipped, and when the schedule ends the promises still pending run
    to their end. Every schedule of the event loop is among these. *)
Fixpoint interleave (sched : list nat) (threads : list (list Event)) : list Event :=
  match sched with
  | [] => concat threads
  | k :: sched' =>
      match threads !! k with
      | Some (e :: rest) => e :: interleave sched' (<[k := rest]> threads)
      | _ => interleave sched' threads
      end
  end.

(** ** The SOS routes (routes/sos.js) *)

Section Sos.

(** The environment the module was loaded in. *)
Variable env : Env.

(** The gateway: how the call for attempt [i] of promise [k] settles. *)
Variable gateway : TwilioClient -> nat -> nat -> Message -> Settled.

(** Whether [sosLog.save()] resolves (validation and store succeed). *)
Variable saveResolves : SOSLog -> bool.

(** [new Date(ms).toLocaleTimeString('en-IN', ...)]. *)
Variable toLocaleTimeString : Z -> string.

(** The order in which the event loop advances the pending promises. *)
Variable sched : list nat.

(** The client is created once, when the module loads. *)
Definition client : TwilioClient :=
  twilio (TWILIO_ACCOUNT_SID env) (TWILIO_AUTH_TOKEN env).

Definition newline : string := String (ascii_of_nat 10) "".

Definition baseMessage (location : option Location) (currentTime : string) : string :=
  match location with
  | Some loc =>
      "🚨 EMERGENCY ALERT 🚨" ++ newline ++
      "Location: https://maps.google.com/maps?q=" ++ latitude loc ++ "," ++ longitude loc ++ newline ++
      "Time: " ++ currentTime ++ newline ++
      "Please call back immediately!"
  | None =>
      "🚨 EMERGENCY ALERT 🚨" ++ newline ++
      "Location: GPS unavailable" ++ newline ++
      "Time: " ++ currentTime ++ newline ++
      "Please call back immediately!"
  end.

(** One turn of the loop of [sendTripleSMS]: the call, then either the
    success log and, except after the last call, the two-second wait, or
    the failure log of the catch block. *)
Definition sendAttempt (msg : string) (k : nat) (phoneNumber : option string)
    (messageType : string) (i : nat) : list Event :=
  let m := mkMessage msg (TWILIO_PHONE_NUMBER env) phoneNumber in
  EvGatewayCall client m ::
  match gateway client k i m with
  | Resolved sid =>
      EvSmsSent messageType i sid ::
      (if (i <? 2)%nat then [EvTimeout 2000] else [])
  | Rejected err => [EvSmsFailed messageType i err]
  end.

(** [sendTripleSMS], run as promise number [k]: [for (i = 0; i < 3; i++)]. *)
Definition sendTripleSMS (msg : string) (k : nat) (phoneNumber : option string)
    (messageType : string) : list Event :=
  flat_map (sendAttempt msg k phoneNumber messageType) (seq 0 3).

Definition policeNumber : string := "+919876543210".

(** The destinations [sendSOSAlerts] pushes a promise for, in order,
    each with its message type. *)
Definition smsTargets (user : User) : list (option string * string) :=
  [(Some policeNumber, "Police")]
  ++ (match emergencyContact user with
      | Some contact =>
          if Js.truthy (contact !! "phoneNumber")
          then [(formatPhoneNumber (contact !! "phoneNumber"), "Emergency Contact")]
          else []
      | None => []
      end)
  ++ (if Js.truthy (phoneNumber user)
      then [(formatPhoneNumber (phoneNumber user), "User Confirmation")]
      else []).

(** [sendSOSAlerts]: the events up to the settling of [Promise.all]. *)
Definition sendSOSAlerts (now : Z) (user : User) (location : option Location)
  : list Event :=
  let msg := baseMessage location (toLocaleTimeString now) in
  let smsPromises :=
    imap (fun k target => sendTripleSMS msg k (fst target) (snd target))
         (smsTargets user) in
  interleave sched smsPromises.

(** The document of [new SOSLog({...})]; [newId] is its fresh [_id]. *)
Definition newSOSLog (newId : string) (now : Z) (req : TriggerRequest) : SOSLog :=
  let user := req_user req in
  mkSOSLog newId (_id user)
    (mkUserInfo (fullName user) (email user) (phoneNumber user)
                (touristType user) (username user))
    (body_location req)
    (Js.orElse (body_timestamp req) (Js.Date now))
    "active" "emergency"
    (match emergencyContact user with
     | Some contact => [contact]
     | None => []
     end).

(** [router.post('/trigger')], after the auth middleware. [now] is the
    clock when the document is built, [tSend] when [sendSOSAlerts]
    starts. *)
Definition trigger (newId : string) (now tSend : Z) (req : TriggerRequest)
  : list Event :=
  let sosLog := newSOSLog newId now req in
  if saveResolves sosLog then
    [EvSave sosLog]
    ++ sendSOSAlerts tSend (req_user req) (body_location req)
    ++ [EvResponse 200
          (mkTriggerResponse true "Emergency alert sent successfully"
             (Some (log_id sosLog)) (Some (timestamp sosLog)))]
  else
    [EvResponse 500
       (mkTriggerResponse false "Failed to send emergency alert" None None)].

End Sos.

(** ** The ContactResolver as the specification words it *)

(** For comparison with [smsTargets]: the source addresses in their
    order (the fixed emergency-services address, the emergency contact's
    address, the user's own), each normalised, those that fail
    normalisation left out. *)
Module ResolverWords.

Definition sourceAddresses (user : User) : list (option string * string) :=
  [(Some policeNumber, "Police");
   (match emergencyContact user with
    | Some contact => contact !! "phoneNumber"
    | None => None
    end, "Emergency Contact");
   (phoneNumber user, "User Confirmation")].

Definition resolve (user : User) : list (option string * string) :=
  omap (fun source =>
          match formatPhoneNumber (fst source) with
          | Some destination => Some (Some destination, snd source)
          | None => None
          end)
       (sourceAddresses user).

End ResolverWords.

(** ** Sample data *)

Module Sample.

Definition contact : gmap string string :=
  <["name" := "Ravi"]> (<["phone" := "9123456780"]> (<["relationship" := "brother"]> ∅)).

Definition alice : User :=
  mkUser "u1" "Alice Rao" "alice@example.org" "alice" "hash-of-secret" "indian"
         (Some "9812345678") false None None 0 None None (Some contact).

(** A user whose contact object carries a [phoneNumber] property. *)
Definition dave : User :=
  mkUser "u4" "Dave Nair" "dave@example.org" "dave" "hash-of-secret" "indian"
         (Some "+919900112233") false None None 0 None None
         (Some (<["phoneNumber" := "98450 12345"]> contact)).

(** A user with no number and an empty contact number. *)
Definition carol : User :=
  mkUser "u3" "Carol Sen" "carol@example.org" "carol" "hash-of-secret" "indian"
         None false None None 0 None None (Some (<["phoneNumber" := ""]> ∅)).

(** [bcrypt.compare] standing for a hash that only "secret" matches. *)
Definition compare (candidate hash : string) : bool :=
  String.eqb candidate "secret" && String.eqb hash "hash-of-secret".

Definition wrong (t : Z) : Attempt := mkAttempt t (t + 90) "guess".

Definition envConfigured : Env :=
  mkEnv (Some "AC123") (Some "token") (Some "+15550100").

Definition envUnconfigured : Env := mkEnv None None None.

Definition gatewayUp (c : TwilioClient) (k i : nat) (m : Message) : Settled :=
  Resolved "SM1".

Definition gatewayDown (c : TwilioClient) (k i : nat) (m : Message) : Settled :=
  Rejected "username is required".

(** The gateway throws on every attempt for the first promise only. *)
Definition gatewayPoliceDown (c : TwilioClient) (k i : nat) (m : Message) : Settled :=
  if (k =? 0)%nat then Rejected "unreachable" else Resolved "SM1".

(** The event loop advancing the pending promises in turn. *)
Definition roundRobin : list nat := concat (repeat [0; 1; 2]%nat 8).

Definition clockText (ms : Z) : string := "10:15:00 am".

Definition saves (doc : SOSLog) : bool := true.

Definition request (u : User) : TriggerRequest :=
  mkTriggerRequest None Js.Undefined u.

(** A request whose body carries a timestamp of the caller's choosing. *)
Definition backdated (u : User) : TriggerRequest :=
  mkTriggerRequest (Some (mkLocation "12.9" "77.6"))
                   (Js.Str "1999-12-31T23:59:59.000Z") u.

End Sample.

(** * Further code of the same files *)

(** ** The lockout fields taken together *)

(** No failure count is negative, and a lock expiry is stored exactly
    when five or more failures are counted. *)
Definition lockoutConsistent (u : User) : Prop :=
  0 <= loginAttempts u /\ (lockUntil u = None <-> loginAttempts u < 5).

(** ** Login requests that overlap (routes/auth.js, [/login]) *)

(** What a login request sends to the store after it has loaded its copy
    of the document. The store applies an update to the document it
    holds then, not to the copy the request loaded. *)
Inductive StoreWrite :=
| UpdateOne (upd : Update)     (* await user.updateOne(upd) *)
| SaveLastLogin (t : Z).       (* user.lastLogin = new Date(); await user.save() *)

Definition applyWrite (doc : User) (w : StoreWrite) : User :=
  match w with
  | UpdateOne upd => updateOne upd doc
  | SaveLastLogin t =>
      mkUser (_id doc) (fullName doc) (email doc) (username doc) (password doc)
             (touristType doc) (phoneNumber doc) (isPhoneVerified doc)
             (otpCode doc) (otpExpiry doc) (loginAttempts doc) (lockUntil doc)
             (Some t) (emergencyContact doc)
  end.

Section LoginOverlap.

Variable bcryptCompare : string -> string -> bool.

(** The handler on the copy [found] that [User.findOne] returned: the
    response, and the writes it sends in their order. A failed request
    awaits its one update before it answers; a successful one answers
    first and sends the reset and the save from the deferred callback.
    The update of [incLoginAttempts] is computed from the copy. *)
Definition loginLoad (tCheck tUpdate : Z) (found : option User) (pw : string)
  : LoginResponse * list StoreWrite :=
  match found with
  | None => (InvalidCredentials, [])
  | Some user =>
      if isLocked tCheck user then (Locked, [])
      else if negb (comparePassword bcryptCompare user pw) then
        (InvalidCredentials, [UpdateOne (incLoginAttempts_update tUpdate user)])
      else
        (LoginOk,
         [UpdateOne (mkUpdate None None None true true); SaveLastLogin tUpdate])
  end.

(** The steps of a run of several requests on one stored document:
    request [i] loads the document and decides its response and writes,
    or the next write of request [i] reaches the store. *)
Inductive Step :=
| Loads (i : nat) (a : Attempt)
| Lands (i : nat).

(** The stored document, the writes still to land for each request, and
    the responses in the order in which the requests loaded. *)
Record Run := mkRun {
  stored : option User;
  pending : gmap nat (list StoreWrite);
  answers : list LoginResponse
}.

Definition step (st : Run) (s : Step) : Run :=
  match s with
  | Loads i a =>
      let '(r, ws) := loginLoad (tCheck a) (tUpdate a) (stored st) (secret a) in
      mkRun (stored st) (<[i := ws]> (pending st)) (answers st ++ [r])
  | Lands i =>
      match pending st !! i with
      | Some (w :: ws) =>
          mkRun ((fun doc => applyWrite doc w) <$> stored st)
                (<[i := ws]> (pending st)) (answers st)
      | _ => st
      end
  end.

Definition loginRun (doc : option User) (schedule : list Step) : Run :=
  foldl step (mkRun doc ∅ []) schedule.

End LoginOverlap.

(** The schedule that serves the requests one at a time: request [k]
    loads, and both writes it may have sent land, before request [k + 1]
    loads. *)
Fixpoint serial (k : nat) (attempts : list Attempt) : list Step :=
  match attempts with
  | [] => []
  | a :: rest => Loads k a :: Lands k :: Lands k :: serial (S k) rest
  end.

(** The requests numbered from [k] on load one after the other. *)
Fixpoint loadsFrom (k : nat) (attempts : list Attempt) : list Step :=
  match attempts with
  | [] => []
  | a :: rest => Loads k a :: loadsFrom (S k) rest
  end.

(** A schedule in which all requests load before any write lands; the
    writes land in the order [order] of the requests. *)
Definition batch (attempts : list Attempt) (order : list nat) : list Step :=
  (loadsFrom 0 attempts ++ map Lands order)%list.

(** ** Replies and stored accounts *)

(** [res.status(code).json({ success, message })]. *)
Record Reply := mkReply {
  reply_code : Z;
  reply_success : bool;
  reply_message : string
}.

(** A stored user document with the two further fields the middleware
    and the OTP login read. *)
Record Account := mkAccount {
  account_user : User;
  isActive : bool;
  verificationStatus : string
}.

(** ** Phone verification (routes/phone-verification.js, the second
    module of routes/auth.js) *)

Section PhoneVerification.

Variable env : Env.

(** Whether [user.save()] resolves. *)
Variable saveUser : User -> bool.

(** [SID && TOKEN ? twilio(SID, TOKEN) : null]. *)
Definition twilioClient : option TwilioClient :=
  if Js.truthy (TWILIO_ACCOUNT_SID env) && Js.truthy (TWILIO_AUTH_TOKEN env)
  then Some (twilio (TWILIO_ACCOUNT_SID env) (TWILIO_AUTH_TOKEN env))
  else None.

Definition otpMessage (otp : string) : string :=
  "Your Tourist Safety System verification code is: " ++ otp
  ++ ". Valid for 10 minutes.".

(** [router.post('/send-otp')] after the auth middleware, for the
    document [found] that [User.findById] returned: the reply, the stored
    document afterwards, and the gateway calls made. The call's outcome is
    caught and only logged. *)
Definition sendOtp (random : Q) (now : Z) (found : option User)
  : Reply * option User * list Event :=
  match found with
  | None => (mkReply 404 false "User not found", None, [])
  | Some user =>
      if isPhoneVerified user then
        (mkReply 400 false "Phone number is already verified", Some user, [])
      else
        let '(otp, user') := generateOTP random now user in
        if negb (saveUser user') then
          (mkReply 500 false "Server error", Some user, [])
        else
          (mkReply 200 true
             "OTP sent successfully to your phone number. Check server console for OTP if SMS failed.",
           Some user',
           match twilioClient with
           | Some c =>
               [EvGatewayCall c (mkMessage (otpMessage otp) (TWILIO_PHONE_NUMBER env)
                                           (phoneNumber user'))]
           | None => []
           end)
  end.

(** The document with the phone marked verified and the challenge
    cleared. *)
Definition markVerified (user : User) : User :=
  mkUser (_id user) (fullName user) (email user) (username user) (password user)
         (touristType user) (phoneNumber user) true None None
         (loginAttempts user) (lockUntil user) (lastLogin user)
         (emergencyContact user).

(** [router.post('/verify-otp')] after the auth middleware: [otp] is the
    body's field, [found] the document [User.findById] returns once the
    field has passed the presence test. *)
Definition verifyOtp (now : Z) (otp : option string) (found : option User)
  : Reply * option User :=
  if negb (Js.truthy otp) then (mkReply 400 false "OTP is required", found)
  else
    match found, otp with
    | None, _ => (mkReply 404 false "User not found", None)
    | Some user, None => (mkReply 400 false "OTP is required", Some user)
    | Some user, Some code =>
        if isPhoneVerified user then
          (mkReply 400 false "Phone number is already verified", Some user)
        else if negb (fst (verifyOTP now user code)) then
          (mkReply 400 false "Invalid or expired OTP", Some user)
        else if negb (saveUser (markVerified user)) then
          (mkReply 500 false "Server error", Some user)
        else
          (mkReply 200 true "Phone number verified successfully",
           Some (markVerified user))
    end.

End PhoneVerification.

(** ** OTP login (routes/auth.js, [/login/verify-otp]) *)

Section OtpLogin.

(** Whether [user.save()] resolves. *)
Variable saveUser : User -> bool.

(** [generateToken(user._id)]: the token, or nothing when signing throws. *)
Variable generateToken : string -> option string.

(** The document with the challenge cleared and [lastLogin] set. *)
Definition consumeChallenge (now : Z) (user : User) : User :=
  mkUser (_id user) (fullName user) (email user) (username user) (password user)
         (touristType user) (phoneNumber user) (isPhoneVerified user) None None
         (loginAttempts user) (lockUntil user) (Some now)
         (emergencyContact user).

(** The handler, for the account [found] that [User.findById] returned:
    the reply, the issued token and the stored account afterwards. *)
Definition loginVerifyOtp (now : Z) (found : option Account) (otp : string)
  : Reply * option string * option Account :=
  match found with
  | None => (mkReply 404 false "User not found", None, None)
  | Some acc =>
      let user := account_user acc in
      if negb (isActive acc) then
        (mkReply 404 false "User not found", None, Some acc)
      else if negb (fst (verifyOTP now user otp)) then
        (mkReply 400 false "Invalid or expired OTP", None, Some acc)
      else
        let user' := consumeChallenge now user in
        if negb (saveUser user') then
          (mkReply 500 false "Login verification failed", None, Some acc)
        else
          let acc' := mkAccount user' (isActive acc) (verificationStatus acc) in
          match generateToken (_id user') with
          | Some token => (mkReply 200 true "Login successful", Some token, Some acc')
          | None => (mkReply 500 false "Login verification failed", None, Some acc')
          end
  end.

End OtpLogin.

(** ** The auth middleware (middleware/auth.js, unnamed/part_002) *)

(** [s.substring(n)]. *)
Fixpoint dropChars (n : nat) (s : string) : string :=
  match n, s with
  | O, _ => s
  | S n', String _ r => dropChars n' r
  | S _, EmptyString => EmptyString
  end.

(** [s.replace(pat, '')] for a non-empty string pattern: the first
    occurrence of [pat] is removed. *)
Fixpoint replaceFirst (pat : string) (s : string) : string :=
  if String.prefix pat s then dropChars (String.length pat) s
  else
    match s with
    | EmptyString => EmptyString
    | String c r => String c (replaceFirst pat r)
    end.

(** The fields of a decoded token the middleware reads. *)
Record Decoded := mkDecoded {
  decoded_userId : option string;
  decoded_id : option string
}.

Inductive AuthOutcome :=
| Next (user : User)                      (* req.user = user; next() *)
| Reject (code : Z) (message : string).   (* res.status(code).json(...) *)

Section Middleware.

(** [jwt.verify(token, secret)]: the decoded payload, or nothing when it
    throws. *)
Variable jwtVerify : string -> option Decoded.

(** The user collection, by [_id]. *)
Variable store : gmap string Account.

(** [req.header('Authorization')?.replace('Bearer ', '') || req.cookies?.token]. *)
Definition requestToken (authorization cookie : option string) : option string :=
  let fromHeader := replaceFirst "Bearer " <$> authorization in
  if Js.truthy fromHeader then fromHeader else cookie.

(** [authenticateUser]; [tAuth] is the clock when the lock is looked at.
    The ids in tokens are taken to be well-formed object ids, so that
    [findById] returns a document or nothing. The projection that leaves
    the password out of [req.user] is not modelled: no handler reads it. *)
Definition authenticateUser (tAuth : Z) (authorization cookie : option string)
  : AuthOutcome :=
  let token := requestToken authorization cookie in
  match token with
  | None => Reject 401 "Access denied. No token provided."
  | Some t =>
      if negb (Js.truthy token) then Reject 401 "Access denied. No token provided."
      else
        match jwtVerify t with
        | None => Reject 401 "Invalid token."
        | Some decoded =>
            let key :=
              if Js.truthy (decoded_userId decoded) then decoded_userId decoded
              else decoded_id decoded in
            match key ≫= (fun k => store !! k) with
            | None => Reject 401 "Invalid token or user not found."
            | Some acc =>
                if negb (isActive acc) then
                  Reject 401 "Invalid token or user not found."
                else if isLocked tAuth (account_user acc) then
                  Reject 423
                    "Account is temporarily locked due to multiple failed login attempts."
                else Next (account_user acc)
            end
        end
  end.

End Middleware.

(** ** The SOS routes behind the middleware *)

Section SosRoutes.

Variable env : Env.
Variable gateway : TwilioClient -> nat -> nat -> Message -> Settled.
Variable saveResolves : SOSLog -> bool.
Variable toLocaleTimeString : Z -> string.
Variable sched : list nat.
Variable jwtVerify : string -> option Decoded.
Variable store : gmap string Account.

(** [router.post('/trigger', authenticateUser, handler)]. *)
Definition triggerRoute (authorization cookie : option string)
    (loc : option Location) (ts : Js.Val) (newId : string) (tAuth now tSend : Z)
  : list Event :=
  match authenticateUser jwtVerify store tAuth authorization cookie with
  | Next user =>
      trigger env gateway saveResolves toLocaleTimeString sched newId now tSend
              (mkTriggerRequest loc ts user)
  | Reject code message =>
      [EvResponse code (mkTriggerResponse false message None None)]
  end.

(** The JSON body of the [/test-sms] response. *)
Record TestSmsResponse := mkTestSmsResponse {
  test_code : Z;
  test_success : bool;
  test_message : string;
  test_sid : option string;
  test_to : option string;
  test_error : option string
}.

Definition testMessage (currentTime : string) : string :=
  "🚨 EMERGENCY ALERT 🚨" ++ newline ++
  "Location: GPS unavailable" ++ newline ++
  "Time: " ++ currentTime ++ newline ++
  "Please call back immediately!".

(** [router.post('/test-sms')], which no middleware guards: the gateway
    calls made and the response. Its local [formatPhoneNumber] has the
    text of the dispatcher's. *)
Definition testSms (now : Z) (phoneNumber : option string)
  : list Event * TestSmsResponse :=
  let userPhone := if Js.truthy phoneNumber then phoneNumber else Some "+919876543210" in
  let testPhone :=
    formatPhoneNumber (if Js.truthy phoneNumber then phoneNumber else userPhone) in
  let m := mkMessage (testMessage (toLocaleTimeString now)) (TWILIO_PHONE_NUMBER env)
                     testPhone in
  ([EvGatewayCall (client env) m],
   match gateway (client env) 0 0 m with
   | Resolved sid =>
       mkTestSmsResponse 200 true "Test SMS sent successfully" (Some sid) testPhone None
   | Rejected err =>
       mkTestSmsResponse 500 false "Test SMS failed" None None (Some err)
   end).

End SosRoutes.

(** ** Further sample data *)

Module Fixture.

(** Every save resolves. *)
Definition saves (u : User) : bool := true.

(** Signing a token throws. *)
Definition signingThrows (id : string) : option string := None.

Definition signs (id : string) : option string := Some ("jwt-for-" ++ id).

(** Alice after five wrong secrets, the last at clock 90: locked until
    7200090. *)
Definition lockedAlice : User :=
  incLoginAttempts 90
    (updateOne (mkUpdate (Some 4) None None false false) Sample.alice).

(** Locked Alice holding the challenge "325000", issued at clock 1000. *)
Definition lockedWithChallenge : Account :=
  mkAccount (snd (generateOTP (1 # 4) 1000 lockedAlice)) true "pending".

(** Tokens "t1", "t4" decode to the ids of Alice and Dave. *)
Definition jwtVerify (token : string) : option Decoded :=
  if String.eqb token "t1" then Some (mkDecoded (Some "u1") None)
  else if String.eqb token "t4" then Some (mkDecoded None (Some "u4"))
  else None.

Definition store : gmap string Account :=
  <["u1" := mkAccount Sample.alice true "approved"]>
    (<["u4" := mkAccount Sample.dave true "pending"]> ∅).

End Fixture.

(** ** Registration (routes/auth.js, [/register/indian] and
    [/register/foreign]) *)

(** The number as it is stored:
    [phoneNumber.startsWith('+') ? phoneNumber : '+91' + phoneNumber]. *)
Definition formattedPhoneNumber (phoneNumber : string) : string :=
  if Js.startsWith "+" phoneNumber then phoneNumber else "+91" ++ phoneNumber.

(** The [phoneNumber] and [username] disjuncts of the lookup of an
    existing user, [User.findOne({ $or: [{ email }, { username },
    { phoneNumber }] })], over the stored documents. *)
Definition phoneNumberTaken (users : list User) (number : string) : bool :=
  existsb (fun u => bool_decide (phoneNumber u = Some number)) users.

Definition usernameTaken (users : list User) (name : string) : bool :=
  existsb (fun u => String.eqb (username u) name) users.

(** The lower-case form of an ASCII character: A-Z become a-z. *)
Definition lowerChar (c : ascii) : ascii :=
  let n := nat_of_ascii c in
  if (65 <=? n)%nat && (n <=? 90)%nat then ascii_of_nat (n + 32) else c.

Fixpoint asciiLower (s : string) : string :=
  match s with
  | EmptyString => EmptyString
  | String c r => String (lowerChar c) (asciiLower r)
  end.

(** Whether [s] holds ASCII characters only. *)
Definition isAscii (s : string) : bool :=
  Js.allChars (fun c => (nat_of_ascii c <? 128)%nat) s.

(** What is used of [String.prototype.toLowerCase]: on a string of
    ASCII characters it lowers A-Z and leaves the rest. Its mapping of
    other characters is left open. *)
Definition lowersAscii (toLowerCase : string -> string) : Prop :=
  forall s, isAscii s = true -> toLowerCase s = asciiLower s.

Section CheckUsername.

(** [String.prototype.toLowerCase]. *)
Variable toLowerCase : string -> string.

(** [/check-username], for a body whose [username] is a string: the
    [available] field of the reply,
    [!(await User.findOne({ username: username.toLowerCase() }))]. *)
Definition checkUsername (users : list User) (name : string) : bool :=
  negb (usernameTaken users (toLowerCase name)).

End CheckUsername.

(** ** Restricted areas (routes/areas.js, [POST /restricted]) *)

(** A number: a finite one, taken as a rational, NaN, or an infinity. *)
Inductive Num :=
| NumQ (q : Q)
| NumNaN
| NumInf (negative : bool).

(** A field of the parsed request body (JSON or urlencoded): absent,
    null, a boolean, a number, a string, or an array or object, which is
    kept as the text that ToString gives for it. *)
Inductive BodyField :=
| Absent
| FNull
| FBool (b : bool)
| FNumber (n : Num)
| FString (s : string)
| FObject (text : string).

(** ToBoolean. *)
Definition truthyField (v : BodyField) : bool :=
  match v with
  | Absent | FNull => false
  | FBool b => b
  | FNumber (NumQ q) => negb (Qeq_bool q 0)
  | FNumber NumNaN => false
  | FNumber (NumInf _) => true
  | FString s => negb (String.eqb s "")
  | FObject _ => true
  end.

(** [a || d]. *)
Definition orField (a d : BodyField) : BodyField := if truthyField a then a else d.

(** [n < q] and [n > q] for a number [n] and a finite [q]. *)
Definition numLt (n : Num) (q : Q) : bool :=
  match n with
  | NumQ x => negb (Qle_bool q x)
  | NumNaN => false
  | NumInf negative => negative
  end.

Definition numGt (n : Num) (q : Q) : bool :=
  match n with
  | NumQ x => negb (Qle_bool x q)
  | NumNaN => false
  | NumInf negative => negb negative
  end.

Record AreaBody := mkAreaBody {
  ab_name : BodyField;
  ab_description : BodyField;
  ab_latitude : BodyField;
  ab_longitude : BodyField;
  ab_radius : BodyField;
  ab_severity : BodyField;
  ab_category : BodyField;
  ab_validUntil : BodyField;
  ab_alertMessage : BodyField
}.

(** The object handed to [new RestrictedArea]; [area_validUntil] holds
    the value given to [new Date], if any. *)
Record AreaDoc := mkAreaDoc {
  area_name : BodyField;
  area_description : BodyField;
  area_latitude : Num;
  area_longitude : Num;
  area_radius : BodyField;
  area_severity : BodyField;
  area_category : BodyField;
  area_validUntil : option BodyField;
  area_alertMessage : BodyField;
  area_createdBy : string
}.

Section Areas.

(** ToNumber of a string, which [<] and [>] apply to a string operand. *)
Variable stringToNumber : string -> Num.

(** [parseFloat] of a string. *)
Variable parseFloat : string -> Num.

(** Whether [newArea.save()] resolves (casting, schema validation and
    store). *)
Variable saveArea : AreaDoc -> bool.

(** ToNumber of a field that is compared with a number. *)
Definition toNumber (v : BodyField) : Num :=
  match v with
  | Absent => NumNaN
  | FNull => NumQ 0
  | FBool b => NumQ (if b then 1 else 0)
  | FNumber n => n
  | FString s => stringToNumber s
  | FObject text => stringToNumber text
  end.

(** [parseFloat(v)], which reads the text of [v]: of a number, the
    number itself, read back from its own text; of "undefined", "null",
    "true" and "false", NaN. *)
Definition parseFloatOf (v : BodyField) : Num :=
  match v with
  | Absent | FNull | FBool _ => NumNaN
  | FNumber n => n
  | FString s => parseFloat s
  | FObject text => parseFloat text
  end.

(** The handler after the auth middleware, for the user id [createdBy]:
    the reply and the document saved. *)
Definition addRestrictedArea (createdBy : string) (b : AreaBody)
  : Reply * option AreaDoc :=
  let latitude := ab_latitude b in
  let longitude := ab_longitude b in
  if negb (truthyField (ab_name b)) || negb (truthyField latitude)
     || negb (truthyField longitude) then
    (mkReply 400 false "Name, latitude, and longitude are required", None)
  else if numLt (toNumber latitude) (-90) || numGt (toNumber latitude) 90
          || numLt (toNumber longitude) (-180) || numGt (toNumber longitude) 180 then
    (mkReply 400 false "Invalid coordinates", None)
  else
    let newArea :=
      mkAreaDoc (ab_name b) (ab_description b)
                (parseFloatOf latitude) (parseFloatOf longitude)
                (orField (ab_radius b) (FNumber (NumQ 1000)))
                (orField (ab_severity b) (FString "medium"))
                (orField (ab_category b) (FString "other"))
                (if truthyField (ab_validUntil b) then Some (ab_validUntil b) else None)
                (orField (ab_alertMessage b)
                   (FString
                      "This area is restricted for safety reasons. Please avoid entering."))
                createdBy in
    if saveArea newArea then
      (mkReply 201 true "Restricted area added successfully", Some newArea)
    else
      (mkReply 500 false "Failed to add restricted area", None).

End Areas.

(** ** Document text (routes/ocr.js, [extractDocumentInfo]) *)

Module Ocr.

(** Recognised text, as its UTF-16 code units. *)
Definition Text := list N.

(** [\d]. *)
Definition isDigit (c : N) : bool := (48 <=? c)%N && (c <=? 57)%N.

(** [\w]: [A-Za-z0-9_]. *)
Definition isWord (c : N) : bool :=
  isDigit c || ((65 <=? c)%N && (c <=? 90)%N) || ((97 <=? c)%N && (c <=? 122)%N)
  || (c =? 95)%N.

(** [\s]: the white space and line terminator code units. *)
Definition isSpace (c : N) : bool :=
  ((9 <=? c)%N && (c <=? 13)%N) || (c =? 32)%N || (c =? 160)%N || (c =? 5760)%N
  || ((8192 <=? c)%N && (c <=? 8202)%N) || (c =? 8232)%N || (c =? 8233)%N
  || (c =? 8239)%N || (c =? 8287)%N || (c =? 12288)%N || (c =? 65279)%N.

Definition isDash (c : N) : bool := (c =? 45)%N.

(** [\d{n}] at the head of [t]: the digits matched and the rest. *)
Fixpoint takeDigits (n : nat) (t : Text) : option (Text * Text) :=
  match n with
  | O => Some ([], t)
  | S n' =>
      match t with
      | c :: r =>
          if isDigit c then
            match takeDigits n' r with
            | Some (m, rest) => Some (c :: m, rest)
            | None => None
            end
          else None
      | [] => None
      end
  end.

(** [\s*] at the head of [t], greedy: the white space matched and the
    rest. What follows it in the patterns is a digit, so giving white
    space back never helps. *)
Fixpoint takeSpaces (t : Text) : Text * Text :=
  match t with
  | c :: r => if isSpace c then (c :: fst (takeSpaces r), snd (takeSpaces r)) else ([], t)
  | [] => ([], [])
  end.

(** One literal ['-']. *)
Definition takeDash (t : Text) : option (Text * Text) :=
  match t with
  | c :: r => if isDash c then Some ([c], r) else None
  | [] => None
  end.

(** [\b] before a digit: the code unit before is no word character. *)
Definition boundaryBefore (prev : option N) : bool :=
  match prev with
  | Some c => negb (isWord c)
  | None => true
  end.

(** [\b] after a digit: the code unit after is no word character. *)
Definition boundaryAfter (rest : Text) : bool :=
  match rest with
  | c :: _ => negb (isWord c)
  | [] => true
  end.

(** Three groups of four digits with separators taken by [sep]. *)
Definition threeGroups (sep : Text -> option (Text * Text)) (t : Text)
  : option (Text * Text) :=
  match takeDigits 4 t with
  | Some (g1, r1) =>
      match sep r1 with
      | Some (s1, r2) =>
          match takeDigits 4 r2 with
          | Some (g2, r3) =>
              match sep r3 with
              | Some (s2, r4) =>
                  match takeDigits 4 r4 with
                  | Some (g3, r5) => Some ((g1 ++ s1 ++ g2 ++ s2 ++ g3)%list, r5)
                  | None => None
                  end
              | None => None
              end
          | None => None
          end
      | None => None
      end
  | None => None
  end.

Definition anySpaces (t : Text) : option (Text * Text) := Some (takeSpaces t).

Definition someSpaces (t : Text) : option (Text * Text) :=
  match takeSpaces t with
  | ([], _) => None
  | found => Some found
  end.

(** A pattern tried at one position: [prev] is the code unit before the
    position, [t] the text from the position on; the result is the text
    matched. *)
Definition Pattern := option N -> Text -> option Text.

(** [/\b\d{4}\s*\d{4}\s*\d{4}\b/]. *)
Definition spacedBounded : Pattern := fun prev t =>
  if boundaryBefore prev then
    match threeGroups anySpaces t with
    | Some (m, rest) => if boundaryAfter rest then Some m else None
    | None => None
    end
  else None.

(** [/\b\d{12}\b/]. *)
Definition twelveBounded : Pattern := fun prev t =>
  if boundaryBefore prev then
    match takeDigits 12 t with
    | Some (m, rest) => if boundaryAfter rest then Some m else None
    | None => None
    end
  else None.

(** [/\d{4}\s+\d{4}\s+\d{4}/]. *)
Definition spaced : Pattern := fun _ t => fst <$> threeGroups someSpaces t.

(** [/\d{4}-\d{4}-\d{4}/]. *)
Definition dashed : Pattern := fun _ t => fst <$> threeGroups takeDash t.

(** [text.match(pattern)]: the match at the leftmost position that has
    one. *)
Fixpoint search (p : Pattern) (prev : option N) (t : Text) : option Text :=
  match p prev t with
  | Some m => Some m
  | None =>
      match t with
      | c :: r => search p (Some c) r
      | [] => None
      end
  end.

Definition aadharPatterns : list Pattern :=
  [spacedBounded; twelveBounded; spaced; dashed].

(** The loop over the patterns: the match of the first pattern that
    matches. *)
Fixpoint firstMatch (patterns : list Pattern) (text : Text) : option Text :=
  match patterns with
  | p :: rest =>
      match search p None text with
      | Some m => Some m
      | None => firstMatch rest text
      end
  | [] => None
  end.

(** [extractDocumentInfo(text).documentNumber]: the match without its
    white space and dashes, or the empty string. *)
Definition extractDocumentInfo (text : Text) : Text :=
  match firstMatch aadharPatterns text with
  | Some m => List.filter (fun c => negb (isSpace c || isDash c)) m
  | None => []
  end.

(** The registration's test of an Aadhar number,
    [/^\d{12}$/.test(v.replace(/\s/g, ''))]. *)
Definition isAadhar (v : Text) : bool :=
  let cleaned := List.filter (fun c => negb (isSpace c)) v in
  (length cleaned =? 12)%nat && forallb isDigit cleaned.

(** The code units of an ASCII string. *)
Definition ofString (s : string) : Text :=
  map (fun c => N.of_nat (nat_of_ascii c)) (list_ascii_of_string s).

End Ocr.
(** ** Properties of the normalisation *)

Section Normalisation.

Lemma removeAll_nondigits_allDigits (s : string) :
  Js.allChars Js.isDigit (SpecWords.stripNonDigits s) = true.
Proof.
  unfold SpecWords.stripNonDigits.
  induction s as [|c r IH]; simpl; [reflexivity|].
  destruct (Js.isDigit c) eqn:Hc; simpl; [rewrite Hc|]; exact IH.
Qed.

Lemma removeAll_nondigits_filter (s : string) :
  list_ascii_of_string (SpecWords.stripNonDigits s) =
  List.filter Js.isDigit (list_ascii_of_string s).
Proof.
  unfold SpecWords.stripNonDigits.
  induction s as [|c r IH]; simpl; [reflexivity|].
  destruct (Js.isDigit c); simpl; [f_equal|]; exact IH.
Qed.

Lemma allDigits_not_plus (s : string) :
  Js.allChars Js.isDigit s = true -> Js.startsWith "+" s = false.
Proof.
  destruct s as [|c r]; simpl; [reflexivity|].
  intros H. apply andb_prop in H as [Hc _].
  unfold Js.startsWith.
  destruct c as [[] [] [] [] [] [] [] []]; try reflexivity; discriminate Hc.
Qed.

Lemma allChars_app (p : ascii -> bool) (a b : string) :
  Js.allChars p (a ++ b) = Js.allChars p a && Js.allChars p b.
Proof.
  induction a as [|c r IH]; simpl; [reflexivity|].
  rewrite IH. apply andb_assoc.
Qed.

End Normalisation.

(** On a truthy address [formatPhoneNumber] is the specification's
    normalisation; on a falsy one it is [null]. *)
Lemma formatPhoneNumber_cases (v : option string) :
  formatPhoneNumber v =
  match v with
  | Some s => if String.eqb s "" then None else Some (SpecWords.normalize s)
  | None => None
  end.
Proof.
  destruct v as [s|]; [|reflexivity].
  unfold formatPhoneNumber, Js.truthy.
  destruct (String.eqb s "") eqn:He; simpl; [reflexivity|].
  unfold SpecWords.normalize.
  pose proof (removeAll_nondigits_allDigits s) as Hd.
  unfold SpecWords.stripNonDigits in *.
  set (d := Js.removeAll _ s) in *.
  destruct (String.length d =? 10)%nat.
  - rewrite allDigits_not_plus; [reflexivity|].
    unfold countryCode. rewrite allChars_app, Hd. reflexivity.
  - rewrite allDigits_not_plus; [reflexivity|exact Hd].
Qed.

(** C8. Normalisation strips every non-digit character, prefixes the
    country calling code 91 when exactly ten digits remain and puts a
    leading '+': on every truthy address formatPhoneNumber agrees with the
    specification's wording, the stripped sequence is exactly the digits of
    the address in their order, and "9876543210" becomes "+919876543210". *)
Theorem formatPhoneNumber_normalizes :
  (forall v : option string,
      formatPhoneNumber v =
      match v with
      | Some s => if String.eqb s "" then None else Some (SpecWords.normalize s)
      | None => None
      end)
  /\ (forall s, Js.allChars Js.isDigit (SpecWords.stripNonDigits s) = true)
  /\ (forall s, list_ascii_of_string (SpecWords.stripNonDigits s) =
                 List.filter Js.isDigit (list_ascii_of_string s))
  /\ formatPhoneNumber (Some "9876543210") = Some "+919876543210".
Proof.
  split; [exact formatPhoneNumber_cases|].
  split; [exact removeAll_nondigits_allDigits|].
  split; [exact removeAll_nondigits_filter|reflexivity].
Qed.

(** ** Account guard: lockout *)

Section Lockout.

Variable bcryptCompare : string -> string -> bool.

Lemma isLocked_iff (now : Z) (u : User) :
  isLocked now u = true <-> exists l, lockUntil u = Some l /\ now < l.
Proof.
  unfold isLocked. destruct (lockUntil u) as [l|].
  - rewrite Z.ltb_lt. split.
    + intros H. exists l. split; [reflexivity|exact H].
    + intros (l' & Hl & Hlt). injection Hl as ->. exact Hlt.
  - split; [discriminate|]. intros (l & Hl & _). discriminate Hl.
Qed.

Lemma login_while_locked (tc tu : Z) (u : User) (pw : string) :
  isLocked tc u = true ->
  login bcryptCompare tc tu (Some u) pw = (Locked, Some u).
Proof. intros H. unfold login. rewrite H. reflexivity. Qed.

(** A failed attempt on an unlocked document below the threshold only
    counts. *)
Lemma failed_login_counts (a : Attempt) (u : User) :
  lockUntil u = None ->
  loginAttempts u + 1 < 5 ->
  bcryptCompare (secret a) (password u) = false ->
  exists u',
    login bcryptCompare (tCheck a) (tUpdate a) (Some u) (secret a)
      = (InvalidCredentials, Some u')
    /\ loginAttempts u' = loginAttempts u + 1
    /\ lockUntil u' = None
    /\ password u' = password u.
Proof.
  intros Hl Hc Hw. eexists. split.
  - unfold login, isLocked, comparePassword. rewrite Hl, Hw. reflexivity.
  - unfold incLoginAttempts, incLoginAttempts_update, isLocked. rewrite Hl.
    rewrite Z.geb_leb.
    destruct (Z.leb_spec 5 (loginAttempts u + 1)) as [Hge|_]; [lia|].
    simpl. rewrite Hl. auto.
Qed.

(** The failed attempt that reaches the threshold also sets the lock. *)
Lemma failed_login_locks (a : Attempt) (u : User) :
  lockUntil u = None ->
  loginAttempts u + 1 >= 5 ->
  bcryptCompare (secret a) (password u) = false ->
  exists u',
    login bcryptCompare (tCheck a) (tUpdate a) (Some u) (secret a)
      = (InvalidCredentials, Some u')
    /\ loginAttempts u' = loginAttempts u + 1
    /\ lockUntil u' = Some (tUpdate a + lockDuration).
Proof.
  intros Hl Hc Hw. eexists. split.
  - unfold login, isLocked, comparePassword. rewrite Hl, Hw. reflexivity.
  - unfold incLoginAttempts, incLoginAttempts_update, isLocked. rewrite Hl.
    rewrite Z.geb_leb.
    destruct (Z.leb_spec 5 (loginAttempts u + 1)) as [_|Hlt]; [|lia].
    simpl. auto.
Qed.

Lemma loginSeq_failures (attempts : list Attempt) : forall (u : User),
  lockUntil u = None ->
  loginAttempts u + Z.of_nat (length attempts) < 5 ->
  forallb (fun a => negb (bcryptCompare (secret a) (password u))) attempts = true ->
  exists u',
    loginSeq bcryptCompare (Some u) attempts
      = (repeat InvalidCredentials (length attempts), Some u')
    /\ loginAttempts u' = loginAttempts u + Z.of_nat (length attempts)
    /\ lockUntil u' = None
    /\ password u' = password u.
Proof.
  induction attempts as [|a rest IH]; intros u Hl Hc Hw.
  - exists u. simpl. repeat split; try assumption; lia.
  - simpl in Hw. apply andb_prop in Hw as [Ha Hrest].
    apply negb_true_iff in Ha.
    destruct (failed_login_counts a u Hl) as (u1 & E1 & C1 & L1 & P1);
      [simpl length in Hc; lia|exact Ha|].
    destruct (IH u1 L1) as (u2 & E2 & C2 & L2 & P2).
    + rewrite C1. simpl length in Hc. lia.
    + rewrite P1. exact Hrest.
    + exists u2. cbn [loginSeq]. rewrite E1, E2. simpl length.
      repeat split; [lia|exact L2|congruence].
Qed.

End Lockout.

Lemma loginSeq_app (cmp : string -> string -> bool) (l1 l2 : list Attempt) :
  forall doc,
    loginSeq cmp doc (l1 ++ l2) =
    ((fst (loginSeq cmp doc l1) ++ fst (loginSeq cmp (snd (loginSeq cmp doc l1)) l2))%list,
     snd (loginSeq cmp (snd (loginSeq cmp doc l1)) l2)).
Proof.
  induction l1 as [|a rest IH]; intros doc.
  - simpl. destruct (loginSeq cmp doc l2). reflexivity.
  - cbn [loginSeq app].
    destruct (login cmp (tCheck a) (tUpdate a) doc (secret a)) as [r doc'].
    rewrite IH.
    destruct (loginSeq cmp doc' rest) as [rs doc'']. reflexivity.
Qed.

(** C2. The lockout state machine. From a document with no failure
    counted and no lock, five consecutive logins with a wrong secret are
    each answered 401, and the fifth sets the lock expiry to its clock
    reading plus two hours. Every later login whose clock is before that
    expiry is answered 423 whatever secret it carries, the correct one
    included, and leaves the stored document, so the counter and the
    expiry, as they were. The document is locked exactly while the clock
    is before the expiry, and for any document the lock is a function of
    the stored expiry and the clock alone. *)
Theorem lockout_after_five_failures
    (bcryptCompare : string -> string -> bool)
    (u : User) (first4 : list Attempt) (fifth : Attempt) :
  loginAttempts u = 0 ->
  lockUntil u = None ->
  length first4 = 4%nat ->
  forallb (fun a => negb (bcryptCompare (secret a) (password u)))
          (first4 ++ [fifth]) = true ->
  exists locked : User,
    loginSeq bcryptCompare (Some u) (first4 ++ [fifth])
      = (repeat InvalidCredentials 5, Some locked)
    /\ loginAttempts locked = 5
    /\ lockUntil locked = Some (tUpdate fifth + 2 * 60 * 60 * 1000)
    /\ (forall tc tu pw,
           tc < tUpdate fifth + 2 * 60 * 60 * 1000 ->
           login bcryptCompare tc tu (Some locked) pw = (Locked, Some locked))
    /\ (forall now,
           isLocked now locked = false <-> tUpdate fifth + 2 * 60 * 60 * 1000 <= now)
    /\ (forall now (v : User),
           isLocked now v = true <-> exists l, lockUntil v = Some l /\ now < l).
Proof.
  intros Hc Hl Hlen Hw.
  rewrite forallb_app in Hw. apply andb_prop in Hw as [Hw4 Hw5].
  simpl in Hw5. rewrite andb_true_r in Hw5. apply negb_true_iff in Hw5.
  destruct (loginSeq_failures bcryptCompare first4 u Hl) as (u4 & E4 & C4 & L4 & P4);
    [rewrite Hc, Hlen; simpl; lia|exact Hw4|].
  rewrite Hc, Hlen in C4. simpl in C4.
  destruct (failed_login_locks bcryptCompare fifth u4 L4) as (u5 & E5 & C5 & L5);
    [lia|rewrite P4; exact Hw5|].
  exists u5. split; [|split; [|split; [|split; [|split]]]].
  - rewrite loginSeq_app, E4. cbn [fst snd loginSeq]. rewrite E5, Hlen. reflexivity.
  - lia.
  - exact L5.
  - intros tc tu pw Hbefore. apply login_while_locked.
    apply isLocked_iff. exists (tUpdate fifth + lockDuration).
    split; [exact L5|exact Hbefore].
  - intros now. unfold isLocked. rewrite L5. apply Z.ltb_ge.
  - intros now v. apply isLocked_iff.
Qed.

Lemma lockout_after_five_failures_witness :
  exists locked : User,
    loginSeq Sample.compare (Some Sample.alice)
      ([Sample.wrong 0; Sample.wrong 1000; Sample.wrong 2000; Sample.wrong 3000]
         ++ [Sample.wrong 4000])
      = (repeat InvalidCredentials 5, Some locked)
    /\ loginAttempts locked = 5
    /\ lockUntil locked = Some (tUpdate (Sample.wrong 4000) + 2 * 60 * 60 * 1000)
    /\ (forall tc tu pw,
           tc < tUpdate (Sample.wrong 4000) + 2 * 60 * 60 * 1000 ->
           login Sample.compare tc tu (Some locked) pw = (Locked, Some locked))
    /\ (forall now,
           isLocked now locked = false <->
           tUpdate (Sample.wrong 4000) + 2 * 60 * 60 * 1000 <= now)
    /\ (forall now (v : User),
           isLocked now v = true <-> exists l, lockUntil v = Some l /\ now < l).
Proof.
  apply (lockout_after_five_failures Sample.compare Sample.alice
           [Sample.wrong 0; Sample.wrong 1000; Sample.wrong 2000; Sample.wrong 3000]
           (Sample.wrong 4000)); reflexivity.
Defined.

(** ** Account guard: one-time codes *)


Section Otp.


Lemma toDigits_step (f : nat) (n : Z) (acc : string) :
  Js.toDigits (S f) n acc =
  if (n / 10 =? 0)%Z
  then String (Js.digitChar (n mod 10)) acc
  else Js.toDigits f (n / 10) (String (Js.digitChar (n mod 10)) acc).
Proof. reflexivity. Qed.

(** A number of six decimal digits prints as those six digits. *)
Lemma numberToString_six (n : Z) :
  100000 <= n <= 999999 ->
  Js.numberToString n =
  String (Js.digitChar (n / 100000))
    (String (Js.digitChar (n / 10000 mod 10))
      (String (Js.digitChar (n / 1000 mod 10))
        (String (Js.digitChar (n / 100 mod 10))
          (String (Js.digitChar (n / 10 mod 10))
            (String (Js.digitChar (n mod 10)) ""))))).
Proof.
  intros Hn. unfold Js.numberToString.
  assert (16 <= Z.log2 n) as Hlog.
  { change 16 with (Z.log2 100000). apply Z.log2_le_mono. lia. }
  destruct (Z.to_nat (Z.log2 n)) as [|[|[|[|[|f]]]]] eqn:Hf; try lia.
  assert (n / 10 / 10 = n / 100) as E2 by (rewrite Z.div_div by lia; reflexivity).
  assert (n / 100 / 10 = n / 1000) as E3 by (rewrite Z.div_div by lia; reflexivity).
  assert (n / 1000 / 10 = n / 10000) as E4 by (rewrite Z.div_div by lia; reflexivity).
  assert (n / 10000 / 10 = n / 100000) as E5 by (rewrite Z.div_div by lia; reflexivity).
  assert (1 <= n / 100000 <= 9) as H5.
  { split; [apply Z.div_le_lower_bound; lia|].
    apply Z.lt_succ_r, Z.div_lt_upper_bound; lia. }
  assert (n / 100000 / 10 = 0) as E6 by (apply Z.div_small; lia).
  assert (n / 100000 mod 10 = n / 100000) as M5 by (apply Z.mod_small; lia).
  assert (n / 10 <> 0 /\ n / 100 <> 0 /\ n / 1000 <> 0 /\ n / 10000 <> 0
          /\ n / 100000 <> 0) as (N1 & N2 & N3 & N4 & N5).
  { repeat split; intros E;
      match type of E with
      | n / ?k = 0 =>
          assert (1 <= n / k) by (apply Z.div_le_lower_bound; lia); lia
      end. }
  rewrite toDigits_step. rewrite (proj2 (Z.eqb_neq _ _) N1).
  rewrite toDigits_step, E2. rewrite (proj2 (Z.eqb_neq _ _) N2).
  rewrite toDigits_step, E3. rewrite (proj2 (Z.eqb_neq _ _) N3).
  rewrite toDigits_step, E4. rewrite (proj2 (Z.eqb_neq _ _) N4).
  rewrite toDigits_step, E5. rewrite (proj2 (Z.eqb_neq _ _) N5).
  rewrite toDigits_step, E6, M5. reflexivity.
Qed.

Lemma digitChar_inj (a b : Z) :
  0 <= a <= 9 -> 0 <= b <= 9 -> Js.digitChar a = Js.digitChar b -> a = b.
Proof.
  intros Ha Hb.
  assert (a = 0 \/ a = 1 \/ a = 2 \/ a = 3 \/ a = 4 \/
          a = 5 \/ a = 6 \/ a = 7 \/ a = 8 \/ a = 9) as Ca by lia.
  assert (b = 0 \/ b = 1 \/ b = 2 \/ b = 3 \/ b = 4 \/
          b = 5 \/ b = 6 \/ b = 7 \/ b = 8 \/ b = 9) as Cb by lia.
  repeat (destruct Ca as [->|Ca]); try subst a;
    repeat (destruct Cb as [->|Cb]); try subst b;
    intros E; try reflexivity; discriminate E.
Qed.

Lemma six_digits_value (n : Z) :
  n = 100000 * (n / 100000) + 10000 * (n / 10000 mod 10)
      + 1000 * (n / 1000 mod 10) + 100 * (n / 100 mod 10)
      + 10 * (n / 10 mod 10) + n mod 10.
Proof.
  assert (n / 10 / 10 = n / 100) as E2 by (rewrite Z.div_div by lia; reflexivity).
  assert (n / 100 / 10 = n / 1000) as E3 by (rewrite Z.div_div by lia; reflexivity).
  assert (n / 1000 / 10 = n / 10000) as E4 by (rewrite Z.div_div by lia; reflexivity).
  assert (n / 10000 / 10 = n / 100000) as E5 by (rewrite Z.div_div by lia; reflexivity).
  pose proof (Z.div_mod n 10 ltac:(lia)) as D1.
  pose proof (Z.div_mod (n / 10) 10 ltac:(lia)) as D2.
  pose proof (Z.div_mod (n / 100) 10 ltac:(lia)) as D3.
  pose proof (Z.div_mod (n / 1000) 10 ltac:(lia)) as D4.
  pose proof (Z.div_mod (n / 10000) 10 ltac:(lia)) as D5.
  rewrite E2 in D2. rewrite E3 in D3. rewrite E4 in D4. rewrite E5 in D5.
  lia.
Qed.

(** Two numbers of six digits with the same decimal text are equal. *)
Lemma numberToString_six_inj (n m : Z) :
  100000 <= n <= 999999 -> 100000 <= m <= 999999 ->
  Js.numberToString n = Js.numberToString m -> n = m.
Proof.
  intros Hn Hm E.
  rewrite (numberToString_six n Hn), (numberToString_six m Hm) in E.
  assert (forall k, 0 <= k mod 10 <= 9) as Hmod.
  { intros k. pose proof (Z.mod_pos_bound k 10 ltac:(lia)). lia. }
  assert (forall k, 100000 <= k <= 999999 -> 0 <= k / 100000 <= 9) as Hlead.
  { intros k Hk. split; [apply Z.div_pos; lia|].
    apply Z.lt_succ_r, Z.div_lt_upper_bound; lia. }
  injection E as E5 E4 E3 E2 E1 E0.
  apply digitChar_inj in E5; [|apply Hlead; assumption|apply Hlead; assumption].
  apply digitChar_inj in E4; [|apply Hmod|apply Hmod].
  apply digitChar_inj in E3; [|apply Hmod|apply Hmod].
  apply digitChar_inj in E2; [|apply Hmod|apply Hmod].
  apply digitChar_inj in E1; [|apply Hmod|apply Hmod].
  apply digitChar_inj in E0; [|apply Hmod|apply Hmod].
  rewrite (six_digits_value n), (six_digits_value m). lia.
Qed.

Lemma floor_draw_range (random : Q) :
  (0 <= random)%Q -> (random < 1)%Q ->
  100000 <= Js.floor (100000 + random * 900000) <= 999999.
Proof.
  intros H0 H1. unfold Js.floor.
  set (x := (100000 + random * 900000)%Q).
  assert (100000 <= x)%Q as Hlo by (unfold x; lra).
  assert (x < 1000000)%Q as Hhi by (unfold x; lra).
  split.
  - change 100000 with (Qfloor (inject_Z 100000)). now apply Qfloor_resp_le.
  - pose proof (Qfloor_le x) as Hf.
    assert (inject_Z (Qfloor x) < inject_Z 1000000)%Q as Hlt.
    { eapply Qle_lt_trans; [exact Hf|exact Hhi]. }
    rewrite <- Zlt_Qlt in Hlt. lia.
Qed.



End Otp.




(** C7. verifyOTP answers true exactly when the stored code is the
    supplied one and the clock is before the stored expiry; it assigns
    nothing to the document, on failure as on success; and a code just
    issued verifies at every clock reading before now + 10 min and at none
    from then on. *)
Theorem verifyOTP_iff_code_and_time :
  (forall now (u : User) otp,
      fst (verifyOTP now u otp) = true <->
      otpCode u = Some otp /\ exists e, otpExpiry u = Some e /\ now < e)
  /\ (forall now (u : User) otp, snd (verifyOTP now u otp) = u)
  /\ (forall random now later (u : User),
        fst (verifyOTP later (snd (generateOTP random now u))
                       (fst (generateOTP random now u)))
        = (later <? now + 10 * 60 * 1000)%Z).
Proof.
  split; [|split].
  - intros now u otp. unfold verifyOTP. cbn [fst].
    rewrite andb_true_iff.
    destruct (otpCode u) as [c|], (otpExpiry u) as [e|].
    + rewrite String.eqb_eq, Z.ltb_lt. split.
      * intros [-> Hlt]. split; [reflexivity|]. exists e. split; [reflexivity|exact Hlt].
      * intros [Hc (e' & He & Hlt)]. injection Hc as ->. injection He as ->.
        split; [reflexivity|exact Hlt].
    + split; [intros [_ H]; discriminate H|].
      intros [_ (e & He & _)]. discriminate He.
    + split; [intros [H _]; discriminate H|]. intros [H _]. discriminate H.
    + split; [intros [H _]; discriminate H|]. intros [H _]. discriminate H.
  - reflexivity.
  - intros random now later u. unfold verifyOTP, generateOTP. cbn [fst snd otpCode otpExpiry].
    rewrite String.eqb_refl. reflexivity.
Qed.

(** ** Alert dispatch: traces *)

Section Traces.

Lemma countIf_app (p : Event -> bool) (a b : list Event) :
  countIf p (a ++ b) = (countIf p a + countIf p b)%nat.
Proof. unfold countIf. rewrite List.filter_app, length_app. reflexivity. Qed.

Lemma countIf_Permutation (p : Event -> bool) (a b : list Event) :
  Permutation a b -> countIf p a = countIf p b.
Proof.
  unfold countIf.
  induction 1 as [|x a b _ IH|x y a|a b c _ IH1 _ IH2]; simpl.
  - reflexivity.
  - destruct (p x); simpl; congruence.
  - destruct (p x), (p y); reflexivity.
  - congruence.
Qed.

(** Advancing promise [k] by its first event takes that event, and only
    it, out of what is still to run. *)
Lemma concat_advance (threads : list (list Event)) :
  forall (k : nat) (e : Event) (rest : list Event),
    threads !! k = Some (e :: rest) ->
    Permutation (concat threads) (e :: concat (<[k := rest]> threads)).
Proof.
  induction threads as [|t ts IH]; intros k e rest Hk.
  - discriminate Hk.
  - destruct k as [|k]; simpl in Hk.
    + injection Hk as ->. reflexivity.
    + simpl. rewrite (IH k e rest Hk). apply Permutation_sym, Permutation_middle.
Qed.

(** Whatever the schedule, the interleaving runs every event of every
    promise exactly once. *)
Lemma interleave_Permutation (sched : list nat) :
  forall threads, Permutation (interleave sched threads) (concat threads).
Proof.
  induction sched as [|k sched IH]; intros threads; simpl.
  - reflexivity.
  - destruct (threads !! k) as [[|e rest]|] eqn:Hk; try apply IH.
    rewrite (concat_advance threads k e rest Hk).
    constructor. apply IH.
Qed.

Lemma countIf_concat_imap {A : Type} (p : Event -> bool) (c : nat) (l : list A) :
  forall f : nat -> A -> list Event,
    (forall k x, countIf p (f k x) = c) ->
    countIf p (concat (imap f l)) = (c * length l)%nat.
Proof.
  induction l as [|x l IH]; intros f Hf.
  - simpl. rewrite Nat.mul_0_r. reflexivity.
  - cbn [imap concat length]. rewrite countIf_app, Hf, (IH (f ∘ S)); [lia|].
    intros k y. apply Hf.
Qed.

Variable env : Env.
Variable gateway : TwilioClient -> nat -> nat -> Message -> Settled.
Variable saveResolves : SOSLog -> bool.
Variable toLocaleTimeString : Z -> string.
Variable sched : list nat.

(** A burst is three gateway calls, each of them settled, and neither a
    save nor a response. *)
Lemma sendTripleSMS_counts (msg : string) (k : nat) (dest : option string) (ty : string) :
  countIf isGatewayCall (sendTripleSMS env gateway msg k dest ty) = 3%nat
  /\ countIf isSettled (sendTripleSMS env gateway msg k dest ty) = 3%nat
  /\ countIf isResponse (sendTripleSMS env gateway msg k dest ty) = 0%nat
  /\ countIf isSave (sendTripleSMS env gateway msg k dest ty) = 0%nat.
Proof.
  unfold sendTripleSMS, sendAttempt. simpl.
  repeat match goal with
         | |- context [gateway ?c ?k ?i ?m] => destruct (gateway c k i m)
         end; repeat split; reflexivity.
Qed.

(** The three calls of a burst carry one and the same message, to the
    burst's destination, through the module's client. *)
Lemma sendTripleSMS_calls (msg : string) (k : nat) (dest : option string) (ty : string) :
  List.filter isGatewayCall (sendTripleSMS env gateway msg k dest ty)
  = repeat (EvGatewayCall (client env)
                          (mkMessage msg (TWILIO_PHONE_NUMBER env) dest)) 3.
Proof.
  unfold sendTripleSMS, sendAttempt. simpl.
  repeat match goal with
         | |- context [gateway ?c ?k ?i ?m] => destruct (gateway c k i m)
         end; reflexivity.
Qed.

Lemma sendSOSAlerts_count (p : Event -> bool) (c : nat) (now : Z) (user : User)
    (loc : option Location) :
  (forall msg k dest ty, countIf p (sendTripleSMS env gateway msg k dest ty) = c) ->
  countIf p (sendSOSAlerts env gateway toLocaleTimeString sched now user loc)
  = (c * length (smsTargets user))%nat.
Proof.
  intros Hc. unfold sendSOSAlerts.
  rewrite (countIf_Permutation _ _ _ (interleave_Permutation _ _)).
  apply countIf_concat_imap. intros k x. apply Hc.
Qed.

Lemma sendTripleSMS_calls_to (msg : string) (k : nat) (d dest : option string)
    (ty : string) :
  countIf (isGatewayCallTo dest) (sendTripleSMS env gateway msg k d ty)
  = if bool_decide (d = dest) then 3%nat else 0%nat.
Proof.
  unfold sendTripleSMS, sendAttempt, countIf. simpl.
  repeat match goal with
         | |- context [gateway ?c ?k ?i ?m] => destruct (gateway c k i m)
         end; simpl; destruct (bool_decide (d = dest)); reflexivity.
Qed.

Lemma countIf_concat_imap_filter {A : Type} (p : Event -> bool) (q : A -> bool)
    (l : list A) :
  forall f : nat -> A -> list Event,
    (forall k x, countIf p (f k x) = if q x then 3%nat else 0%nat) ->
    countIf p (concat (imap f l)) = (3 * length (List.filter q l))%nat.
Proof.
  induction l as [|x l IH]; intros f Hf.
  - reflexivity.
  - cbn [imap concat List.filter]. rewrite countIf_app, Hf, (IH (f ∘ S)).
    + destruct (q x); simpl; lia.
    + intros k y. apply Hf.
Qed.

Lemma smsTargets_length (user : User) :
  length (smsTargets user) =
  (1 + (match emergencyContact user with
        | Some contact => if Js.truthy (contact !! "phoneNumber") then 1 else 0
        | None => 0
        end)
     + (if Js.truthy (phoneNumber user) then 1 else 0))%nat.
Proof.
  unfold smsTargets. rewrite !length_app. simpl.
  destruct (emergencyContact user) as [contact|];
    [destruct (Js.truthy (contact !! "phoneNumber"))|];
    destruct (Js.truthy (phoneNumber user)); reflexivity.
Qed.

End Traces.

(** ** Alert dispatch: the trigger handler *)

(** If a trace ending in a response, with none before it, is cut at a
    response, nothing follows the cut. *)
Lemma response_is_last (l pre post : list Event) (x y : Event) :
  countIf isResponse l = 0%nat ->
  isResponse y = true ->
  (l ++ [x] = pre ++ y :: post)%list ->
  post = [].
Proof.
  intros Hl Hy E.
  induction post as [|z post' _] using rev_ind; [reflexivity|].
  exfalso.
  change (pre ++ y :: post' ++ [z])%list with (pre ++ (y :: post') ++ [z])%list in E.
  rewrite app_assoc in E. apply app_inj_tail in E as [-> _].
  rewrite countIf_app in Hl. unfold countIf in Hl. simpl in Hl. rewrite Hy in Hl.
  simpl in Hl. lia.
Qed.

(** The shape of a trace of the handler whose save resolves. *)
Lemma trigger_trace_shape
    (env : Env) (gateway : TwilioClient -> nat -> nat -> Message -> Settled)
    (saveResolves : SOSLog -> bool) (toLocaleTimeString : Z -> string)
    (sched : list nat) (newId : string) (now tSend : Z) (req : TriggerRequest) :
  saveResolves (newSOSLog newId now req) = true ->
  let doc := newSOSLog newId now req in
  let sends := sendSOSAlerts env gateway toLocaleTimeString sched tSend
                             (req_user req) (body_location req) in
  let response :=
    EvResponse 200 (mkTriggerResponse true "Emergency alert sent successfully"
                                      (Some newId) (Some (timestamp doc))) in
  trigger env gateway saveResolves toLocaleTimeString sched newId now tSend req
    = (EvSave doc :: sends ++ [response])%list
  /\ status doc = "active"
  /\ (1 <= length (smsTargets (req_user req)))%nat
  /\ countIf isGatewayCall sends = (3 * length (smsTargets (req_user req)))%nat
  /\ countIf isSettled sends = (3 * length (smsTargets (req_user req)))%nat
  /\ countIf isResponse sends = 0%nat
  /\ (forall gateway' sched',
        last (trigger env gateway' saveResolves toLocaleTimeString sched'
                      newId now tSend req) = Some response).
Proof.
  intros Hsave doc sends response.
  split; [unfold trigger; cbv zeta; rewrite Hsave; reflexivity|].
  split; [reflexivity|].
  split; [rewrite smsTargets_length; lia|].
  split; [apply sendSOSAlerts_count; intros; apply sendTripleSMS_counts|].
  split; [apply sendSOSAlerts_count; intros; apply sendTripleSMS_counts|].
  split.
  - unfold sends. rewrite (sendSOSAlerts_count _ _ _ _ isResponse 0%nat); [lia|].
    intros; apply sendTripleSMS_counts.
  - intros gateway' sched'. unfold trigger. cbv zeta. rewrite Hsave.
    rewrite app_assoc. apply last_snoc.
Qed.


(** C1, as the code has it. When the save resolves, the handler's trace
    is the save of the record, in status active, then the whole dispatch,
    then the 200 response carrying the record's identifier and trigger
    timestamp. There is at least one destination; the dispatch holds three
    gateway calls per destination, every one of them settled, and no
    response: the caller is answered after all send attempts have
    completed. The response is the same whatever the gateway does and in
    whatever order the promises run. *)
Theorem trigger_responds_after_dispatch
    (env : Env) (gateway : TwilioClient -> nat -> nat -> Message -> Settled)
    (saveResolves : SOSLog -> bool) (toLocaleTimeString : Z -> string)
    (sched : list nat) (newId : string) (now tSend : Z) (req : TriggerRequest) :
  saveResolves (newSOSLog newId now req) = true ->
  let doc := newSOSLog newId now req in
  let sends := sendSOSAlerts env gateway toLocaleTimeString sched tSend
                             (req_user req) (body_location req) in
  let response :=
    EvResponse 200 (mkTriggerResponse true "Emergency alert sent successfully"
                                      (Some newId) (Some (timestamp doc))) in
  trigger env gateway saveResolves toLocaleTimeString sched newId now tSend req
    = (EvSave doc :: sends ++ [response])%list
  /\ status doc = "active"
  /\ (1 <= length (smsTargets (req_user req)))%nat
  /\ countIf isGatewayCall sends = (3 * length (smsTargets (req_user req)))%nat
  /\ countIf isSettled sends = (3 * length (smsTargets (req_user req)))%nat
  /\ countIf isResponse sends = 0%nat
  /\ (forall gateway' sched',
        last (trigger env gateway' saveResolves toLocaleTimeString sched'
                      newId now tSend req) = Some response).
Proof.
  exact (trigger_trace_shape env gateway saveResolves toLocaleTimeString
                             sched newId now tSend req).
Qed.

Lemma trigger_responds_after_dispatch_witness :
  map kindOf
      (trigger Sample.envConfigured Sample.gatewayUp Sample.saves Sample.clockText
               Sample.roundRobin "alert1" 0 5 (Sample.request Sample.alice))
    = [Save; Call; Call; Sent; Sent; Wait; Wait; Call; Call; Sent; Sent;
       Wait; Wait; Call; Call; Sent; Sent; Respond 200]
  /\ countIf isSettled
       (sendSOSAlerts Sample.envConfigured Sample.gatewayUp Sample.clockText
                      Sample.roundRobin 5 Sample.alice None) = 6%nat.
Proof.
  destruct (trigger_responds_after_dispatch
              Sample.envConfigured Sample.gatewayUp Sample.saves Sample.clockText
              Sample.roundRobin "alert1" 0 5 (Sample.request Sample.alice))
    as (Htrace & _ & _ & _ & Hsettled & _).
  - reflexivity.
  - split; [rewrite Htrace; reflexivity|exact Hsettled].
Defined.

(** C1 as stated fails: no run of the handler answers the caller while a
    send attempt is still to be made or to settle. For a sample request,
    under every gateway and every schedule, nothing follows the response
    in the trace; with a gateway that accepts every message the response
    comes after the six calls and their settling. *)
Lemma trigger_never_responds_before_sends :
  map kindOf
      (trigger Sample.envConfigured Sample.gatewayUp Sample.saves Sample.clockText
               Sample.roundRobin "alert1" 0 5 (Sample.request Sample.alice))
    = [Save; Call; Call; Sent; Sent; Wait; Wait; Call; Call; Sent; Sent;
       Wait; Wait; Call; Call; Sent; Sent; Respond 200]
  /\ ~ (exists gateway sched pre code r post,
          trigger Sample.envConfigured gateway Sample.saves Sample.clockText
                  sched "alert1" 0 5 (Sample.request Sample.alice)
            = (pre ++ EvResponse code r :: post)%list
          /\ (0 < countIf (fun e => isGatewayCall e || isSettled e) post)%nat).
Proof.
  split; [reflexivity|].
  intros (gateway & sched & pre & code & r & post & E & Hpost).
  destruct (trigger_trace_shape
              Sample.envConfigured gateway Sample.saves Sample.clockText
              sched "alert1" 0 5 (Sample.request Sample.alice) eq_refl)
    as (Htrace & _ & _ & _ & _ & Hnone & _).
  rewrite Htrace in E.
  rewrite app_comm_cons in E.
  apply response_is_last in E; [|exact Hnone|reflexivity].
  subst post. cbn in Hpost. lia.
Qed.

(** C5. Every gateway call in a trace of the handler is preceded by the
    save of the record: a position holding a call is past position 0, and
    position 0 holds the save of the document the handler built, in
    status active, which resolved. When the save rejects there is no call
    at all. *)
Theorem record_saved_before_any_send
    (env : Env) (gateway : TwilioClient -> nat -> nat -> Message -> Settled)
    (saveResolves : SOSLog -> bool) (toLocaleTimeString : Z -> string)
    (sched : list nat) (newId : string) (now tSend : Z) (req : TriggerRequest)
    (n : nat) :
  isGatewayCall <$>
    (trigger env gateway saveResolves toLocaleTimeString sched newId now tSend req
       !! n) = Some true ->
  trigger env gateway saveResolves toLocaleTimeString sched newId now tSend req
    !! 0%nat = Some (EvSave (newSOSLog newId now req))
  /\ (0 < n)%nat
  /\ saveResolves (newSOSLog newId now req) = true
  /\ status (newSOSLog newId now req) = "active".
Proof.
  unfold trigger. destruct (saveResolves (newSOSLog newId now req)) eqn:Hsave.
  - intros H. destruct n as [|n]; [discriminate H|].
    repeat split; lia || reflexivity.
  - intros H. destruct n as [|[|n]]; discriminate H.
Qed.

Lemma record_saved_before_any_send_witness :
  trigger Sample.envConfigured Sample.gatewayUp Sample.saves Sample.clockText
          Sample.roundRobin "alert1" 0 5 (Sample.request Sample.alice) !! 0%nat
    = Some (EvSave (newSOSLog "alert1" 0 (Sample.request Sample.alice)))
  /\ (0 < 2)%nat.
Proof.
  destruct (record_saved_before_any_send
              Sample.envConfigured Sample.gatewayUp Sample.saves Sample.clockText
              Sample.roundRobin "alert1" 0 5 (Sample.request Sample.alice) 2)
    as (Hfirst & Hpos & _).
  - reflexivity.
  - split; [exact Hfirst|exact Hpos].
Defined.

(** C10. The trigger timestamp of the saved record is the caller's: when
    the body carries a truthy timestamp the record holds that value,
    whatever the server's clock reads, and the clock is used only when
    the body's timestamp is falsy. The record saved first in the trace
    and the response returned last both carry that timestamp. *)
Theorem trigger_timestamp_from_caller
    (env : Env) (gateway : TwilioClient -> nat -> nat -> Message -> Settled)
    (saveResolves : SOSLog -> bool) (toLocaleTimeString : Z -> string)
    (sched : list nat) (newId : string) (now tSend : Z) (req : TriggerRequest) :
  saveResolves (newSOSLog newId now req) = true ->
  (exists doc,
      head (trigger env gateway saveResolves toLocaleTimeString sched
                    newId now tSend req) = Some (EvSave doc)
      /\ last (trigger env gateway saveResolves toLocaleTimeString sched
                       newId now tSend req)
         = Some (EvResponse 200
                   (mkTriggerResponse true "Emergency alert sent successfully"
                                      (Some newId) (Some (timestamp doc))))
      /\ (Js.truthyVal (body_timestamp req) = true ->
          timestamp doc = body_timestamp req)
      /\ (Js.truthyVal (body_timestamp req) = false ->
          timestamp doc = Js.Date now)).
Proof.
  intros Hsave. exists (newSOSLog newId now req).
  unfold trigger. cbv zeta. rewrite Hsave.
  split; [reflexivity|]. split; [rewrite app_assoc; apply last_snoc|].
  unfold newSOSLog, Js.orElse. cbn [timestamp].
  split; intros ->; reflexivity.
Qed.

Lemma trigger_timestamp_from_caller_witness :
  exists doc,
    head (trigger Sample.envConfigured Sample.gatewayUp Sample.saves Sample.clockText
                  Sample.roundRobin "alert1" 1700000000000 1700000000005
                  (Sample.backdated Sample.alice)) = Some (EvSave doc)
    /\ timestamp doc = Js.Str "1999-12-31T23:59:59.000Z".
Proof.
  destruct (trigger_timestamp_from_caller
              Sample.envConfigured Sample.gatewayUp Sample.saves Sample.clockText
              Sample.roundRobin "alert1" 1700000000000 1700000000005
              (Sample.backdated Sample.alice))
    as (doc & Hhead & _ & Htruthy & _).
  - reflexivity.
  - exists doc. split; [exact Hhead|]. apply Htruthy. reflexivity.
Defined.

(** C3 does not hold of the code. With no gateway credentials in the
    environment the dispatcher still calls the gateway: three calls
    per destination, at least three in all, whatever the gateway answers.
    For a sample user and a gateway rejecting every call, the record is
    saved, the client without credentials is called six times, each call
    fails and is logged, and the handler answers 200. *)
Theorem dispatch_calls_gateway_without_credentials :
  map kindOf
      (trigger Sample.envUnconfigured Sample.gatewayDown Sample.saves Sample.clockText
               Sample.roundRobin "alert1" 0 5 (Sample.request Sample.alice))
    = [Save; Call; Call; Failed; Failed; Call; Call; Failed; Failed;
       Call; Call; Failed; Failed; Respond 200]
  /\ client Sample.envUnconfigured = mkClient None None
  /\ (forall gateway toLocaleTimeString sched tSend user loc,
        countIf isGatewayCall
          (sendSOSAlerts Sample.envUnconfigured gateway toLocaleTimeString sched
                         tSend user loc)
        = (3 * length (smsTargets user))%nat
        /\ (3 <= 3 * length (smsTargets user))%nat).
Proof.
  split; [reflexivity|]. split; [reflexivity|].
  intros gateway toLocaleTimeString sched tSend user loc. split.
  - apply sendSOSAlerts_count. intros. apply sendTripleSMS_counts.
  - rewrite smsTargets_length. lia.
Qed.

(** C6 does not hold of the code. A burst is three gateway calls with
    one and the same message, but the two-second wait sits after the
    gateway call inside the try block, so a rejected call is followed by
    no wait: an attempt yields one wait when its call resolves and it is
    not the last, and none when its call is rejected. With a gateway
    throwing on every attempt for the first destination, that
    destination's burst is three calls back to back, while the second
    destination's burst runs its three calls two seconds apart and the
    handler answers 200 after saving the record. *)
Theorem rejected_attempt_skips_the_wait :
  (forall env gateway msg k dest ty,
      List.filter isGatewayCall (sendTripleSMS env gateway msg k dest ty)
      = repeat (EvGatewayCall (client env)
                              (mkMessage msg (TWILIO_PHONE_NUMBER env) dest)) 3)
  /\ (forall env gateway msg k dest ty i,
      countIf isTimeout (sendAttempt env gateway msg k dest ty i)
      = match gateway (client env) k i
                      (mkMessage msg (TWILIO_PHONE_NUMBER env) dest) with
        | Resolved _ => if (i <? 2)%nat then 1%nat else 0%nat
        | Rejected _ => 0%nat
        end)
  /\ map kindOf
         (sendTripleSMS Sample.envConfigured Sample.gatewayPoliceDown
                        "msg" 0 (Some policeNumber) "Police")
     = [Call; Failed; Call; Failed; Call; Failed]
  /\ map kindOf
         (sendTripleSMS Sample.envConfigured Sample.gatewayPoliceDown
                        "msg" 1 (Some "+919812345678") "User Confirmation")
     = [Call; Sent; Wait; Call; Sent; Wait; Call; Sent]
  /\ map kindOf
         (trigger Sample.envConfigured Sample.gatewayPoliceDown Sample.saves
                  Sample.clockText Sample.roundRobin "alert1" 0 5
                  (Sample.request Sample.alice))
     = [Save; Call; Call; Failed; Sent; Call; Wait; Failed; Call; Call; Sent;
        Failed; Wait; Call; Sent; Respond 200].
Proof.
  split; [exact sendTripleSMS_calls|].
  split; [|repeat split; reflexivity].
  intros env gateway msg k dest ty i. unfold sendAttempt.
  destruct (gateway _ k i _); [|reflexivity].
  destruct (i <? 2)%nat; reflexivity.
Qed.

(** ** Contact resolution *)

(** C9. An address that fails normalisation is dropped, and nothing
    else is. Normalisation fails exactly on an empty or absent address.
    The destination list of the dispatch is the list of the three source
    addresses (the fixed emergency-services number, the phoneNumber of
    the emergency contact, the user's own number), each in its normal
    form, with those that fail normalisation left out: a source address
    that fails has no entry in the list. No gateway call is made without
    a destination, the calls to any address are three for each entry of
    the list that holds it, so the bursts of the remaining destinations
    all run, and the handler answers 200: the dropped address does not
    fail the operation. *)
Theorem unnormalisable_address_is_dropped
    (env : Env) (gateway : TwilioClient -> nat -> nat -> Message -> Settled)
    (saveResolves : SOSLog -> bool) (toLocaleTimeString : Z -> string)
    (sched : list nat) (newId : string) (now tSend : Z) (req : TriggerRequest) :
  saveResolves (newSOSLog newId now req) = true ->
  (forall address,
      formatPhoneNumber address = None <-> (address = None \/ address = Some ""))
  /\ smsTargets (req_user req) = ResolverWords.resolve (req_user req)
  /\ (forall address ty,
        In (address, ty) (ResolverWords.sourceAddresses (req_user req)) ->
        formatPhoneNumber address = None ->
        forall destination, ~ In (destination, ty) (smsTargets (req_user req)))
  /\ countIf (isGatewayCallTo None)
       (trigger env gateway saveResolves toLocaleTimeString sched newId now tSend req)
     = 0%nat
  /\ (forall destination,
        countIf (isGatewayCallTo destination)
          (trigger env gateway saveResolves toLocaleTimeString sched newId now tSend req)
        = (3 * length (List.filter (fun target => bool_decide (fst target = destination))
                                   (smsTargets (req_user req))))%nat)
  /\ countIf isGatewayCall
       (trigger env gateway saveResolves toLocaleTimeString sched newId now tSend req)
     = (3 * length (smsTargets (req_user req)))%nat
  /\ (1 <= length (smsTargets (req_user req)))%nat
  /\ last (trigger env gateway saveResolves toLocaleTimeString sched newId now tSend req)
     = Some (EvResponse 200
               (mkTriggerResponse true "Emergency alert sent successfully"
                  (Some newId) (Some (timestamp (newSOSLog newId now req))))).
Proof.
  intros Hsave.
  destruct (trigger_trace_shape env gateway saveResolves toLocaleTimeString sched
              newId now tSend req Hsave) as (Hrun & _ & Hone & Hcalls & _ & _ & Hlast).
  set (user := req_user req) in *.
  assert (formatPhoneNumber (Some policeNumber) = Some policeNumber) as Hpolice
    by reflexivity.
  assert (smsTargets user = ResolverWords.resolve user) as Htargets.
  { unfold smsTargets, ResolverWords.resolve, ResolverWords.sourceAddresses.
    cbn [omap list_omap fst snd]. rewrite Hpolice.
    destruct (emergencyContact user) as [contact|].
    - rewrite !formatPhoneNumber_cases. unfold Js.truthy.
      destruct (contact !! "phoneNumber") as [s|];
        [destruct (String.eqb s "")|];
        (destruct (phoneNumber user) as [s'|]; [destruct (String.eqb s' "")|]);
        reflexivity.
    - rewrite !formatPhoneNumber_cases. unfold Js.truthy.
      destruct (phoneNumber user) as [s'|]; [destruct (String.eqb s' "")|];
        reflexivity. }
  assert (forall destination,
             countIf (isGatewayCallTo destination)
               (trigger env gateway saveResolves toLocaleTimeString sched
                        newId now tSend req)
             = (3 * length (List.filter
                              (fun target => bool_decide (fst target = destination))
                              (smsTargets user)))%nat) as Hto.
  { intros destination. rewrite Hrun.
    change (EvSave ?doc :: ?sends ++ ?resp)%list
      with ([EvSave doc] ++ sends ++ resp)%list.
    rewrite !countIf_app. unfold sendSOSAlerts.
    rewrite (countIf_Permutation _ _ _ (interleave_Permutation _ _)).
    rewrite (countIf_concat_imap_filter _
               (fun target => bool_decide (fst target = destination)));
      [unfold countIf; simpl; lia|].
    intros k x. apply sendTripleSMS_calls_to. }
  split; [|split; [exact Htargets|split; [|split; [|split; [exact Hto|split; [|split]]]]]].
  - intros address. rewrite formatPhoneNumber_cases.
    destruct address as [s|]; [|split; auto].
    destruct (String.eqb_spec s "") as [->|Hne]; split; auto.
    + discriminate.
    + intros [E|E]; [discriminate E|]. injection E as E. contradiction.
  - intros address ty Hin Hfail destination Hd. rewrite Htargets in Hd.
    unfold ResolverWords.resolve, ResolverWords.sourceAddresses in Hd.
    cbn [omap list_omap fst snd] in Hd. rewrite Hpolice in Hd.
    destruct Hin as [E|[E|[E|[]]]]; injection E as <- <-.
    + rewrite Hpolice in Hfail. discriminate Hfail.
    + rewrite Hfail in Hd.
      destruct (formatPhoneNumber (phoneNumber user)); simpl in Hd;
        repeat (destruct Hd as [Hd|Hd]; [discriminate Hd|]); exact Hd.
    + rewrite Hfail in Hd. clear Hfail Hpolice.
      destruct (formatPhoneNumber _); simpl in Hd;
        repeat (destruct Hd as [Hd|Hd]; [discriminate Hd|]); exact Hd.
  - rewrite Hto, Htargets.
    unfold ResolverWords.resolve, ResolverWords.sourceAddresses.
    cbn [omap list_omap fst snd]. rewrite Hpolice. clear Hpolice.
    destruct (formatPhoneNumber (phoneNumber user)); destruct (formatPhoneNumber _);
      reflexivity.
  - rewrite Hrun.
    change (EvSave ?doc :: ?sends ++ ?resp)%list
      with ([EvSave doc] ++ sends ++ resp)%list.
    rewrite !countIf_app, Hcalls. unfold countIf. simpl. lia.
  - exact Hone.
  - apply Hlast.
Qed.

Lemma unnormalisable_address_is_dropped_witness :
  formatPhoneNumber (phoneNumber Sample.carol) = None
  /\ smsTargets Sample.carol = [(Some "+919876543210", "Police")]
  /\ countIf isGatewayCall
       (trigger Sample.envConfigured Sample.gatewayUp Sample.saves Sample.clockText
                Sample.roundRobin "alert1" 0 5 (Sample.request Sample.carol)) = 3%nat
  /\ last (trigger Sample.envConfigured Sample.gatewayUp Sample.saves Sample.clockText
                   Sample.roundRobin "alert1" 0 5 (Sample.request Sample.carol))
     = Some (EvResponse 200
               (mkTriggerResponse true "Emergency alert sent successfully"
                  (Some "alert1") (Some (Js.Date 0)))).
Proof.
  destruct (unnormalisable_address_is_dropped
              Sample.envConfigured Sample.gatewayUp Sample.saves Sample.clockText
              Sample.roundRobin "alert1" 0 5 (Sample.request Sample.carol))
    as (Hfail & Htargets & _ & _ & _ & Hcalls & _ & Hlast).
  - reflexivity.
  - split; [apply Hfail; left; reflexivity|].
    split; [etransitivity; [exact Htargets|reflexivity]|].
    split; [etransitivity; [exact Hcalls|reflexivity]|exact Hlast].
Defined.

(** The schema of the user's emergency contact has the fields name,
    phone and relationship; the dispatch reads the property phoneNumber.
    A contact holding the schema's fields only is not a destination, and
    an empty or absent number of the user is none either. *)
Example schema_contact_is_no_destination :
  smsTargets Sample.alice
  = [(Some "+919876543210", "Police"); (Some "+919812345678", "User Confirmation")]
  /\ smsTargets Sample.dave
     = [(Some "+919876543210", "Police"); (Some "+919845012345", "Emergency Contact");
        (Some "+919900112233", "User Confirmation")]
  /\ smsTargets Sample.carol = [(Some "+919876543210", "Police")].
Proof. repeat split; vm_compute; reflexivity. Qed.

(** * Further properties *)

(** ** Lockout: consistency, restart, expiry *)

Section LockoutMore.

Variable bcryptCompare : string -> string -> bool.

Lemma incLoginAttempts_consistent (now : Z) (u : User) :
  lockoutConsistent u -> lockoutConsistent (incLoginAttempts now u).
Proof.
  unfold lockoutConsistent, incLoginAttempts, incLoginAttempts_update, isLocked.
  intros [Hpos Hiff].
  destruct (lockUntil u) as [l|] eqn:Hl.
  - assert (5 <= loginAttempts u) as Hge.
    { destruct (Z.lt_ge_cases (loginAttempts u) 5) as [Hlt|Hge]; [|exact Hge].
      apply Hiff in Hlt. discriminate Hlt. }
    destruct (l <? now)%Z.
    + simpl. split; [lia|]. split; [lia|reflexivity].
    + rewrite Z.geb_leb.
      destruct (Z.leb_spec 5 (loginAttempts u + 1)) as [_|Hlt]; [|lia].
      destruct (now <? l)%Z; simpl; rewrite ?Hl;
        (split; [lia|]); (split; [discriminate|lia]).
  - assert (loginAttempts u < 5) as Hlt by (apply Hiff; reflexivity).
    rewrite Z.geb_leb.
    destruct (Z.leb_spec 5 (loginAttempts u + 1)) as [Hge|Hlt']; simpl; rewrite ?Hl;
      (split; [lia|]).
    + split; [discriminate|lia].
    + split; [lia|reflexivity].
Qed.

Lemma login_consistent (tc tu : Z) (u u' : User) (pw : string) (r : LoginResponse) :
  lockoutConsistent u ->
  login bcryptCompare tc tu (Some u) pw = (r, Some u') ->
  lockoutConsistent u'.
Proof.
  intros Hu. unfold login.
  destruct (isLocked tc u); [intros E; injection E as _ <-; exact Hu|].
  destruct (comparePassword bcryptCompare u pw); simpl.
  - intros E. injection E as _ <-. unfold lockoutConsistent. simpl.
    split; [lia|]. split; [lia|reflexivity].
  - intros E. injection E as _ <-. apply incLoginAttempts_consistent, Hu.
Qed.

Lemma login_keeps_document (tc tu : Z) (u : User) (pw : string) :
  exists u', snd (login bcryptCompare tc tu (Some u) pw) = Some u'.
Proof.
  unfold login. destruct (isLocked tc u); [eexists; reflexivity|].
  destruct (negb _); eexists; reflexivity.
Qed.

(** A login with the right secret on a document that is not locked. *)
Lemma login_success (tc tu : Z) (u : User) (pw : string) :
  isLocked tc u = false ->
  bcryptCompare pw (password u) = true ->
  exists u',
    login bcryptCompare tc tu (Some u) pw = (LoginOk, Some u')
    /\ loginAttempts u' = 0
    /\ lockUntil u' = None
    /\ lastLogin u' = Some tu
    /\ password u' = password u.
Proof.
  intros Hl Hc. unfold login, comparePassword. rewrite Hl, Hc. simpl.
  eexists. split; [reflexivity|]. repeat split.
Qed.

End LockoutMore.

(** ** Requests one at a time, and requests that overlap *)

Section OverlapFacts.

Variable bcryptCompare : string -> string -> bool.

(** The update of a wrong secret on a copy that holds no lock and fewer
    than four failures: the count goes up by one, nothing else. *)
Local Abbreviation incOnly := (mkUpdate (Some 1) None None false false).

(** One request served to its end is its load followed by its writes. *)
Lemma login_load_then_writes (tc tu : Z) (found : option User) (pw : string) :
  login bcryptCompare tc tu found pw
  = (fst (loginLoad bcryptCompare tc tu found pw),
     (fun doc => foldl applyWrite doc (snd (loginLoad bcryptCompare tc tu found pw)))
       <$> found).
Proof.
  destruct found as [u|]; [|reflexivity].
  unfold login, loginLoad. destruct (isLocked tc u); [reflexivity|].
  destruct (negb _); reflexivity.
Qed.

Lemma serve_one (st : Run) (k : nat) (a : Attempt) :
  stored (step bcryptCompare (step bcryptCompare
            (step bcryptCompare st (Loads k a)) (Lands k)) (Lands k))
  = snd (login bcryptCompare (tCheck a) (tUpdate a) (stored st) (secret a))
  /\ answers (step bcryptCompare (step bcryptCompare
                (step bcryptCompare st (Loads k a)) (Lands k)) (Lands k))
     = (answers st
          ++ [fst (login bcryptCompare (tCheck a) (tUpdate a) (stored st) (secret a))])%list.
Proof.
  rewrite login_load_then_writes.
  assert (length (snd (loginLoad bcryptCompare (tCheck a) (tUpdate a) (stored st)
                                 (secret a))) <= 2)%nat as Hlen.
  { unfold loginLoad. destruct (stored st) as [u|]; [|simpl; lia].
    destruct (isLocked (tCheck a) u); [simpl; lia|].
    destruct (negb _); simpl; lia. }
  cbn [step].
  destruct (loginLoad bcryptCompare (tCheck a) (tUpdate a) (stored st) (secret a))
    as [r ws].
  cbn [fst snd] in *.
  destruct ws as [|w1 [|w2 [|w3 ws]]]; [| | |simpl in Hlen; lia];
    repeat (cbn [stored pending answers]; rewrite ?lookup_insert_eq);
    destruct (stored st); split; reflexivity.
Qed.

(** Served one at a time, the requests leave the store and get the
    responses of [loginSeq]. *)
Lemma loginRun_serial_from (attempts : list Attempt) :
  forall (st : Run) (k : nat),
    stored (foldl (step bcryptCompare) st (serial k attempts))
    = snd (loginSeq bcryptCompare (stored st) attempts)
    /\ answers (foldl (step bcryptCompare) st (serial k attempts))
       = (answers st ++ fst (loginSeq bcryptCompare (stored st) attempts))%list.
Proof.
  induction attempts as [|a rest IH]; intros st k.
  - simpl. rewrite app_nil_r. split; reflexivity.
  - cbn [serial foldl loginSeq].
    destruct (serve_one st k a) as [Hs Ha].
    destruct (IH (step bcryptCompare (step bcryptCompare
                    (step bcryptCompare st (Loads k a)) (Lands k)) (Lands k)) (S k))
      as [IHs IHa].
    rewrite IHs, IHa, Hs, Ha.
    destruct (login bcryptCompare (tCheck a) (tUpdate a) (stored st) (secret a))
      as [r d'].
    cbn [fst snd].
    destruct (loginSeq bcryptCompare d' rest) as [rs d''].
    cbn [fst snd]. rewrite <- app_assoc. split; reflexivity.
Qed.

Lemma loginRun_serial (doc : option User) (attempts : list Attempt) :
  stored (loginRun bcryptCompare doc (serial 0 attempts))
  = snd (loginSeq bcryptCompare doc attempts)
  /\ answers (loginRun bcryptCompare doc (serial 0 attempts))
     = fst (loginSeq bcryptCompare doc attempts).
Proof. apply (loginRun_serial_from attempts (mkRun doc ∅ []) 0%nat). Qed.

(** Consistency along [loginSeq]. *)
Lemma loginSeq_consistent (attempts : list Attempt) :
  forall (u : User),
    lockoutConsistent u ->
    exists u',
      snd (loginSeq bcryptCompare (Some u) attempts) = Some u'
      /\ lockoutConsistent u'
      /\ length (fst (loginSeq bcryptCompare (Some u) attempts)) = length attempts.
Proof.
  induction attempts as [|a rest IH]; intros u Hu.
  - exists u. simpl. auto.
  - cbn [loginSeq].
    destruct (login bcryptCompare (tCheck a) (tUpdate a) (Some u) (secret a))
      as [r d] eqn:E.
    destruct (login_keeps_document bcryptCompare (tCheck a) (tUpdate a) u (secret a))
      as (u1 & E1).
    rewrite E in E1. simpl in E1. subst d.
    destruct (IH u1 (login_consistent bcryptCompare _ _ _ _ _ _ Hu E))
      as (u' & Es & Hc & Hlen).
    destruct (loginSeq bcryptCompare (Some u1) rest) as [rs d''].
    exists u'. simpl in *. auto.
Qed.

(** Failures, a success, failures, along [loginSeq]. *)
Lemma loginSeq_restart (u : User) (before after : list Attempt) (ok : Attempt) :
  loginAttempts u = 0 ->
  lockUntil u = None ->
  (length before <= 4)%nat ->
  (length after <= 4)%nat ->
  forallb (fun a => negb (bcryptCompare (secret a) (password u))) (before ++ after) = true ->
  bcryptCompare (secret ok) (password u) = true ->
  exists u',
    loginSeq bcryptCompare (Some u) (before ++ ok :: after)
      = ((repeat InvalidCredentials (length before)
            ++ LoginOk :: repeat InvalidCredentials (length after))%list,
         Some u')
    /\ lockUntil u' = None
    /\ loginAttempts u' = Z.of_nat (length after).
Proof.
  intros Hc Hl Hb Ha Hw Hok.
  rewrite forallb_app in Hw. apply andb_prop in Hw as [Hwb Hwa].
  destruct (loginSeq_failures bcryptCompare before u Hl) as (u1 & E1 & C1 & L1 & P1);
    [lia|exact Hwb|].
  destruct (login_success bcryptCompare (tCheck ok) (tUpdate ok) u1 (secret ok))
    as (u2 & E2 & C2 & L2 & _ & P2).
  { unfold isLocked. rewrite L1. reflexivity. }
  { rewrite P1. exact Hok. }
  destruct (loginSeq_failures bcryptCompare after u2 L2) as (u3 & E3 & C3 & L3 & _).
  { lia. }
  { rewrite P2, P1. exact Hwa. }
  exists u3. split; [|split; [exact L3|lia]].
  rewrite loginSeq_app, E1. cbn [fst snd loginSeq]. rewrite E2, E3. reflexivity.
Qed.

(** A wrong secret on a copy with no lock and fewer than four failures. *)
Lemma wrong_guess_load (tc tu : Z) (u : User) (pw : string) :
  lockUntil u = None ->
  loginAttempts u + 1 < 5 ->
  bcryptCompare pw (password u) = false ->
  loginLoad bcryptCompare tc tu (Some u) pw
  = (InvalidCredentials, [UpdateOne incOnly]).
Proof.
  intros Hl Hc Hw.
  unfold loginLoad, comparePassword, incLoginAttempts_update, isLocked.
  rewrite Hl, Hw. cbn [negb]. rewrite Z.geb_leb.
  destruct (Z.leb_spec 5 (loginAttempts u + 1)) as [Hge|_]; [lia|reflexivity].
Qed.

(** All requests load the same document: each is answered 401 and has
    its one update pending. *)
Lemma loads_phase (u : User) (guesses : list Attempt) :
  lockUntil u = None ->
  loginAttempts u + 1 < 5 ->
  forallb (fun a => negb (bcryptCompare (secret a) (password u))) guesses = true ->
  forall (st : Run) (k : nat),
    stored st = Some u ->
    stored (foldl (step bcryptCompare) st (loadsFrom k guesses)) = Some u
    /\ answers (foldl (step bcryptCompare) st (loadsFrom k guesses))
       = (answers st ++ repeat InvalidCredentials (length guesses))%list
    /\ (forall i, (i < k)%nat ->
          pending (foldl (step bcryptCompare) st (loadsFrom k guesses)) !! i
          = pending st !! i)
    /\ (forall i, (k <= i < k + length guesses)%nat ->
          pending (foldl (step bcryptCompare) st (loadsFrom k guesses)) !! i
          = Some [UpdateOne incOnly]).
Proof.
  intros Hl Hc. induction guesses as [|a rest IH]; intros Hw st k Hs.
  - simpl. rewrite app_nil_r. repeat split; try assumption. intros i Hi. lia.
  - simpl in Hw. apply andb_prop in Hw as [Hwa Hwr]. apply negb_true_iff in Hwa.
    cbn [loadsFrom foldl].
    set (st1 := step bcryptCompare st (Loads k a)).
    assert (stored st1 = Some u
            /\ answers st1 = (answers st ++ [InvalidCredentials])%list
            /\ pending st1 = <[k := [UpdateOne incOnly]]> (pending st))
      as (Hs1 & Ha1 & Hp1).
    { unfold st1. cbn [step]. rewrite Hs.
      rewrite (wrong_guess_load _ _ u _ Hl Hc Hwa). repeat split; assumption. }
    destruct (IH Hwr st1 (S k) Hs1) as (IHs & IHa & IHlow & IHhigh).
    split; [exact IHs|]. split; [|split].
    + rewrite IHa, Ha1, <- app_assoc. reflexivity.
    + intros i Hi. rewrite IHlow by lia. rewrite Hp1.
      apply lookup_insert_ne. lia.
    + intros i Hi. destruct (decide (i = k)) as [->|Hne].
      * rewrite IHlow by lia. rewrite Hp1. apply lookup_insert_eq.
      * apply IHhigh. cbn [length] in Hi. lia.
Qed.

(** The pending updates land, each once, in any order: each adds one to
    the count of the stored document and touches nothing else. *)
Lemma lands_phase (order : list nat) :
  forall (st : Run) (u : User),
    stored st = Some u ->
    NoDup order ->
    (forall i, i ∈ order -> pending st !! i = Some [UpdateOne incOnly]) ->
    exists u',
      stored (foldl (step bcryptCompare) st (map Lands order)) = Some u'
      /\ answers (foldl (step bcryptCompare) st (map Lands order)) = answers st
      /\ loginAttempts u' = loginAttempts u + Z.of_nat (length order)
      /\ lockUntil u' = lockUntil u
      /\ password u' = password u.
Proof.
  induction order as [|i rest IH]; intros st u Hs Hnd Hp.
  - exists u. simpl. repeat split; try assumption. lia.
  - apply NoDup_cons in Hnd as [Hnotin Hnd].
    cbn [map foldl].
    set (st1 := step bcryptCompare st (Lands i)).
    assert (stored st1 = Some (updateOne incOnly u)
            /\ answers st1 = answers st
            /\ pending st1 = <[i := []]> (pending st))
      as (Hs1 & Ha1 & Hp1).
    { unfold st1. cbn [step]. rewrite (Hp i) by (left). rewrite Hs.
      repeat split. }
    destruct (IH st1 (updateOne incOnly u) Hs1 Hnd) as (u' & E & Ea & Hc & Hl & Hpw).
    { intros j Hj. rewrite Hp1, lookup_insert_ne.
      - apply Hp. right. exact Hj.
      - intros ->. contradiction. }
    exists u'. split; [exact E|]. split; [rewrite Ea; exact Ha1|].
    split; [|split].
    + rewrite Hc. cbn [updateOne loginAttempts unset_loginAttempts
                       set_loginAttempts inc_loginAttempts length]. lia.
    + rewrite Hl. reflexivity.
    + rewrite Hpw. reflexivity.
Qed.

End OverlapFacts.

(** X1. Served one at a time, login requests keep the lockout fields
    consistent. When each request is served to its end before the next
    one loads the document (its update has landed; after a success the
    deferred reset and save as well), then whatever the number of
    requests, their secrets and their clock readings, starting from a
    consistent document the failure count is never negative and a lock
    expiry is stored exactly when the count is five or more; every
    request gets a response and the document stays in the store. *)
Theorem serial_logins_keep_lockout_consistent
    (bcryptCompare : string -> string -> bool) (attempts : list Attempt) (u : User) :
  lockoutConsistent u ->
  exists u',
    stored (loginRun bcryptCompare (Some u) (serial 0 attempts)) = Some u'
    /\ lockoutConsistent u'
    /\ length (answers (loginRun bcryptCompare (Some u) (serial 0 attempts)))
       = length attempts.
Proof.
  intros Hu.
  destruct (loginRun_serial bcryptCompare (Some u) attempts) as [Hs Ha].
  destruct (loginSeq_consistent bcryptCompare attempts u Hu) as (u' & E & Hc & Hlen).
  exists u'. rewrite Hs, Ha. auto.
Qed.

Lemma serial_logins_keep_lockout_consistent_witness :
  exists u',
    stored (loginRun Sample.compare (Some Sample.alice)
              (serial 0
                 [Sample.wrong 0; Sample.wrong 100; mkAttempt 200 230 "secret";
                  Sample.wrong 300; Sample.wrong 400; Sample.wrong 500;
                  Sample.wrong 600; Sample.wrong 700; Sample.wrong 800;
                  mkAttempt 900 930 "secret"])) = Some u'
    /\ lockoutConsistent u'.
Proof.
  destruct (serial_logins_keep_lockout_consistent Sample.compare
              [Sample.wrong 0; Sample.wrong 100; mkAttempt 200 230 "secret";
               Sample.wrong 300; Sample.wrong 400; Sample.wrong 500;
               Sample.wrong 600; Sample.wrong 700; Sample.wrong 800;
               mkAttempt 900 930 "secret"]
              Sample.alice) as (u' & E & Hc & _).
  - unfold lockoutConsistent. simpl. split; [lia|]. split; [lia|reflexivity].
  - exists u'. split; assumption.
Defined.

(** X2. Served one at a time, a successful login restarts the count.
    From a document with no failure counted and no lock, up to four wrong
    secrets, then the right one, then up to four wrong secrets again,
    each request served to its end before the next one loads the
    document, do not lock the account: the responses are 401s, one 200,
    and 401s, and at the end no lock is stored and the count is the
    number of failures since the success. *)
Theorem successful_login_restarts_the_count
    (bcryptCompare : string -> string -> bool)
    (u : User) (before after : list Attempt) (ok : Attempt) :
  loginAttempts u = 0 ->
  lockUntil u = None ->
  (length before <= 4)%nat ->
  (length after <= 4)%nat ->
  forallb (fun a => negb (bcryptCompare (secret a) (password u))) (before ++ after) = true ->
  bcryptCompare (secret ok) (password u) = true ->
  exists u',
    stored (loginRun bcryptCompare (Some u) (serial 0 (before ++ ok :: after))) = Some u'
    /\ answers (loginRun bcryptCompare (Some u) (serial 0 (before ++ ok :: after)))
       = (repeat InvalidCredentials (length before)
            ++ LoginOk :: repeat InvalidCredentials (length after))%list
    /\ lockUntil u' = None
    /\ loginAttempts u' = Z.of_nat (length after).
Proof.
  intros Hc Hl Hb Ha Hw Hok.
  destruct (loginRun_serial bcryptCompare (Some u) (before ++ ok :: after)) as [Hs Hans].
  destruct (loginSeq_restart bcryptCompare u before after ok Hc Hl Hb Ha Hw Hok)
    as (u' & E & Hlock & Hcount).
  exists u'. rewrite Hs, Hans, E. auto.
Qed.

Lemma successful_login_restarts_the_count_witness :
  exists u',
    stored (loginRun Sample.compare (Some Sample.alice)
              (serial 0
                 ([Sample.wrong 0; Sample.wrong 100; Sample.wrong 200; Sample.wrong 300]
                    ++ mkAttempt 400 430 "secret"
                    :: [Sample.wrong 500; Sample.wrong 600; Sample.wrong 700;
                        Sample.wrong 800]))) = Some u'
    /\ answers (loginRun Sample.compare (Some Sample.alice)
                  (serial 0
                     ([Sample.wrong 0; Sample.wrong 100; Sample.wrong 200;
                       Sample.wrong 300]
                        ++ mkAttempt 400 430 "secret"
                        :: [Sample.wrong 500; Sample.wrong 600; Sample.wrong 700;
                            Sample.wrong 800])))
       = (repeat InvalidCredentials 4 ++ LoginOk :: repeat InvalidCredentials 4)%list
    /\ lockUntil u' = None
    /\ loginAttempts u' = 4.
Proof.
  apply (successful_login_restarts_the_count Sample.compare Sample.alice
           [Sample.wrong 0; Sample.wrong 100; Sample.wrong 200; Sample.wrong 300]
           [Sample.wrong 500; Sample.wrong 600; Sample.wrong 700; Sample.wrong 800]
           (mkAttempt 400 430 "secret")); reflexivity || (simpl; lia).
Defined.

(** X3. After the lock has run out. For a document whose lock expiry
    lies before the clock of the request, a login with a wrong secret is
    answered 401, clears the lock and restarts the count at 1, so four
    more failures are needed to lock again; a login with the right
    secret is answered 200, clears lock and count and records the login
    time. *)
Theorem login_after_lock_expiry
    (bcryptCompare : string -> string -> bool)
    (u : User) (l tc tu : Z) (pw : string) :
  lockUntil u = Some l ->
  l <= tc ->
  l < tu ->
  exists u',
    login bcryptCompare tc tu (Some u) pw
      = (if bcryptCompare pw (password u) then LoginOk else InvalidCredentials,
         Some u')
    /\ lockUntil u' = None
    /\ loginAttempts u' = (if bcryptCompare pw (password u) then 0 else 1)
    /\ lastLogin u' = (if bcryptCompare pw (password u) then Some tu else lastLogin u).
Proof.
  intros Hl Htc Htu.
  assert (isLocked tc u = false) as Hnl.
  { unfold isLocked. rewrite Hl. apply Z.ltb_ge. exact Htc. }
  unfold login, comparePassword. rewrite Hnl.
  destruct (bcryptCompare pw (password u)); simpl.
  - eexists. split; [reflexivity|]. repeat split.
  - eexists. split; [reflexivity|].
    unfold incLoginAttempts, incLoginAttempts_update. rewrite Hl.
    rewrite (proj2 (Z.ltb_lt l tu) Htu). simpl. repeat split.
Qed.

Lemma login_after_lock_expiry_witness :
  exists u',
    login Sample.compare 7200500 7200590
          (Some (incLoginAttempts 90
                   (updateOne (mkUpdate (Some 4) None None false false) Sample.alice)))
          "guess"
      = (InvalidCredentials, Some u')
    /\ lockUntil u' = None
    /\ loginAttempts u' = 1.
Proof.
  destruct (login_after_lock_expiry Sample.compare
              (incLoginAttempts 90
                 (updateOne (mkUpdate (Some 4) None None false false) Sample.alice))
              7200090 7200500 7200590 "guess") as (u' & E & Hl & Hc & _).
  - reflexivity.
  - lia.
  - lia.
  - exists u'. split; [exact E|]. split; [exact Hl|exact Hc].
Defined.

(** X4. The instant of expiry. When the clock reads exactly the stored
    lock expiry, the account is no longer locked, but the expiry is not
    yet in the past for incLoginAttempts: a wrong secret at that instant
    is answered 401 and, with four or more failures counted, adds one to
    the count and locks the account for two more hours instead of
    restarting the count. *)
Theorem wrong_secret_at_expiry_instant_relocks
    (bcryptCompare : string -> string -> bool)
    (u : User) (l : Z) (pw : string) :
  lockUntil u = Some l ->
  4 <= loginAttempts u ->
  bcryptCompare pw (password u) = false ->
  exists u',
    login bcryptCompare l l (Some u) pw = (InvalidCredentials, Some u')
    /\ isLocked l u = false
    /\ lockUntil u' = Some (l + 2 * 60 * 60 * 1000)
    /\ loginAttempts u' = loginAttempts u + 1.
Proof.
  intros Hl Hc Hw.
  assert (isLocked l u = false) as Hnl.
  { unfold isLocked. rewrite Hl. apply Z.ltb_irrefl. }
  unfold login, comparePassword. rewrite Hnl, Hw. simpl.
  eexists. split; [reflexivity|]. split; [reflexivity|].
  unfold incLoginAttempts, incLoginAttempts_update. rewrite Hl, Hnl, Z.ltb_irrefl.
  rewrite Z.geb_leb.
  destruct (Z.leb_spec 5 (loginAttempts u + 1)) as [_|Hlt]; [|lia].
  simpl. split; reflexivity.
Qed.

Lemma wrong_secret_at_expiry_instant_relocks_witness :
  exists u',
    login Sample.compare 7200090 7200090
          (Some (incLoginAttempts 90
                   (updateOne (mkUpdate (Some 4) None None false false) Sample.alice)))
          "guess"
      = (InvalidCredentials, Some u')
    /\ lockUntil u' = Some (7200090 + 2 * 60 * 60 * 1000)
    /\ loginAttempts u' = 6.
Proof.
  destruct (wrong_secret_at_expiry_instant_relocks Sample.compare
              (incLoginAttempts 90
                 (updateOne (mkUpdate (Some 4) None None false false) Sample.alice))
              7200090 "guess") as (u' & E & _ & Hl & Hc).
  - reflexivity.
  - simpl. lia.
  - reflexivity.
  - exists u'. split; [exact E|]. split; [exact Hl|exact Hc].
Defined.

(** X24. Wrong secrets tried at the same time are not counted against
    one another. When any number of login requests with a wrong secret
    all load a document that holds no lock and fewer than four failures
    before the update of any of them reaches the store, every one of
    them is answered 401, none 423, and once their updates have landed,
    in whatever order, the count has gone up by the number of requests
    while no lock is stored: the limit of five failures does not bound
    the number of secrets that can be tried at once, and the count can
    stand at five or more with the account open. *)
Theorem overlapping_guesses_are_not_locked_out
    (bcryptCompare : string -> string -> bool)
    (u : User) (guesses : list Attempt) (order : list nat) :
  lockUntil u = None ->
  0 <= loginAttempts u < 4 ->
  forallb (fun a => negb (bcryptCompare (secret a) (password u))) guesses = true ->
  Permutation order (seq 0 (length guesses)) ->
  exists u',
    stored (loginRun bcryptCompare (Some u) (batch guesses order)) = Some u'
    /\ answers (loginRun bcryptCompare (Some u) (batch guesses order))
       = repeat InvalidCredentials (length guesses)
    /\ loginAttempts u' = loginAttempts u + Z.of_nat (length guesses)
    /\ lockUntil u' = None
    /\ password u' = password u
    /\ (forall now, isLocked now u' = false)
    /\ (4 < length guesses -> ~ lockoutConsistent u')%nat.
Proof.
  intros Hl Hc Hw Hperm.
  unfold loginRun, batch. rewrite foldl_app.
  destruct (loads_phase bcryptCompare u guesses Hl ltac:(lia) Hw (mkRun (Some u) ∅ [])
              0%nat eq_refl) as (Hs & Ha & _ & Hp).
  set (st := foldl (step bcryptCompare) (mkRun (Some u) ∅ []) (loadsFrom 0 guesses)) in *.
  destruct (lands_phase bcryptCompare order st u Hs) as (u' & E & Ea & Hcount & Hlock & Hpw).
  { rewrite Hperm. apply NoDup_seq. }
  { intros i Hi. apply Hp. rewrite Hperm in Hi. apply elem_of_seq in Hi. lia. }
  exists u'. split; [exact E|]. split; [rewrite Ea, Ha; reflexivity|].
  rewrite (Permutation_length Hperm), length_seq in Hcount.
  split; [exact Hcount|]. split; [rewrite Hlock; exact Hl|].
  split; [exact Hpw|]. split.
  - intros now. unfold isLocked. rewrite Hlock, Hl. reflexivity.
  - intros Hmany [_ Hiff]. rewrite Hlock, Hl in Hiff.
    assert (loginAttempts u' < 5) by (apply Hiff; reflexivity). lia.
Qed.

Lemma overlapping_guesses_are_not_locked_out_witness :
  exists u',
    stored (loginRun Sample.compare (Some Sample.alice)
              (batch [Sample.wrong 0; Sample.wrong 1; Sample.wrong 2; Sample.wrong 3;
                      Sample.wrong 4; Sample.wrong 5; Sample.wrong 6; Sample.wrong 7]
                     [3; 0; 1; 7; 2; 6; 5; 4]%nat)) = Some u'
    /\ answers (loginRun Sample.compare (Some Sample.alice)
                  (batch [Sample.wrong 0; Sample.wrong 1; Sample.wrong 2; Sample.wrong 3;
                          Sample.wrong 4; Sample.wrong 5; Sample.wrong 6; Sample.wrong 7]
                         [3; 0; 1; 7; 2; 6; 5; 4]%nat))
       = repeat InvalidCredentials 8
    /\ loginAttempts u' = 8
    /\ lockUntil u' = None.
Proof.
  destruct (overlapping_guesses_are_not_locked_out Sample.compare Sample.alice
              [Sample.wrong 0; Sample.wrong 1; Sample.wrong 2; Sample.wrong 3;
               Sample.wrong 4; Sample.wrong 5; Sample.wrong 6; Sample.wrong 7]
              [3; 0; 1; 7; 2; 6; 5; 4]%nat)
    as (u' & E & Ha & Hc & Hl & _).
  - reflexivity.
  - simpl. lia.
  - reflexivity.
  - apply (bool_decide_unpack _). vm_compute. reflexivity.
  - exists u'. split; [exact E|]. split; [exact Ha|]. split; [exact Hc|exact Hl].
Defined.

(** ** One-time codes: reissue, consumption, the verification routes *)

(** The decimal text of a number is not empty. *)
Lemma toDigits_nonempty (f : nat) :
  forall n c acc, Js.toDigits f n (String c acc) <> "".
Proof.
  induction f as [|f IH]; intros n c acc; [discriminate|].
  rewrite toDigits_step. destruct (n / 10 =? 0)%Z; [discriminate|apply IH].
Qed.

Lemma numberToString_nonempty (n : Z) : Js.numberToString n <> "".
Proof.
  unfold Js.numberToString. rewrite toDigits_step.
  destruct (n / 10 =? 0)%Z; [discriminate|apply toDigits_nonempty].
Qed.

(** X5. Issuing a new challenge replaces the old one. After a second
    generateOTP whose draw gives another number than the first, the first
    code verifies at no clock reading, not even within its own ten
    minutes, while the new code verifies exactly until the new expiry. *)
Theorem reissue_invalidates_previous_code
    (r1 r2 : Q) (t1 t2 later : Z) (u : User) :
  (0 <= r1)%Q -> (r1 < 1)%Q -> (0 <= r2)%Q -> (r2 < 1)%Q ->
  Js.floor (100000 + r1 * 900000) <> Js.floor (100000 + r2 * 900000) ->
  let first := generateOTP r1 t1 u in
  let second := generateOTP r2 t2 (snd first) in
  fst (verifyOTP later (snd second) (fst first)) = false
  /\ fst (verifyOTP later (snd second) (fst second)) = (later <? t2 + 10 * 60 * 1000)%Z.
Proof.
  intros H1 H1' H2 H2' Hne first second. subst first second.
  unfold verifyOTP, generateOTP. cbn [fst snd otpCode otpExpiry].
  split; [|rewrite String.eqb_refl; reflexivity].
  apply andb_false_iff. left. apply String.eqb_neq. intros E. apply Hne.
  symmetry. apply numberToString_six_inj; [| |exact E];
    apply floor_draw_range; assumption.
Qed.

Lemma reissue_invalidates_previous_code_witness :
  fst (generateOTP (1 # 4) 0 Sample.alice) = "325000"
  /\ fst (verifyOTP 1000
            (snd (generateOTP (1 # 2) 500 (snd (generateOTP (1 # 4) 0 Sample.alice))))
            "325000") = false.
Proof.
  split; [reflexivity|].
  destruct (reissue_invalidates_previous_code (1 # 4) (1 # 2) 0 500 1000 Sample.alice)
    as [Hold _].
  - unfold Qle. simpl. lia.
  - reflexivity.
  - unfold Qle. simpl. lia.
  - reflexivity.
  - vm_compute. discriminate.
  - exact Hold.
Defined.

(** X6. The OTP login uses a code once and ignores the lockout. With the
    right code before its expiry, on an active account whose save
    resolves, the stored challenge is cleared and the login time is
    recorded, whether or not a token could be signed (the reply is 200
    with the token, or 500 without); the failure count and the lock
    expiry are neither read nor changed, so a locked account passes; and
    from then on every code, the one just used included, is answered 400
    and leaves the account as it is. *)
Theorem otp_login_consumes_the_code
    (saveUser : User -> bool) (generateToken : string -> option string)
    (now : Z) (acc : Account) (otp : string) :
  isActive acc = true ->
  fst (verifyOTP now (account_user acc) otp) = true ->
  saveUser (consumeChallenge now (account_user acc)) = true ->
  exists acc',
    loginVerifyOtp saveUser generateToken now (Some acc) otp
      = (match generateToken (_id (account_user acc)) with
         | Some _ => mkReply 200 true "Login successful"
         | None => mkReply 500 false "Login verification failed"
         end,
         generateToken (_id (account_user acc)),
         Some acc')
    /\ otpCode (account_user acc') = None
    /\ otpExpiry (account_user acc') = None
    /\ lastLogin (account_user acc') = Some now
    /\ loginAttempts (account_user acc') = loginAttempts (account_user acc)
    /\ lockUntil (account_user acc') = lockUntil (account_user acc)
    /\ (forall later otp',
           loginVerifyOtp saveUser generateToken later (Some acc') otp'
           = (mkReply 400 false "Invalid or expired OTP", None, Some acc')).
Proof.
  intros Ha Hv Hs.
  exists (mkAccount (consumeChallenge now (account_user acc)) (isActive acc)
                    (verificationStatus acc)).
  split.
  - unfold loginVerifyOtp. rewrite Ha, Hv, Hs. cbn [negb consumeChallenge _id].
    destruct (generateToken (_id (account_user acc))); reflexivity.
  - repeat split. intros later otp'.
    unfold loginVerifyOtp. cbn [isActive account_user]. rewrite Ha. reflexivity.
Qed.

Lemma otp_login_consumes_the_code_witness :
  isLocked 2000 (account_user Fixture.lockedWithChallenge) = true
  /\ exists acc',
      loginVerifyOtp Fixture.saves Fixture.signingThrows 2000
                     (Some Fixture.lockedWithChallenge) "325000"
        = (mkReply 500 false "Login verification failed", None, Some acc')
      /\ otpCode (account_user acc') = None
      /\ loginVerifyOtp Fixture.saves Fixture.signs 2500 (Some acc') "325000"
         = (mkReply 400 false "Invalid or expired OTP", None, Some acc').
Proof.
  split; [reflexivity|].
  destruct (otp_login_consumes_the_code Fixture.saves Fixture.signingThrows 2000
              Fixture.lockedWithChallenge "325000")
    as (acc' & E & Hc & _ & _ & _ & _ & Hreplay); try reflexivity.
  exists acc'. split; [exact E|]. split; [exact Hc|].
  destruct (otp_login_consumes_the_code Fixture.saves Fixture.signs 2000
              Fixture.lockedWithChallenge "325000")
    as (acc2 & E2 & _ & _ & _ & _ & _ & Hreplay2); try reflexivity.
  vm_compute in E. vm_compute in E2.
  injection E as <-. injection E2 as <-. apply Hreplay2.
Defined.

(** X7. Phone verification, there and back. For an unverified user
    whose saves resolve, /send-otp answers 200 and stores a fresh
    challenge; /verify-otp with the issued code before now + 10 min
    answers 200, marks the phone verified and clears the challenge, and
    at or after now + 10 min answers 400 and changes nothing. Once the
    phone is verified, /send-otp answers 400, issues no code and calls no
    gateway, and /verify-otp answers 400 for every code. *)
Theorem phone_verification_round_trip
    (env : Env) (saveUser : User -> bool) (random : Q) (now later : Z) (u : User) :
  isPhoneVerified u = false ->
  (forall d, saveUser d = true) ->
  let issued := generateOTP random now u in
  fst (fst (sendOtp env saveUser random now (Some u)))
    = mkReply 200 true
        "OTP sent successfully to your phone number. Check server console for OTP if SMS failed."
  /\ snd (fst (sendOtp env saveUser random now (Some u))) = Some (snd issued)
  /\ verifyOtp saveUser later (Some (fst issued)) (Some (snd issued))
     = (if (later <? now + 10 * 60 * 1000)%Z
        then (mkReply 200 true "Phone number verified successfully",
              Some (markVerified (snd issued)))
        else (mkReply 400 false "Invalid or expired OTP", Some (snd issued)))
  /\ isPhoneVerified (markVerified (snd issued)) = true
  /\ otpCode (markVerified (snd issued)) = None
  /\ (forall random' now',
         sendOtp env saveUser random' now' (Some (markVerified (snd issued)))
         = (mkReply 400 false "Phone number is already verified",
            Some (markVerified (snd issued)), []))
  /\ (forall now' code,
         code <> "" ->
         verifyOtp saveUser now' (Some code) (Some (markVerified (snd issued)))
         = (mkReply 400 false "Phone number is already verified",
            Some (markVerified (snd issued)))).
Proof.
  intros Hu Hs issued.
  assert (fst issued <> "") as Hne.
  { unfold issued, generateOTP. cbn [fst]. apply numberToString_nonempty. }
  split; [|split; [|split; [|split; [|split; [|split]]]]].
  - unfold sendOtp. rewrite Hu. fold issued. destruct issued as [otp u1] eqn:E.
    rewrite Hs. reflexivity.
  - unfold sendOtp. rewrite Hu. fold issued. destruct issued as [otp u1] eqn:E.
    rewrite Hs. reflexivity.
  - unfold verifyOtp, Js.truthy. apply String.eqb_neq in Hne. rewrite Hne. cbn [negb].
    assert (isPhoneVerified (snd issued) = false) as Hu1 by exact Hu.
    rewrite Hu1.
    assert (fst (verifyOTP later (snd issued) (fst issued))
            = (later <? now + 10 * 60 * 1000)%Z) as Hv.
    { unfold issued, verifyOTP, generateOTP. cbn [fst snd otpCode otpExpiry].
      rewrite String.eqb_refl. reflexivity. }
    rewrite Hv. destruct (later <? now + 10 * 60 * 1000)%Z; cbn [negb].
    + rewrite Hs. reflexivity.
    + reflexivity.
  - reflexivity.
  - reflexivity.
  - intros random' now'. reflexivity.
  - intros now' code Hcode. unfold verifyOtp, Js.truthy.
    apply String.eqb_neq in Hcode. rewrite Hcode. reflexivity.
Qed.

Lemma phone_verification_round_trip_witness :
  verifyOtp Fixture.saves 599999 (Some "325000")
            (Some (snd (generateOTP (1 # 4) 0 Sample.alice)))
    = (mkReply 200 true "Phone number verified successfully",
       Some (markVerified (snd (generateOTP (1 # 4) 0 Sample.alice))))
  /\ verifyOtp Fixture.saves 600000 (Some "325000")
               (Some (snd (generateOTP (1 # 4) 0 Sample.alice)))
     = (mkReply 400 false "Invalid or expired OTP",
        Some (snd (generateOTP (1 # 4) 0 Sample.alice))).
Proof.
  split.
  - destruct (phone_verification_round_trip Sample.envConfigured Fixture.saves
                (1 # 4) 0 599999 Sample.alice) as (_ & _ & Hv & _).
    + reflexivity.
    + intros d. reflexivity.
    + exact Hv.
  - destruct (phone_verification_round_trip Sample.envConfigured Fixture.saves
                (1 # 4) 0 600000 Sample.alice) as (_ & _ & Hv & _).
    + reflexivity.
    + intros d. reflexivity.
    + exact Hv.
Defined.

(** The cases of /send-otp. *)
Lemma sendOtp_cases (env : Env) (saveUser : User -> bool) (random : Q) (now : Z)
    (found : option User) :
  sendOtp env saveUser random now found =
  match found with
  | None => (mkReply 404 false "User not found", None, [])
  | Some u =>
      if isPhoneVerified u then
        (mkReply 400 false "Phone number is already verified", Some u, [])
      else if negb (saveUser (snd (generateOTP random now u))) then
        (mkReply 500 false "Server error", Some u, [])
      else
        (mkReply 200 true
           "OTP sent successfully to your phone number. Check server console for OTP if SMS failed.",
         Some (snd (generateOTP random now u)),
         match twilioClient env with
         | Some c =>
             [EvGatewayCall c
                (mkMessage (otpMessage (fst (generateOTP random now u)))
                           (TWILIO_PHONE_NUMBER env) (phoneNumber u))]
         | None => []
         end)
  end.
Proof.
  unfold sendOtp. destruct found as [u|]; [|reflexivity].
  destruct (isPhoneVerified u); reflexivity.
Qed.

(** X8. /send-otp looks at the configuration before it calls the
    gateway. Whatever the request, it makes at most one gateway call, and
    only through a client built from a present account SID and a present
    auth token, with the issued code in the body, to the user's stored
    number; when either credential is missing it makes none, and still
    stores the code and answers 200. *)
Theorem sendOtp_calls_gateway_only_when_configured
    (env : Env) (saveUser : User -> bool) (random : Q) (now : Z)
    (found : option User) :
  (length (snd (sendOtp env saveUser random now found)) <= 1)%nat
  /\ Forall (fun e =>
               exists sid token u,
                 found = Some u
                 /\ TWILIO_ACCOUNT_SID env = Some sid /\ sid <> ""
                 /\ TWILIO_AUTH_TOKEN env = Some token /\ token <> ""
                 /\ e = EvGatewayCall
                          (mkClient (Some sid) (Some token))
                          (mkMessage (otpMessage (fst (generateOTP random now u)))
                                     (TWILIO_PHONE_NUMBER env) (phoneNumber u)))
            (snd (sendOtp env saveUser random now found))
  /\ (Js.truthy (TWILIO_ACCOUNT_SID env) && Js.truthy (TWILIO_AUTH_TOKEN env) = false ->
      snd (sendOtp env saveUser random now found) = []
      /\ forall u,
          found = Some u -> isPhoneVerified u = false ->
          saveUser (snd (generateOTP random now u)) = true ->
          fst (sendOtp env saveUser random now found)
          = (mkReply 200 true
               "OTP sent successfully to your phone number. Check server console for OTP if SMS failed.",
             Some (snd (generateOTP random now u)))).
Proof.
  rewrite (sendOtp_cases env saveUser random now found).
  destruct found as [u|];
    [|split; [simpl; lia|split; [constructor|intros _; split; [reflexivity|discriminate]]]].
  destruct (isPhoneVerified u) eqn:Hv;
    [split; [simpl; lia|split; [constructor|]]; intros _; split; [reflexivity|];
     intros u' E Hu' _; injection E as <-; congruence|].
  destruct (saveUser (snd (generateOTP random now u))) eqn:Hs; cbn [negb andb];
    [|split; [simpl; lia|split; [constructor|]]; intros _; split; [reflexivity|];
      intros u' E _ Hs'; injection E as <-; congruence].
  unfold twilioClient.
  destruct (Js.truthy (TWILIO_ACCOUNT_SID env) && Js.truthy (TWILIO_AUTH_TOKEN env))
    eqn:Hcfg; cbn [snd fst length].
  - split; [lia|]. split; [|discriminate].
    apply andb_prop in Hcfg as [Hsid Htok]. unfold Js.truthy in Hsid, Htok.
    destruct (TWILIO_ACCOUNT_SID env) as [sid|]; [|discriminate Hsid].
    destruct (TWILIO_AUTH_TOKEN env) as [token|]; [|discriminate Htok].
    apply negb_true_iff, String.eqb_neq in Hsid.
    apply negb_true_iff, String.eqb_neq in Htok.
    constructor; [|constructor].
    exists sid, token, u. repeat split; assumption || reflexivity.
  - split; [lia|]. split; [constructor|]. intros _. split; [reflexivity|].
    intros u' E _ _. injection E as <-. reflexivity.
Qed.

Lemma sendOtp_calls_gateway_only_when_configured_witness :
  snd (sendOtp Sample.envUnconfigured Fixture.saves (1 # 4) 0 (Some Sample.alice)) = []
  /\ fst (sendOtp Sample.envUnconfigured Fixture.saves (1 # 4) 0 (Some Sample.alice))
     = (mkReply 200 true
          "OTP sent successfully to your phone number. Check server console for OTP if SMS failed.",
        Some (snd (generateOTP (1 # 4) 0 Sample.alice))).
Proof.
  destruct (sendOtp_calls_gateway_only_when_configured Sample.envUnconfigured
              Fixture.saves (1 # 4) 0 (Some Sample.alice)) as (_ & _ & H).
  destruct H as [Hnone Hstored]; [reflexivity|].
  split; [exact Hnone|]. apply Hstored; reflexivity.
Defined.

(** ** The middleware in front of the trigger *)

(** The middleware passes a request on exactly when it carries a
    non-empty token that verifies and names a stored account that is
    active and not locked; every other request it answers itself, with
    401 or 423. *)
Lemma authenticateUser_cases
    (jwtVerify : string -> option Decoded) (store : gmap string Account)
    (tAuth : Z) (authorization cookie : option string) :
  (exists token decoded key acc,
      (requestToken authorization cookie = Some token
       /\ token <> ""
       /\ jwtVerify token = Some decoded
       /\ (if Js.truthy (decoded_userId decoded) then decoded_userId decoded
           else decoded_id decoded) = Some key
       /\ store !! key = Some acc
       /\ isActive acc = true
       /\ isLocked tAuth (account_user acc) = false)
      /\ authenticateUser jwtVerify store tAuth authorization cookie
         = Next (account_user acc))
  \/ (~ (exists token decoded key acc,
            requestToken authorization cookie = Some token
            /\ token <> ""
            /\ jwtVerify token = Some decoded
            /\ (if Js.truthy (decoded_userId decoded) then decoded_userId decoded
                else decoded_id decoded) = Some key
            /\ store !! key = Some acc
            /\ isActive acc = true
            /\ isLocked tAuth (account_user acc) = false)
      /\ exists code message,
           (code = 401 \/ code = 423)
           /\ authenticateUser jwtVerify store tAuth authorization cookie
              = Reject code message).
Proof.
  unfold authenticateUser.
  destruct (requestToken authorization cookie) as [token|] eqn:Hr.
  2: { right. split; [intros (t & d & k & a & E & _); discriminate E|].
       eexists _, _. split; [left; reflexivity|reflexivity]. }
  assert (Js.truthy (Some token) = negb (String.eqb token "")) as Htruthy
    by reflexivity.
  rewrite Htruthy. clear Htruthy.
  destruct (String.eqb token "") eqn:Ht; cbn [negb].
  { right. apply String.eqb_eq in Ht.
    split; [intros (t & d & k & a & E & Hne & _); congruence|].
    eexists _, _. split; [left; reflexivity|reflexivity]. }
  destruct (jwtVerify token) as [decoded|] eqn:Hj.
  2: { right. split; [intros (t & d & k & a & E & _ & Hj' & _); congruence|].
       eexists _, _. split; [left; reflexivity|reflexivity]. }
  destruct (if Js.truthy (decoded_userId decoded) then decoded_userId decoded
            else decoded_id decoded) as [key|] eqn:Hkey.
  2: { right. cbn [mbind option_bind]. split.
       - intros (t & d & k & a & E & _ & Hj' & Hk' & _).
         injection E as <-. rewrite Hj in Hj'. injection Hj' as <-.
         rewrite Hkey in Hk'. discriminate Hk'.
       - eexists _, _. split; [left; reflexivity|reflexivity]. }
  cbn [mbind option_bind].
  destruct (store !! key) as [acc|] eqn:Hk.
  2: { right. split.
       - intros (t & d & k & a & E & _ & Hj' & Hk' & Hs' & _).
         injection E as <-. rewrite Hj in Hj'. injection Hj' as <-.
         rewrite Hkey in Hk'. injection Hk' as <-. rewrite Hk in Hs'.
         discriminate Hs'.
       - eexists _, _. split; [left; reflexivity|reflexivity]. }
  destruct (isActive acc) eqn:Ha; cbn [negb].
  2: { right. split.
       - intros (t & d & k & a & E & _ & Hj' & Hk' & Hs' & Ha' & _).
         injection E as <-. rewrite Hj in Hj'. injection Hj' as <-.
         rewrite Hkey in Hk'. injection Hk' as <-. rewrite Hk in Hs'.
         injection Hs' as <-. rewrite Ha in Ha'. discriminate Ha'.
       - eexists _, _. split; [left; reflexivity|reflexivity]. }
  destruct (isLocked tAuth (account_user acc)) eqn:Hl.
  { right. split.
    - intros (t & d & k & a & E & _ & Hj' & Hk' & Hs' & _ & Hl').
      injection E as <-. rewrite Hj in Hj'. injection Hj' as <-.
      rewrite Hkey in Hk'. injection Hk' as <-. rewrite Hk in Hs'.
      injection Hs' as <-. rewrite Hl in Hl'. discriminate Hl'.
    - eexists _, _. split; [right; reflexivity|reflexivity]. }
  left. exists token, decoded, key, acc. apply String.eqb_neq in Ht.
  repeat split; assumption || reflexivity.
Qed.

(** X9. No alert without an authenticated, active, unlocked account,
    and nothing but a refusal otherwise. A run of POST /trigger saves a
    record or calls the gateway if and only if the request carried a
    non-empty token (in the Authorization header once its first
    "Bearer " is removed, else in the cookie), the token verified, its
    userId (or else its id) names a stored account, that account is
    active and not locked at the clock of the middleware, and the save
    resolved. A run does neither if and only if it consists of one
    response and nothing else, with status 401, 423 or 500 and no alert
    id. *)
Theorem trigger_route_needs_an_unlocked_account
    (env : Env) (gateway : TwilioClient -> nat -> nat -> Message -> Settled)
    (saveResolves : SOSLog -> bool) (toLocaleTimeString : Z -> string)
    (sched : list nat) (jwtVerify : string -> option Decoded)
    (store : gmap string Account)
    (authorization cookie : option string) (loc : option Location) (ts : Js.Val)
    (newId : string) (tAuth now tSend : Z) :
  (existsb (fun e => isSave e || isGatewayCall e)
           (triggerRoute env gateway saveResolves toLocaleTimeString sched
                         jwtVerify store authorization cookie loc ts newId
                         tAuth now tSend) = true
   <->
   exists token decoded key acc,
     requestToken authorization cookie = Some token
     /\ token <> ""
     /\ jwtVerify token = Some decoded
     /\ (if Js.truthy (decoded_userId decoded) then decoded_userId decoded
         else decoded_id decoded) = Some key
     /\ store !! key = Some acc
     /\ isActive acc = true
     /\ isLocked tAuth (account_user acc) = false
     /\ saveResolves (newSOSLog newId now (mkTriggerRequest loc ts (account_user acc)))
        = true)
  /\ (existsb (fun e => isSave e || isGatewayCall e)
              (triggerRoute env gateway saveResolves toLocaleTimeString sched
                            jwtVerify store authorization cookie loc ts newId
                            tAuth now tSend) = false
      <->
      exists code message,
        (code = 401 \/ code = 423 \/ code = 500)
        /\ triggerRoute env gateway saveResolves toLocaleTimeString sched
                        jwtVerify store authorization cookie loc ts newId
                        tAuth now tSend
           = [EvResponse code (mkTriggerResponse false message None None)]).
Proof.
  unfold triggerRoute.
  destruct (authenticateUser_cases jwtVerify store tAuth authorization cookie)
    as [(token & decoded & key & acc & HA & ->)
       |(HnA & code & message & Hcode & ->)].
  - destruct HA as (Hr & Ht & Hj & Hkey & Hk & Ha & Hl).
    unfold trigger. cbv zeta. cbn [req_user body_location].
    destruct (saveResolves _) eqn:Hs.
    + split; split.
      * intros _. exists token, decoded, key, acc. repeat split; assumption.
      * intros _. reflexivity.
      * intros E. discriminate E.
      * intros (c & m & _ & E). discriminate E.
    + split; split.
      * intros E. discriminate E.
      * intros (t & d & k & a & Hr' & _ & Hj' & Hkey' & Hk' & _ & _ & Hs').
        rewrite Hr in Hr'. injection Hr' as <-.
        rewrite Hj in Hj'. injection Hj' as <-.
        rewrite Hkey in Hkey'. injection Hkey' as <-.
        rewrite Hk in Hk'. injection Hk' as <-.
        rewrite Hs in Hs'. discriminate Hs'.
      * intros _. eexists _, _. split; [right; right; reflexivity|reflexivity].
      * intros _. reflexivity.
  - split; split.
    + intros E. discriminate E.
    + intros (t & d & k & a & H1 & H2 & H3 & H4 & H5 & H6 & H7 & _).
      exfalso. apply HnA. exists t, d, k, a. repeat split; assumption.
    + intros _. exists code, message. split; [|reflexivity].
      destruct Hcode as [->| ->]; auto.
    + intros _. reflexivity.
Qed.

Lemma trigger_route_needs_an_unlocked_account_witness :
  (exists token decoded key acc,
    requestToken (Some "Bearer t1") None = Some token
    /\ token <> ""
    /\ Fixture.jwtVerify token = Some decoded
    /\ (if Js.truthy (decoded_userId decoded) then decoded_userId decoded
        else decoded_id decoded) = Some key
    /\ Fixture.store !! key = Some acc
    /\ isActive acc = true
    /\ isLocked 100 (account_user acc) = false
    /\ Sample.saves (newSOSLog "alert1" 105 (mkTriggerRequest None Js.Undefined
                                                (account_user acc))) = true)
  /\ exists code message,
       (code = 401 \/ code = 423 \/ code = 500)
       /\ triggerRoute Sample.envConfigured Sample.gatewayUp Sample.saves
                       Sample.clockText Sample.roundRobin Fixture.jwtVerify
                       Fixture.store (Some "Bearer expired") None None Js.Undefined
                       "alert2" 100 105 110
          = [EvResponse code (mkTriggerResponse false message None None)].
Proof.
  split.
  - apply (proj1 (proj1 (trigger_route_needs_an_unlocked_account
             Sample.envConfigured Sample.gatewayUp Sample.saves Sample.clockText
             Sample.roundRobin Fixture.jwtVerify Fixture.store
             (Some "Bearer t1") None None Js.Undefined "alert1" 100 105 110))).
    vm_compute. reflexivity.
  - apply (proj1 (proj2 (trigger_route_needs_an_unlocked_account
             Sample.envConfigured Sample.gatewayUp Sample.saves Sample.clockText
             Sample.roundRobin Fixture.jwtVerify Fixture.store
             (Some "Bearer expired") None None Js.Undefined "alert2" 100 105 110))).
    vm_compute. reflexivity.
Defined.

Lemma replaceFirst_Bearer (token : string) :
  replaceFirst "Bearer " ("Bearer " ++ token) = token.
Proof. destruct token; reflexivity. Qed.

(** Five wrong secrets on a fresh document lock it. *)
Lemma five_failures_lock (bcryptCompare : string -> string -> bool)
    (u : User) (first4 : list Attempt) (fifth : Attempt) :
  loginAttempts u = 0 ->
  lockUntil u = None ->
  length first4 = 4%nat ->
  forallb (fun a => negb (bcryptCompare (secret a) (password u)))
          (first4 ++ [fifth]) = true ->
  exists locked,
    snd (loginSeq bcryptCompare (Some u) (first4 ++ [fifth])) = Some locked
    /\ lockUntil locked = Some (tUpdate fifth + lockDuration).
Proof.
  intros Hc Hl Hlen Hw.
  rewrite forallb_app in Hw. apply andb_prop in Hw as [Hw4 Hw5].
  simpl in Hw5. rewrite andb_true_r in Hw5. apply negb_true_iff in Hw5.
  destruct (loginSeq_failures bcryptCompare first4 u Hl) as (u4 & E4 & C4 & L4 & P4);
    [rewrite Hc, Hlen; simpl; lia|exact Hw4|].
  rewrite Hc, Hlen in C4. simpl in C4.
  destruct (failed_login_locks bcryptCompare fifth u4 L4) as (u5 & E5 & C5 & L5);
    [lia|rewrite P4; exact Hw5|].
  exists u5. split; [|exact L5].
  rewrite loginSeq_app, E4. cbn [fst snd loginSeq]. rewrite E5. reflexivity.
Qed.

(** X10. Five wrong passwords silence the alert. Once five consecutive
    logins with a wrong secret have locked an account, a POST /trigger
    with that account's valid token, made before the lock expiry (two
    hours after the fifth failure), is answered 423 by the middleware:
    no record is saved and no message is sent. *)
Theorem five_failed_logins_block_the_trigger
    (bcryptCompare : string -> string -> bool)
    (u : User) (first4 : list Attempt) (fifth : Attempt)
    (env : Env) (gateway : TwilioClient -> nat -> nat -> Message -> Settled)
    (saveResolves : SOSLog -> bool) (toLocaleTimeString : Z -> string)
    (sched : list nat) (jwtVerify : string -> option Decoded)
    (store : gmap string Account) (acc : Account)
    (token : string) (loc : option Location) (ts : Js.Val)
    (newId : string) (tAuth now tSend : Z) :
  loginAttempts u = 0 ->
  lockUntil u = None ->
  length first4 = 4%nat ->
  forallb (fun a => negb (bcryptCompare (secret a) (password u)))
          (first4 ++ [fifth]) = true ->
  snd (loginSeq bcryptCompare (Some u) (first4 ++ [fifth])) = Some (account_user acc) ->
  isActive acc = true ->
  token <> "" ->
  jwtVerify token = Some (mkDecoded (Some (_id u)) None) ->
  _id u <> "" ->
  store !! _id u = Some acc ->
  tAuth < tUpdate fifth + 2 * 60 * 60 * 1000 ->
  triggerRoute env gateway saveResolves toLocaleTimeString sched jwtVerify store
               (Some ("Bearer " ++ token)) None loc ts newId tAuth now tSend
  = [EvResponse 423
       (mkTriggerResponse false
          "Account is temporarily locked due to multiple failed login attempts."
          None None)].
Proof.
  intros Hc Hl Hlen Hw Hseq Ha Ht Hj Hid Hs Hbefore.
  destruct (five_failures_lock bcryptCompare u first4 fifth Hc Hl Hlen Hw)
    as (locked & E & Hlock).
  rewrite Hseq in E. injection E as E.
  assert (isLocked tAuth (account_user acc) = true) as Hlocked.
  { unfold isLocked. rewrite E, Hlock. apply Z.ltb_lt. exact Hbefore. }
  apply String.eqb_neq in Ht. apply String.eqb_neq in Hid.
  unfold triggerRoute, authenticateUser, requestToken.
  cbn [fmap option_fmap option_map].
  rewrite replaceFirst_Bearer.
  cbn [Js.truthy]. rewrite Ht. cbn [negb]. rewrite Hj.
  cbn [decoded_userId Js.truthy]. rewrite Hid. cbn [negb mbind option_bind].
  rewrite Hs, Ha. cbn [negb]. rewrite Hlocked, ?Ht. reflexivity.
Qed.

Lemma five_failed_logins_block_the_trigger_witness :
  triggerRoute Sample.envConfigured Sample.gatewayUp Sample.saves Sample.clockText
               Sample.roundRobin Fixture.jwtVerify
               (<["u1" := mkAccount Fixture.lockedAlice true "approved"]> Fixture.store)
               (Some "Bearer t1") None None Js.Undefined "alert1" 3600000 3600005 3600010
  = [EvResponse 423
       (mkTriggerResponse false
          "Account is temporarily locked due to multiple failed login attempts."
          None None)].
Proof.
  apply (five_failed_logins_block_the_trigger Sample.compare Sample.alice
           [Sample.wrong (-400); Sample.wrong (-300); Sample.wrong (-200);
            Sample.wrong (-100)] (Sample.wrong 0)
           Sample.envConfigured Sample.gatewayUp Sample.saves Sample.clockText
           Sample.roundRobin Fixture.jwtVerify
           (<["u1" := mkAccount Fixture.lockedAlice true "approved"]> Fixture.store)
           (mkAccount Fixture.lockedAlice true "approved") "t1");
    try reflexivity; try discriminate; simpl; lia.
Defined.

(** ** The dispatch, message by message *)

Section DispatchMore.

Variable env : Env.
Variable gateway : TwilioClient -> nat -> nat -> Message -> Settled.
Variable toLocaleTimeString : Z -> string.
Variable sched : list nat.


End DispatchMore.

(** X11. One message for all. In every run of the dispatch, under any
    gateway and any schedule, each gateway call goes through the module's
    client, from the configured sender number, to one of the resolved
    destinations, and carries the one body that was built when the
    dispatch started: all destinations and all three attempts get the
    same text. *)
Theorem every_call_carries_the_one_message
    (env : Env) (gateway : TwilioClient -> nat -> nat -> Message -> Settled)
    (toLocaleTimeString : Z -> string) (sched : list nat)
    (tSend : Z) (user : User) (loc : option Location) (e : Event) :
  In e (sendSOSAlerts env gateway toLocaleTimeString sched tSend user loc) ->
  isGatewayCall e = true ->
  exists dest ty,
    In (dest, ty) (smsTargets user)
    /\ e = EvGatewayCall (client env)
             (mkMessage (baseMessage loc (toLocaleTimeString tSend))
                        (TWILIO_PHONE_NUMBER env) dest).
Proof.
  unfold sendSOSAlerts. intros Hin Hcall.
  apply (Permutation_in _ (interleave_Permutation _ _)) in Hin.
  apply in_concat in Hin as (t & Ht & He).
  apply list_elem_of_In, elem_of_lookup_imap in Ht as (k & [dest ty] & -> & Hk).
  exists dest, ty. split.
  - apply list_elem_of_In. eapply list_elem_of_lookup_2. exact Hk.
  - cbn [fst snd] in He.
    assert (In e (List.filter isGatewayCall
                    (sendTripleSMS env gateway
                       (baseMessage loc (toLocaleTimeString tSend)) k dest ty))) as Hf.
    { apply filter_In. split; assumption. }
    rewrite sendTripleSMS_calls in Hf. apply repeat_spec in Hf. exact Hf.
Qed.

Lemma every_call_carries_the_one_message_witness :
  exists dest ty,
    In (dest, ty) (smsTargets Sample.dave)
    /\ EvGatewayCall (client Sample.envConfigured)
         (mkMessage (baseMessage (Some (mkLocation "12.9" "77.6")) (Sample.clockText 5))
                    (Some "+15550100") (Some "+919845012345"))
       = EvGatewayCall (client Sample.envConfigured)
           (mkMessage (baseMessage (Some (mkLocation "12.9" "77.6")) (Sample.clockText 5))
                      (TWILIO_PHONE_NUMBER Sample.envConfigured) dest).
Proof.
  apply (every_call_carries_the_one_message Sample.envConfigured Sample.gatewayUp
           Sample.clockText Sample.roundRobin 5 Sample.dave
           (Some (mkLocation "12.9" "77.6"))).
  - vm_compute. right. left. reflexivity.
  - reflexivity.
Defined.

(** X12. Three calls for each entry of the destination list. In every
    run of the dispatch the number of gateway calls to an address is
    three times the number of entries of the destination list that hold
    this address: an address listed twice, as when the user's own number
    is also the contact's or the police number, is called six times, and
    an address that is not listed is never called. *)
Theorem calls_per_destination
    (env : Env) (gateway : TwilioClient -> nat -> nat -> Message -> Settled)
    (toLocaleTimeString : Z -> string) (sched : list nat)
    (tSend : Z) (user : User) (loc : option Location) (dest : option string) :
  countIf (isGatewayCallTo dest)
          (sendSOSAlerts env gateway toLocaleTimeString sched tSend user loc)
  = (3 * length (List.filter (fun target => bool_decide (fst target = dest))
                             (smsTargets user)))%nat.
Proof.
  unfold sendSOSAlerts.
  rewrite (countIf_Permutation _ _ _ (interleave_Permutation _ _)).
  apply countIf_concat_imap_filter. intros k x. apply sendTripleSMS_calls_to.
Qed.



(** X14. A contact stored under the schema's field names is recorded
    but never notified. The user schema stores the emergency contact's
    number as phone; the dispatch reads phoneNumber. For a user whose
    contact object has no phoneNumber property, the saved record lists
    the contact among its emergency contacts, yet no destination is an
    emergency contact: the gateway is called for the police number and
    for the user's own number only. *)
Theorem contact_without_phoneNumber_is_recorded_not_notified
    (env : Env) (gateway : TwilioClient -> nat -> nat -> Message -> Settled)
    (toLocaleTimeString : Z -> string) (sched : list nat)
    (newId : string) (now tSend : Z) (req : TriggerRequest)
    (contact : gmap string string) :
  emergencyContact (req_user req) = Some contact ->
  contact !! "phoneNumber" = None ->
  emergencyContacts (newSOSLog newId now req) = [contact]
  /\ smsTargets (req_user req)
     = ((Some policeNumber, "Police")
          :: (if Js.truthy (phoneNumber (req_user req))
              then [(formatPhoneNumber (phoneNumber (req_user req)), "User Confirmation")]
              else []))%list
  /\ (forall dest, ~ In (dest, "Emergency Contact") (smsTargets (req_user req)))
  /\ countIf isGatewayCall
       (sendSOSAlerts env gateway toLocaleTimeString sched tSend (req_user req)
                      (body_location req))
     = (if Js.truthy (phoneNumber (req_user req)) then 6%nat else 3%nat).
Proof.
  intros Hc Hp.
  assert (smsTargets (req_user req)
          = ((Some policeNumber, "Police")
               :: (if Js.truthy (phoneNumber (req_user req))
                   then [(formatPhoneNumber (phoneNumber (req_user req)),
                          "User Confirmation")]
                   else []))%list) as Ht.
  { unfold smsTargets. rewrite Hc, Hp. reflexivity. }
  split; [unfold newSOSLog; cbn [emergencyContacts]; rewrite Hc; reflexivity|].
  split; [exact Ht|]. split.
  - intros dest Hin. rewrite Ht in Hin.
    destruct Hin as [H|Hin]; [discriminate H|].
    destruct (Js.truthy (phoneNumber (req_user req))); [|destruct Hin].
    destruct Hin as [H|[]]. discriminate H.
  - rewrite (sendSOSAlerts_count env gateway toLocaleTimeString sched isGatewayCall 3);
      [|intros; apply sendTripleSMS_counts].
    rewrite Ht. destruct (Js.truthy (phoneNumber (req_user req))); reflexivity.
Qed.

Lemma contact_without_phoneNumber_is_recorded_not_notified_witness :
  emergencyContacts (newSOSLog "alert1" 0 (Sample.request Sample.alice))
    = [Sample.contact]
  /\ Sample.contact !! "phone" = Some "9123456780"
  /\ forall dest, ~ In (dest, "Emergency Contact") (smsTargets Sample.alice).
Proof.
  destruct (contact_without_phoneNumber_is_recorded_not_notified
              Sample.envConfigured Sample.gatewayUp Sample.clockText Sample.roundRobin
              "alert1" 0 5 (Sample.request Sample.alice) Sample.contact)
    as (Hrec & _ & Hnone & _).
  - reflexivity.
  - vm_compute. reflexivity.
  - split; [exact Hrec|]. split; [vm_compute; reflexivity|exact Hnone].
Defined.

(** ** Phone numbers: stored form and dispatched form *)

Lemma stripNonDigits_of_digits (s : string) :
  Js.allChars Js.isDigit s = true -> SpecWords.stripNonDigits s = s.
Proof.
  unfold SpecWords.stripNonDigits.
  induction s as [|c r IH]; simpl; [reflexivity|].
  intros H. apply andb_prop in H as [Hc Hr].
  rewrite Hc. simpl. f_equal. exact (IH Hr).
Qed.

Lemma length_append (a b : string) :
  String.length (a ++ b) = (String.length a + String.length b)%nat.
Proof. induction a as [|c a IH]; simpl; [reflexivity|]. rewrite IH. reflexivity. Qed.

(** Normalising a string of digits behind a '+'. *)
Lemma normalize_plus_digits (d : string) :
  Js.allChars Js.isDigit d = true ->
  SpecWords.normalize (String "+" d)
  = String "+" (if (String.length d =? 10)%nat then "91" ++ d else d).
Proof.
  intros Hd. unfold SpecWords.normalize.
  assert (SpecWords.stripNonDigits (String "+" d) = d) as ->.
  { unfold SpecWords.stripNonDigits. simpl. apply (stripNonDigits_of_digits d Hd). }
  reflexivity.
Qed.

(** X15. Normalising twice is normalising once: the dispatcher's
    formatPhoneNumber, applied to its own result, returns that result,
    for every input, the falsy ones included. A number that was given
    the country code is not given it again. *)
Theorem formatPhoneNumber_idempotent (v : option string) :
  formatPhoneNumber (formatPhoneNumber v) = formatPhoneNumber v.
Proof.
  rewrite (formatPhoneNumber_cases v).
  destruct v as [s|]; [|reflexivity].
  destruct (String.eqb s ""); [reflexivity|].
  rewrite formatPhoneNumber_cases.
  pose proof (removeAll_nondigits_allDigits s) as Hd.
  assert (SpecWords.normalize s
          = String "+" (if (String.length (SpecWords.stripNonDigits s) =? 10)%nat
                        then "91" ++ SpecWords.stripNonDigits s
                        else SpecWords.stripNonDigits s)) as Hn by reflexivity.
  set (d := SpecWords.stripNonDigits s) in *.
  rewrite Hn. simpl String.eqb. f_equal.
  destruct (Nat.eqb_spec (String.length d) 10) as [Hlen|Hlen].
  - rewrite normalize_plus_digits
      by (rewrite allChars_app, Hd; reflexivity).
    rewrite length_append, Hlen. reflexivity.
  - rewrite normalize_plus_digits by exact Hd.
    apply Nat.eqb_neq in Hlen. rewrite Hlen. reflexivity.
Qed.

(** X16. Where a stored number is dispatched. For a number that passes
    the user schema's pattern, the dispatcher's destination is '+'
    followed by the number's digits, except that a number of exactly ten
    digits gets 91 put in front: a number stored in international form
    with ten digits, as "+4915112345", is not dispatched as stored but as
    an Indian number, "+914915112345"; with any other count of digits the
    international form is dispatched unchanged. *)
Theorem dispatch_of_a_schema_valid_number (s : string) :
  phoneNumberMatch s = true ->
  let digits := match s with String "+" r => r | _ => s end in
  formatPhoneNumber (Some s)
  = Some (if (String.length digits =? 10)%nat then "+91" ++ digits else "+" ++ digits).
Proof.
  intros Hm digits.
  assert (Js.allChars Js.isDigit digits = true /\ digits <> "") as [Hd Hne].
  { unfold phoneNumberMatch in Hm. fold digits in Hm.
    destruct digits as [|c r]; [discriminate Hm|].
    split; [|discriminate].
    apply andb_prop in Hm as [Hm _]. apply andb_prop in Hm as [Hm _].
    apply andb_prop in Hm as [Hm Hr]. apply andb_prop in Hm as [Hc _].
    simpl. rewrite Hc, Hr. reflexivity. }
  assert (s <> "") as Hs.
  { intros ->. apply Hne. reflexivity. }
  rewrite formatPhoneNumber_cases. apply String.eqb_neq in Hs. rewrite Hs. f_equal.
  assert (SpecWords.stripNonDigits s = digits) as Hstrip.
  { destruct s as [|c r]; [reflexivity|].
    destruct (Ascii.eqb_spec c "+") as [->|Hc].
    - unfold SpecWords.stripNonDigits. simpl. apply (stripNonDigits_of_digits r Hd).
    - assert (digits = String c r) as ->.
      { subst digits. destruct c as [[] [] [] [] [] [] [] []]; try reflexivity.
        exfalso. apply Hc. reflexivity. }
      apply stripNonDigits_of_digits. exact Hd. }
  unfold SpecWords.normalize. rewrite Hstrip.
  destruct (String.length digits =? 10)%nat; reflexivity.
Qed.

Lemma dispatch_of_a_schema_valid_number_witness :
  formatPhoneNumber (Some "+4915112345") = Some "+914915112345"
  /\ formatPhoneNumber (Some "+14155550123") = Some "+14155550123".
Proof.
  split.
  - apply (dispatch_of_a_schema_valid_number "+4915112345"). reflexivity.
  - apply (dispatch_of_a_schema_valid_number "+14155550123"). reflexivity.
Defined.

(** X17. Registration and dispatch agree on a national number. A number
    of ten digits given at registration is stored as "+91" followed by
    the digits; the stored form passes the schema's pattern, the
    dispatcher sends to exactly the stored form, and it would send to the
    same address from the bare ten digits. *)
Theorem registered_national_number_is_dispatched_as_stored (p : string) :
  Js.allChars Js.isDigit p = true ->
  String.length p = 10%nat ->
  formattedPhoneNumber p = "+91" ++ p
  /\ phoneNumberMatch (formattedPhoneNumber p) = true
  /\ formatPhoneNumber (Some (formattedPhoneNumber p)) = Some (formattedPhoneNumber p)
  /\ formatPhoneNumber (Some p) = Some (formattedPhoneNumber p).
Proof.
  intros Hd Hlen.
  assert (formattedPhoneNumber p = "+91" ++ p) as Hf.
  { unfold formattedPhoneNumber. rewrite (allDigits_not_plus p Hd). reflexivity. }
  assert (p <> "") as Hne by (intros ->; discriminate Hlen).
  rewrite Hf. split; [reflexivity|].
  change ("+91" ++ p) with (String "+" (String "9" (String "1" p))).
  split; [|split].
  - unfold phoneNumberMatch. simpl. rewrite Hd, Hlen. reflexivity.
  - rewrite formatPhoneNumber_cases. simpl String.eqb. f_equal.
    rewrite normalize_plus_digits by (simpl; exact Hd).
    simpl String.length. rewrite Hlen. reflexivity.
  - rewrite formatPhoneNumber_cases. apply String.eqb_neq in Hne. rewrite Hne.
    unfold SpecWords.normalize. rewrite (stripNonDigits_of_digits p Hd), Hlen.
    reflexivity.
Qed.

Lemma registered_national_number_is_dispatched_as_stored_witness :
  formattedPhoneNumber "9812345678" = "+919812345678"
  /\ formatPhoneNumber (Some "+919812345678") = Some "+919812345678".
Proof.
  destruct (registered_national_number_is_dispatched_as_stored "9812345678")
    as (Hf & _ & Hs & _); [reflexivity|reflexivity|].
  split; [exact Hf|exact Hs].
Defined.

(** ** Registration lookups *)

Lemma formattedPhoneNumber_starts_with_plus (q : string) :
  Js.startsWith "+" (formattedPhoneNumber q) = true.
Proof.
  unfold formattedPhoneNumber.
  destruct (Js.startsWith "+" q) eqn:E; [exact E|].
  unfold Js.startsWith. destruct q; reflexivity.
Qed.

(** X18. The duplicate check on the phone number never fires for a
    number given without '+'. Registration looks for an existing user
    with the number as it was typed, but stores the number with "+91" put
    in front when it has no '+': among users whose numbers were stored by
    registration, a number typed without '+' is never found, so the same
    number can be registered again and again. *)
Theorem phone_duplicate_check_misses_unprefixed_numbers
    (users : list User) (typed : string) :
  Forall (fun u => exists q, phoneNumber u = Some (formattedPhoneNumber q)) users ->
  Js.startsWith "+" typed = false ->
  phoneNumberTaken users typed = false.
Proof.
  intros Hall Htyped.
  unfold phoneNumberTaken. induction Hall as [|u rest (q & Hq) _ IH]; [reflexivity|].
  simpl. rewrite IH, orb_false_r. apply bool_decide_eq_false. rewrite Hq. intros E.
  injection E as E. pose proof (formattedPhoneNumber_starts_with_plus q) as Hp.
  rewrite E, Htyped in Hp. discriminate Hp.
Qed.

Lemma phone_duplicate_check_misses_unprefixed_numbers_witness :
  phoneNumberTaken
    [mkUser "u9" "Asha" "asha@example.org" "asha" "h" "indian"
            (Some (formattedPhoneNumber "9812345678")) false None None 0 None None None]
    "9812345678" = false.
Proof.
  apply (phone_duplicate_check_misses_unprefixed_numbers
           [mkUser "u9" "Asha" "asha@example.org" "asha" "h" "indian"
                   (Some (formattedPhoneNumber "9812345678")) false None None 0
                   None None None] "9812345678").
  - constructor; [|constructor]. exists "9812345678". reflexivity.
  - reflexivity.
Defined.

Lemma usernameTaken_iff (users : list User) (name : string) :
  usernameTaken users name = true <-> In name (map username users).
Proof.
  unfold usernameTaken. induction users as [|u rest IH]; simpl.
  - split; [discriminate|intros []].
  - rewrite orb_true_iff, IH, String.eqb_eq. reflexivity.
Qed.

(** X19. The availability check lowers the name, the store does not.
    For a name of ASCII characters, which toLowerCase changes in the
    letters A-Z only: a stored username that contains a capital letter,
    with no user stored under its lower-case form, is reported available
    by /check-username, although registration finds it taken; for a name
    that is its own lower-case form the check is exact. *)
Theorem check_username_misses_capitals
    (toLowerCase : string -> string) (users : list User) (name : string) :
  lowersAscii toLowerCase ->
  isAscii name = true ->
  (asciiLower name = name ->
   checkUsername toLowerCase users name = negb (usernameTaken users name))
  /\ (In name (map username users) ->
      ~ In (asciiLower name) (map username users) ->
      checkUsername toLowerCase users name = true /\ usernameTaken users name = true).
Proof.
  intros Hlower Hascii. unfold checkUsername. rewrite (Hlower name Hascii). split.
  - intros E. rewrite E. reflexivity.
  - intros Hin Hlow. split.
    + apply negb_true_iff.
      destruct (usernameTaken users (asciiLower name)) eqn:E; [|reflexivity].
      exfalso. apply Hlow, usernameTaken_iff, E.
    + apply usernameTaken_iff, Hin.
Qed.

Lemma check_username_misses_capitals_witness :
  checkUsername asciiLower
    [mkUser "u7" "Ravi K" "ravi@example.org" "Ravi_K" "h" "indian"
            (Some "+919812345678") false None None 0 None None None] "Ravi_K" = true
  /\ usernameTaken
       [mkUser "u7" "Ravi K" "ravi@example.org" "Ravi_K" "h" "indian"
               (Some "+919812345678") false None None 0 None None None] "Ravi_K" = true.
Proof.
  apply (proj2 (check_username_misses_capitals asciiLower
                  [mkUser "u7" "Ravi K" "ravi@example.org" "Ravi_K" "h" "indian"
                          (Some "+919812345678") false None None 0 None None None]
                  "Ravi_K" (fun s _ => eq_refl) eq_refl)).
  - simpl. left. reflexivity.
  - simpl. intros [E|[]]. discriminate E.
Defined.

(** ** The test route *)

(** /test-sms calls the gateway exactly once, whatever the outcome,
    and reports the outcome. The destination is never missing: it is the
    normal form of the number in the body, or the fixed number
    "+919876543210" when the body has none, and it starts with '+'. When
    the call resolves the reply is 200 with the message id and the
    destination; when it is rejected the reply is 500 with the gateway's
    error text, and no second attempt is made. *)
Lemma test_sms_calls_once_and_reports
    (env : Env) (gateway : TwilioClient -> nat -> nat -> Message -> Settled)
    (toLocaleTimeString : Z -> string) (now : Z) (number : option string) :
  exists dest,
    dest = (if Js.truthy number
            then match number with Some s => SpecWords.normalize s | None => "" end
            else "+919876543210")
    /\ Js.startsWith "+" dest = true
    /\ fst (testSms env gateway toLocaleTimeString now number)
       = [EvGatewayCall (client env)
            (mkMessage (testMessage (toLocaleTimeString now))
                       (TWILIO_PHONE_NUMBER env) (Some dest))]
    /\ snd (testSms env gateway toLocaleTimeString now number)
       = match gateway (client env) 0%nat 0%nat
                       (mkMessage (testMessage (toLocaleTimeString now))
                                  (TWILIO_PHONE_NUMBER env) (Some dest)) with
         | Resolved sid =>
             mkTestSmsResponse 200 true "Test SMS sent successfully"
                               (Some sid) (Some dest) None
         | Rejected err =>
             mkTestSmsResponse 500 false "Test SMS failed" None None (Some err)
         end.
Proof.
  unfold testSms.
  destruct number as [s|]; cbn [Js.truthy].
  - destruct (String.eqb s "") eqn:Hs; cbn [negb].
    + exists "+919876543210". repeat split; reflexivity.
    + exists (SpecWords.normalize s).
      rewrite (formatPhoneNumber_cases (Some s)), Hs.
      split; [reflexivity|]. split; [|split; reflexivity].
      unfold SpecWords.normalize, Js.startsWith.
      destruct (if (_ =? 10)%nat then _ else _); reflexivity.
  - exists "+919876543210". repeat split; reflexivity.
Qed.

(** ** Restricted areas *)

(** X20. A coordinate of zero is taken for a missing one. POST
    /restricted tests the coordinates for truthiness before it tests
    their range, so a body whose latitude or longitude is the number 0,
    which is in range, is answered 400 "required" and nothing is saved:
    an area on the equator or on the prime meridian cannot be given by
    numbers. A request that is answered 201 has a truthy name and truthy
    coordinates; the saved area holds what parseFloat reads from them; a
    coordinate given as a number is then that number, different from 0
    and within [-90, 90] (latitude) or [-180, 180] (longitude); the
    radius is 1000 when the body gives none or 0. The text "0", however,
    passes both tests: with the other fields in order, a latitude "0" is
    saved as 0 with the reply 201 whenever the save resolves. *)
Theorem numeric_zero_coordinate_is_taken_for_missing
    (stringToNumber parseFloat : string -> Num)
    (saveArea : AreaDoc -> bool) (createdBy : string) (b : AreaBody) :
  ((exists q, (q == 0)%Q
              /\ (ab_latitude b = FNumber (NumQ q) \/ ab_longitude b = FNumber (NumQ q))) ->
   addRestrictedArea stringToNumber parseFloat saveArea createdBy b
   = (mkReply 400 false "Name, latitude, and longitude are required", None))
  /\ (reply_code (fst (addRestrictedArea stringToNumber parseFloat saveArea createdBy b))
      = 201 ->
      exists area,
        snd (addRestrictedArea stringToNumber parseFloat saveArea createdBy b) = Some area
        /\ saveArea area = true
        /\ truthyField (ab_name b) = true
        /\ truthyField (ab_latitude b) = true
        /\ truthyField (ab_longitude b) = true
        /\ area_latitude area = parseFloatOf parseFloat (ab_latitude b)
        /\ area_longitude area = parseFloatOf parseFloat (ab_longitude b)
        /\ (forall q, ab_latitude b = FNumber (NumQ q) ->
              ~ (q == 0)%Q /\ (-90 <= q)%Q /\ (q <= 90)%Q
              /\ area_latitude area = NumQ q)
        /\ (forall q, ab_longitude b = FNumber (NumQ q) ->
              ~ (q == 0)%Q /\ (-180 <= q)%Q /\ (q <= 180)%Q
              /\ area_longitude area = NumQ q)
        /\ (truthyField (ab_radius b) = false ->
            area_radius area = FNumber (NumQ 1000)))
  /\ (stringToNumber "0" = NumQ 0 ->
      parseFloat "0" = NumQ 0 ->
      ab_latitude b = FString "0" ->
      truthyField (ab_name b) = true ->
      truthyField (ab_longitude b) = true ->
      numLt (toNumber stringToNumber (ab_longitude b)) (-180) = false ->
      numGt (toNumber stringToNumber (ab_longitude b)) 180 = false ->
      exists area,
        area_latitude area = NumQ 0
        /\ addRestrictedArea stringToNumber parseFloat saveArea createdBy b
           = if saveArea area
             then (mkReply 201 true "Restricted area added successfully", Some area)
             else (mkReply 500 false "Failed to add restricted area", None)).
Proof.
  unfold addRestrictedArea. cbv zeta. split; [|split].
  - intros (q & Hq & Hz).
    assert (truthyField (FNumber (NumQ q)) = false) as Hfalse.
    { cbn [truthyField]. apply negb_false_iff, Qeq_bool_iff. exact Hq. }
    destruct (truthyField (ab_name b)); cbn [negb orb]; [|reflexivity].
    destruct Hz as [Hz|Hz]; rewrite Hz, Hfalse; cbn [negb orb]; [reflexivity|].
    destruct (truthyField (ab_latitude b)); reflexivity.
  - destruct (truthyField (ab_name b)) eqn:Hn; cbn [negb orb]; [|discriminate].
    destruct (truthyField (ab_latitude b)) eqn:Hlat; cbn [negb orb]; [|discriminate].
    destruct (truthyField (ab_longitude b)) eqn:Hlon; cbn [negb orb]; [|discriminate].
    destruct (numLt (toNumber stringToNumber (ab_latitude b)) (-90)) eqn:H1;
      cbn [orb]; [discriminate|].
    destruct (numGt (toNumber stringToNumber (ab_latitude b)) 90) eqn:H2;
      cbn [orb]; [discriminate|].
    destruct (numLt (toNumber stringToNumber (ab_longitude b)) (-180)) eqn:H3;
      cbn [orb]; [discriminate|].
    destruct (numGt (toNumber stringToNumber (ab_longitude b)) 180) eqn:H4;
      cbn [orb]; [discriminate|].
    match goal with |- context [saveArea ?a] => destruct (saveArea a) eqn:Hs end;
      [|discriminate].
    intros _. eexists. split; [reflexivity|]. split; [exact Hs|].
    cbn [area_latitude area_longitude area_radius].
    repeat (split; [reflexivity|]).
    split; [|split].
    + intros q E. rewrite E in Hlat, H1, H2. cbn [truthyField toNumber numLt numGt] in *.
      apply negb_true_iff in Hlat. apply negb_false_iff in H1, H2.
      split; [intros Hq; apply Qeq_bool_iff in Hq; congruence|].
      split; [apply Qle_bool_iff; exact H1|].
      split; [apply Qle_bool_iff; exact H2|]. rewrite E. reflexivity.
    + intros q E. rewrite E in Hlon, H3, H4. cbn [truthyField toNumber numLt numGt] in *.
      apply negb_true_iff in Hlon. apply negb_false_iff in H3, H4.
      split; [intros Hq; apply Qeq_bool_iff in Hq; congruence|].
      split; [apply Qle_bool_iff; exact H3|].
      split; [apply Qle_bool_iff; exact H4|]. rewrite E. reflexivity.
    + unfold orField. intros ->. reflexivity.
  - intros Hnum Hparse Hlat Hn Hlon H3 H4.
    rewrite Hn, Hlon, Hlat, H3, H4. cbn [truthyField String.eqb negb orb toNumber].
    rewrite Hnum. cbn [numLt numGt Qle_bool]. cbn [negb orb parseFloatOf].
    rewrite Hparse. eexists. split; [|reflexivity]. reflexivity.
Qed.

Lemma numeric_zero_coordinate_is_taken_for_missing_witness :
  addRestrictedArea (fun s => if String.eqb s "0" then NumQ 0 else NumNaN)
    (fun s => if String.eqb s "0" then NumQ 0 else NumNaN) (fun _ => true) "u1"
    (mkAreaBody (FString "Quito road works") Absent (FNumber (NumQ 0))
                (FNumber (NumQ (-785 # 10))) Absent Absent Absent Absent Absent)
  = (mkReply 400 false "Name, latitude, and longitude are required", None)
  /\ exists area,
       area_latitude area = NumQ 0
       /\ addRestrictedArea (fun s => if String.eqb s "0" then NumQ 0 else NumNaN)
            (fun s => if String.eqb s "0" then NumQ 0 else NumNaN) (fun _ => true) "u1"
            (mkAreaBody (FString "Quito road works") Absent (FString "0")
                        (FNumber (NumQ (-785 # 10))) Absent Absent Absent Absent Absent)
          = (mkReply 201 true "Restricted area added successfully", Some area).
Proof.
  split.
  - apply (proj1 (numeric_zero_coordinate_is_taken_for_missing
                    (fun s => if String.eqb s "0" then NumQ 0 else NumNaN)
                    (fun s => if String.eqb s "0" then NumQ 0 else NumNaN)
                    (fun _ => true) "u1"
                    (mkAreaBody (FString "Quito road works") Absent (FNumber (NumQ 0))
                                (FNumber (NumQ (-785 # 10))) Absent Absent Absent
                                Absent Absent))).
    exists 0%Q. split; [reflexivity|left; reflexivity].
  - apply (proj2 (proj2 (numeric_zero_coordinate_is_taken_for_missing
                    (fun s => if String.eqb s "0" then NumQ 0 else NumNaN)
                    (fun s => if String.eqb s "0" then NumQ 0 else NumNaN)
                    (fun _ => true) "u1"
                    (mkAreaBody (FString "Quito road works") Absent (FString "0")
                                (FNumber (NumQ (-785 # 10))) Absent Absent Absent
                                Absent Absent))));
      reflexivity.
Defined.

(** ** Document text *)

Module OcrFacts.
Import Ocr.
Local Open Scope list_scope.

Lemma digit_cases (c : N) :
  isDigit c = true ->
  isSpace c = false /\ isDash c = false /\ isWord c = true.
Proof.
  unfold isDigit. intros H. apply andb_prop in H as [Hlo Hhi].
  apply N.leb_le in Hlo, Hhi.
  assert (c = 48 \/ c = 49 \/ c = 50 \/ c = 51 \/ c = 52 \/
          c = 53 \/ c = 54 \/ c = 55 \/ c = 56 \/ c = 57)%N as Hc by lia.
  repeat (destruct Hc as [->|Hc]); try subst c; repeat split; reflexivity.
Qed.

Definition kept (c : N) : bool := negb (isSpace c || isDash c).

Lemma takeDigits_spec (n : nat) :
  forall t m rest,
    takeDigits n t = Some (m, rest) ->
    length m = n /\ forallb isDigit m = true /\ t = (m ++ rest)%list.
Proof.
  induction n as [|n IH]; intros t m rest H; simpl in H.
  - injection H as <- <-. auto.
  - destruct t as [|c r]; [discriminate H|].
    destruct (isDigit c) eqn:Hc; [|discriminate H].
    destruct (takeDigits n r) as [[m' rest']|] eqn:E; [|discriminate H].
    injection H as <- <-. destruct (IH r m' rest' E) as (Hl & Hd & ->).
    simpl. rewrite Hc, Hd, Hl. auto.
Qed.

Lemma takeDigits_complete (m : Text) :
  forall rest, forallb isDigit m = true -> takeDigits (length m) (m ++ rest) = Some (m, rest).
Proof.
  induction m as [|c m IH]; intros rest H; simpl; [reflexivity|].
  simpl in H. apply andb_prop in H as [Hc Hm]. rewrite Hc, (IH rest Hm). reflexivity.
Qed.

Lemma takeDigits_add (a b : nat) :
  forall t,
    takeDigits (a + b) t =
    match takeDigits a t with
    | Some (m1, r1) =>
        match takeDigits b r1 with
        | Some (m2, r2) => Some ((m1 ++ m2)%list, r2)
        | None => None
        end
    | None => None
    end.
Proof.
  induction a as [|a IH]; intros t; simpl.
  - destruct (takeDigits b t) as [[m2 r2]|]; reflexivity.
  - destruct t as [|c r]; [reflexivity|].
    destruct (isDigit c); [|reflexivity].
    rewrite IH. destruct (takeDigits a r) as [[m1 r1]|]; [|reflexivity].
    destruct (takeDigits b r1) as [[m2 r2]|]; reflexivity.
Qed.

Lemma takeSpaces_spaces (t : Text) : forallb isSpace (fst (takeSpaces t)) = true.
Proof.
  induction t as [|c r IH]; simpl; [reflexivity|].
  destruct (isSpace c) eqn:Hc; simpl; [rewrite Hc, IH|]; reflexivity.
Qed.

Lemma takeSpaces_before_digit (s rest : Text) (d : N) :
  forallb isSpace s = true -> isDigit d = true ->
  takeSpaces (s ++ d :: rest) = (s, d :: rest).
Proof.
  intros Hs Hd. induction s as [|c s IH]; simpl.
  - rewrite (proj1 (digit_cases d Hd)). reflexivity.
  - simpl in Hs. apply andb_prop in Hs as [Hc Hs]. rewrite Hc, (IH Hs). reflexivity.
Qed.

Lemma filter_kept_digits (m : Text) :
  forallb isDigit m = true -> List.filter kept m = m.
Proof.
  induction m as [|c m IH]; simpl; [reflexivity|].
  intros H. apply andb_prop in H as [Hc Hm].
  destruct (digit_cases c Hc) as (Hs & Hd & _).
  unfold kept at 1. rewrite Hs, Hd. simpl. rewrite (IH Hm). reflexivity.
Qed.

Lemma filter_kept_separators (s : Text) :
  forallb (fun c => isSpace c || isDash c) s = true -> List.filter kept s = [].
Proof.
  induction s as [|c s IH]; simpl; [reflexivity|].
  intros H. apply andb_prop in H as [Hc Hs].
  unfold kept at 1. rewrite Hc. simpl. exact (IH Hs).
Qed.

(** What a match of three groups leaves once its separators are
    removed. *)
Lemma threeGroups_kept (sep : Text -> option (Text * Text)) (t m rest : Text) :
  (forall t' s r, sep t' = Some (s, r) ->
                  forallb (fun c => isSpace c || isDash c) s = true) ->
  threeGroups sep t = Some (m, rest) ->
  length (List.filter kept m) = 12%nat
  /\ forallb isDigit (List.filter kept m) = true.
Proof.
  intros Hsep H. unfold threeGroups in H.
  destruct (takeDigits 4 t) as [[g1 r1]|] eqn:E1; [|discriminate H].
  destruct (sep r1) as [[s1 r2]|] eqn:S1; [|discriminate H].
  destruct (takeDigits 4 r2) as [[g2 r3]|] eqn:E2; [|discriminate H].
  destruct (sep r3) as [[s2 r4]|] eqn:S2; [|discriminate H].
  destruct (takeDigits 4 r4) as [[g3 r5]|] eqn:E3; [|discriminate H].
  injection H as <- <-.
  destruct (takeDigits_spec _ _ _ _ E1) as (L1 & D1 & _).
  destruct (takeDigits_spec _ _ _ _ E2) as (L2 & D2 & _).
  destruct (takeDigits_spec _ _ _ _ E3) as (L3 & D3 & _).
  rewrite !List.filter_app.
  rewrite (filter_kept_digits g1 D1), (filter_kept_digits g2 D2),
          (filter_kept_digits g3 D3).
  rewrite (filter_kept_separators s1 (Hsep _ _ _ S1)),
          (filter_kept_separators s2 (Hsep _ _ _ S2)).
  simpl. rewrite !length_app, L1, L2, L3. split; [reflexivity|].
  rewrite !forallb_app, D1, D2, D3. reflexivity.
Qed.

Lemma search_found (p : Pattern) (t : Text) :
  forall prev m, search p prev t = Some m -> exists prev' t', p prev' t' = Some m.
Proof.
  induction t as [|c r IH]; intros prev m H; simpl in H.
  - destruct (p prev []) eqn:E; [|discriminate H].
    injection H as <-. eauto.
  - destruct (p prev (c :: r)) eqn:E.
    + injection H as <-. eauto.
    + exact (IH _ _ H).
Qed.

Lemma pattern_kept (p : Pattern) (prev : option N) (t m : Text) :
  In p aadharPatterns ->
  p prev t = Some m ->
  length (List.filter kept m) = 12%nat /\ forallb isDigit (List.filter kept m) = true.
Proof.
  intros Hp H. simpl in Hp.
  destruct Hp as [<-|[<-|[<-|[<-|[]]]]].
  - unfold spacedBounded in H. destruct (boundaryBefore prev); [|discriminate H].
    destruct (threeGroups anySpaces t) as [[m' rest]|] eqn:E; [|discriminate H].
    destruct (boundaryAfter rest); [|discriminate H]. injection H as <-.
    apply (threeGroups_kept anySpaces t m' rest); [|exact E].
    intros t' s r Hs. unfold anySpaces in Hs. injection Hs as Hs.
    pose proof (takeSpaces_spaces t') as Hsp. rewrite Hs in Hsp. cbn [fst] in Hsp.
    apply forallb_forall. intros c Hc.
    rewrite (proj1 (forallb_forall _ _) Hsp c Hc). reflexivity.
  - unfold twelveBounded in H. destruct (boundaryBefore prev); [|discriminate H].
    destruct (takeDigits 12 t) as [[m' rest]|] eqn:E; [|discriminate H].
    destruct (boundaryAfter rest); [|discriminate H]. injection H as <-.
    destruct (takeDigits_spec _ _ _ _ E) as (L & D & _).
    rewrite (filter_kept_digits m' D). auto.
  - unfold spaced in H.
    destruct (threeGroups someSpaces t) as [[m' rest]|] eqn:E; [|discriminate H].
    injection H as <-.
    apply (threeGroups_kept someSpaces t m' rest); [|exact E].
    intros t' s r Hs. unfold someSpaces in Hs.
    pose proof (takeSpaces_spaces t') as Hsp.
    destruct (takeSpaces t') as [[|c0 s0] r0]; [discriminate Hs|].
    injection Hs as <- _. cbn [fst] in Hsp.
    apply forallb_forall. intros c Hc.
    rewrite (proj1 (forallb_forall _ _) Hsp c Hc). reflexivity.
  - unfold dashed in H.
    destruct (threeGroups takeDash t) as [[m' rest]|] eqn:E; [|discriminate H].
    injection H as <-.
    apply (threeGroups_kept takeDash t m' rest); [|exact E].
    intros t' s r Hs. unfold takeDash in Hs.
    destruct t' as [|c r']; [discriminate Hs|].
    destruct (isDash c) eqn:Hd; [|discriminate Hs].
    injection Hs as <- _. simpl. rewrite Hd, orb_true_r. reflexivity.
Qed.

Lemma firstMatch_found (patterns : list Pattern) (text m : Text) :
  firstMatch patterns text = Some m ->
  exists p prev t, In p patterns /\ p prev t = Some m.
Proof.
  induction patterns as [|p rest IH]; simpl; [discriminate|].
  destruct (search p None text) as [m'|] eqn:E.
  - intros H. injection H as <-.
    destruct (search_found p text None m' E) as (prev & t & Hm). eauto 6.
  - intros H. destruct (IH H) as (q & prev & t & Hq & Hm). eauto 7.
Qed.

(** Twelve digits between boundaries are also three groups of four with
    no white space between them. *)
Lemma twelveBounded_is_spacedBounded (prev : option N) (t m : Text) :
  twelveBounded prev t = Some m -> spacedBounded prev t = Some m.
Proof.
  unfold twelveBounded, spacedBounded.
  destruct (boundaryBefore prev); [|discriminate].
  change 12%nat with (4 + (4 + 4))%nat. rewrite takeDigits_add.
  unfold threeGroups, anySpaces.
  destruct (takeDigits 4 t) as [[g1 r1]|]; [|discriminate].
  rewrite takeDigits_add.
  destruct (takeDigits 4 r1) as [[g2 r2]|] eqn:E2; [|discriminate].
  destruct (takeDigits 4 r2) as [[g3 r3]|] eqn:E3; [|discriminate].
  assert (forall r g r', takeDigits 4 r = Some (g, r') -> takeSpaces r = ([], r)) as Hno.
  { intros r g r' E. destruct r as [|c r0]; [discriminate E|]. simpl in E |- *.
    destruct (isDigit c) eqn:Hc; [|discriminate E].
    rewrite (proj1 (digit_cases c Hc)). reflexivity. }
  rewrite (Hno _ _ _ E2), E2, (Hno _ _ _ E3), E3.
  destruct (boundaryAfter r3); [|discriminate].
  intros H. injection H as <-. reflexivity.
Qed.

Lemma search_twelveBounded_none (t : Text) :
  forall prev, search spacedBounded prev t = None -> search twelveBounded prev t = None.
Proof.
  induction t as [|c r IH]; intros prev H; simpl in *.
  - destruct (spacedBounded prev []) eqn:E; [discriminate H|].
    destruct (twelveBounded prev []) eqn:E'; [|reflexivity].
    rewrite (twelveBounded_is_spacedBounded _ _ _ E') in E. discriminate E.
  - destruct (spacedBounded prev (c :: r)) eqn:E; [discriminate H|].
    destruct (twelveBounded prev (c :: r)) eqn:E'.
    + rewrite (twelveBounded_is_spacedBounded _ _ _ E') in E. discriminate E.
    + exact (IH _ H).
Qed.

End OcrFacts.

(** X21. What the extraction proposes is an Aadhar number in form. For
    every recognised text, the document number extractDocumentInfo
    returns is either empty or exactly twelve digits, with no white space
    or dash left in it; a non-empty result therefore passes the test
    registration applies to an Aadhar number. *)
Theorem extracted_number_is_empty_or_twelve_digits (text : Ocr.Text) :
  Ocr.extractDocumentInfo text = []
  \/ (length (Ocr.extractDocumentInfo text) = 12%nat
      /\ forallb Ocr.isDigit (Ocr.extractDocumentInfo text) = true
      /\ Ocr.isAadhar (Ocr.extractDocumentInfo text) = true).
Proof.
  unfold Ocr.extractDocumentInfo.
  destruct (Ocr.firstMatch Ocr.aadharPatterns text) as [m|] eqn:E; [|left; reflexivity].
  right. destruct (OcrFacts.firstMatch_found _ _ _ E) as (p & prev & t & Hp & Hm).
  destruct (OcrFacts.pattern_kept p prev t m Hp Hm) as [Hl Hd].
  fold OcrFacts.kept. split; [exact Hl|]. split; [exact Hd|].
  unfold Ocr.isAadhar.
  assert (List.filter (fun c => negb (Ocr.isSpace c)) (List.filter OcrFacts.kept m)
          = List.filter OcrFacts.kept m) as ->.
  { revert Hd. generalize (List.filter OcrFacts.kept m) as l.
    induction l as [|c l IH]; simpl; [reflexivity|].
    intros H. apply andb_prop in H as [Hc Hl'].
    rewrite (proj1 (OcrFacts.digit_cases c Hc)). simpl. rewrite (IH Hl'). reflexivity. }
  rewrite Hl, Hd. reflexivity.
Qed.

(** X22. The second pattern is never the one that matches. Whenever
    twelve digits between word boundaries match, the first pattern, with
    its optional white space, matches at that position too; so for every
    text the loop over the four patterns finds what the loop over the
    first, third and fourth finds. *)
Theorem twelve_digit_pattern_is_never_reached (text : Ocr.Text) :
  Ocr.firstMatch Ocr.aadharPatterns text
  = Ocr.firstMatch [Ocr.spacedBounded; Ocr.spaced; Ocr.dashed] text.
Proof.
  unfold Ocr.aadharPatterns. cbn [Ocr.firstMatch].
  destruct (Ocr.search Ocr.spacedBounded None text) eqn:E; [reflexivity|].
  rewrite (OcrFacts.search_twelveBounded_none text None E). reflexivity.
Qed.

(** X23. Writing a number in groups and reading it back. For three
    groups of four digits, written with any white space, or none, between
    the groups and nothing around them, extractDocumentInfo returns the
    twelve digits. *)
Theorem extract_of_a_grouped_number (g1 g2 g3 s1 s2 : Ocr.Text) :
  length g1 = 4%nat -> length g2 = 4%nat -> length g3 = 4%nat ->
  forallb Ocr.isDigit (g1 ++ g2 ++ g3)%list = true ->
  forallb Ocr.isSpace (s1 ++ s2)%list = true ->
  Ocr.extractDocumentInfo (g1 ++ s1 ++ g2 ++ s2 ++ g3)%list = (g1 ++ g2 ++ g3)%list.
Proof.
  intros L1 L2 L3 Hd Hs.
  rewrite !forallb_app in Hd. apply andb_prop in Hd as [D1 Hd].
  apply andb_prop in Hd as [D2 D3].
  rewrite forallb_app in Hs. apply andb_prop in Hs as [S1 S2].
  destruct g2 as [|d2 g2']; [discriminate L2|].
  destruct g3 as [|d3 g3']; [discriminate L3|].
  assert (Ocr.isDigit d2 = true) as Hd2 by (simpl in D2; apply andb_prop in D2; tauto).
  assert (Ocr.isDigit d3 = true) as Hd3 by (simpl in D3; apply andb_prop in D3; tauto).
  assert (Ocr.threeGroups Ocr.anySpaces
            (g1 ++ s1 ++ (d2 :: g2') ++ s2 ++ d3 :: g3')%list
          = Some ((g1 ++ s1 ++ (d2 :: g2') ++ s2 ++ d3 :: g3')%list, [])) as Hm.
  { unfold Ocr.threeGroups, Ocr.anySpaces.
    rewrite <- L1 at 1. rewrite (OcrFacts.takeDigits_complete g1 _ D1).
    change (s1 ++ (d2 :: g2') ++ s2 ++ d3 :: g3')%list
      with (s1 ++ d2 :: (g2' ++ s2 ++ d3 :: g3'))%list.
    rewrite (OcrFacts.takeSpaces_before_digit s1 _ d2 S1 Hd2).
    change (d2 :: g2' ++ s2 ++ d3 :: g3')%list
      with ((d2 :: g2') ++ s2 ++ d3 :: g3')%list.
    rewrite <- L2 at 1. rewrite (OcrFacts.takeDigits_complete (d2 :: g2') _ D2).
    rewrite (OcrFacts.takeSpaces_before_digit s2 _ d3 S2 Hd3).
    pose proof (OcrFacts.takeDigits_complete (d3 :: g3') [] D3) as E3.
    rewrite app_nil_r, L3 in E3. rewrite E3. reflexivity. }
  unfold Ocr.extractDocumentInfo, Ocr.aadharPatterns. cbn [Ocr.firstMatch].
  assert (Ocr.search Ocr.spacedBounded None
            (g1 ++ s1 ++ (d2 :: g2') ++ s2 ++ d3 :: g3')%list
          = Some (g1 ++ s1 ++ (d2 :: g2') ++ s2 ++ d3 :: g3')%list) as ->.
  { destruct g1 as [|d1 g1']; [discriminate L1|].
    cbn [Ocr.search app]. unfold Ocr.spacedBounded at 1. cbn [Ocr.boundaryBefore].
    cbn [app] in Hm. rewrite Hm. reflexivity. }
  fold OcrFacts.kept. rewrite !List.filter_app.
  rewrite (OcrFacts.filter_kept_digits g1 D1),
          (OcrFacts.filter_kept_digits (d2 :: g2') D2),
          (OcrFacts.filter_kept_digits (d3 :: g3') D3).
  assert (forall s, forallb Ocr.isSpace s = true -> List.filter OcrFacts.kept s = []) as Hsp.
  { intros s H. apply OcrFacts.filter_kept_separators.
    apply forallb_forall. intros c Hc.
    rewrite (proj1 (forallb_forall _ _) H c Hc). reflexivity. }
  rewrite (Hsp s1 S1), (Hsp s2 S2). reflexivity.
Qed.

Lemma extract_of_a_grouped_number_witness :
  Ocr.extractDocumentInfo (Ocr.ofString "4240 2180  9214")
  = Ocr.ofString "424021809214".
Proof.
  apply (extract_of_a_grouped_number
           (Ocr.ofString "4240") (Ocr.ofString "2180") (Ocr.ofString "9214")
           (Ocr.ofString " ") (Ocr.ofString "  ")); reflexivity.
Defined.
